(** * The Secret Hitler simulator: the round engine of [game.py]

    A shallow embedding of [secret_hitler_simulator/constants.py],
    [player.py] (the agent interface) and [game.py] (the [Game] engine and
    the [RoundRecord] chain), followed by the properties of the engine.

    Conventions of the embedding:
    - a [Player] object is an opaque handle compared by identity; its
      behaviour is looked up in a table of agents;
    - what an agent returns is a Python value of one of the kinds of
      [pyval]: the engine validates some returns and stores others as they
      come; what an agent raises is an instance of [Exception] or of
      [BaseException] only, and [except Exception] catches the former;
    - engine methods run in a state-and-exception monad over the [Game]
      object and the process-wide state of Python's [random] module;
    - the objects handed to agents are modelled as values, which is enough
      for the engine: it never reads a view back.  [copy.deepcopy] follows
      [_previous_record] recursively and, under CPython's default recursion
      limit, raises [RecursionError] on a chain of about 250 records: the
      model is of histories shorter than that, and the properties of whole
      games are stated for 200 rounds at most. *)

From stdpp Require Import gmap strings list fin_maps.
From Stdlib Require QArith_base.

Set Warnings "-register-all,-clear-no-such-hyp".

(** ** constants.py *)

Module Allegiance.
Inductive t : Set := LIBERAL | FASCIST.

#[global] Instance eq_dec : EqDecision t.
Proof. solve_decision. Defined.
End Allegiance.

Module Policy.
Inductive t : Set := LIBERAL | FASCIST.

#[global] Instance eq_dec : EqDecision t.
Proof. solve_decision. Defined.
End Policy.

(** [PARTY_MEMBERSHIP_BY_PLAYERS[n][allegiance]]; a missing key is [None]
    (Python raises [KeyError]). *)
Definition PARTY_MEMBERSHIP_BY_PLAYERS (number_players : nat)
    : option (Allegiance.t → nat) :=
  let row (l f : nat) : option (Allegiance.t → nat) :=
    Some (λ a, match a with
               | Allegiance.LIBERAL => l
               | Allegiance.FASCIST => f
               end) in
  match number_players with
  | 5 => row 3 2
  | 6 => row 4 2
  | 7 => row 4 3
  | 8 => row 5 3
  | 9 => row 5 4
  | 10 => row 6 4
  | _ => None
  end.

(** ** Python values and exceptions *)

(** The values an agent method hands back to the engine, as far as the
    model goes: [None], booleans, integers, strings, the members of
    [Policy] and [Allegiance], and tuples of these.  Floats, slices and
    objects with methods of their own are left out: what is said of an
    agent's answers is said of these values. *)
Inductive pyval : Type :=
  | VNone
  | VBool (b : bool)
  | VInt (z : Z)
  | VStr (s : string)
  | VPolicy (p : Policy.t)
  | VAllegiance (a : Allegiance.t)
  | VTuple (items : list pyval).

(** [isinstance(v, int)], with the integer it denotes: [bool] is a subclass
    of [int] in Python. *)
Definition as_int (v : pyval) : option Z :=
  match v with
  | VInt z => Some z
  | VBool b => Some (if b then 1 else 0)%Z
  | _ => None
  end.

Module Player.
(** A player object, compared by identity. *)
Definition t : Set := nat.

(** The abstract methods of [class Player] in player.py. *)
Inductive method : Set :=
  | select_chancellor
  | intent_to_vote_on_government
  | vote_on_government
  | select_policy_to_discard_as_president
  | select_policy_to_discard_as_chancellor
  | veto_legislation
  | claimed_policy_to_discard_as_president
  | claimed_policy_to_discard_as_chancellor
  | select_player_to_investigate
  | claimed_player_investigation_result
  | select_special_election_president
  | select_player_to_execute.
End Player.

(** Modelled from the spec: [secret_hitler_simulator/errors.py], which
    declares [PlayerException], is not among the sources.  The engine builds
    it from a mapping with a ["message"] and a ["player"] and chains the
    underlying exception with [raise ... from e]; the spec (4.3) describes
    the fault value as carrying the offending player, a message and the
    underlying cause.  The other constructors are the built-in exceptions
    the engine can raise; [Exception] stands for whatever else an agent
    raises that is an instance of [Exception], and [BaseException] for
    what it raises that is not ([SystemExit], [KeyboardInterrupt],
    [GeneratorExit]).  Messages keep the text of the source's f-strings
    with the interpolated fields left as placeholders. *)
Inductive exn : Type :=
  | ValueError (msg : string)
  | IndexError
  | TypeError
  | KeyError
  | UnboundLocalError
  | Exception (name : string)
  | BaseException (name : string)
  | PlayerException (message : string) (player : Player.t)
      (cause : option exn).

(** [isinstance(e, Exception)]: what [except Exception] catches. *)
Definition is_Exception (e : exn) : bool :=
  match e with
  | BaseException _ => false
  | _ => true
  end.

(** An agent call either returns a value or raises. *)
Inductive reply : Type :=
  | Returns (v : pyval)
  | Raises (e : exn).

(** ** Sequences *)

(** [tuple.index(x)]: the position of the first occurrence. *)
Fixpoint index (l : list Player.t) (x : Player.t) : option nat :=
  match l with
  | [] => None
  | y :: l' => if decide (y = x) then Some 0 else S <$> index l' x
  end.

(** [seq[i]] for an arbitrary Python value [i]: negative integers count
    from the end, an integer out of range raises [IndexError], anything
    that is not an integer raises [TypeError]. *)
Definition subscript {A : Type} (l : list A) (i : pyval) : exn + A :=
  match as_int i with
  | None => inl TypeError
  | Some z =>
      let n := if (z <? 0)%Z then (Z.of_nat (length l) + z)%Z else z in
      if (n <? 0)%Z then inl IndexError
      else from_option inr (inl IndexError) (l !! Z.to_nat n)
  end.

(** [seq.count(x)] *)
Definition count (x : Policy.t) (l : list Policy.t) : nat :=
  length (filter (λ y, y = x) l).

(** [x[i], x[j] = x[j], x[i]]; with an index out of range, which
    [randbelow] never produces, the list is left as it is. *)
Definition swap {A : Type} (x : list A) (i j : nat) : list A :=
  match x !! i, x !! j with
  | Some a, Some b => <[i:=b]> (<[j:=a]> x)
  | _, _ => x
  end.

(** The state of a Mersenne-Twister-like generator is kept abstract: all the
    engine needs is [randbelow n], which draws below [n] and advances the
    state. *)
Class RandomGenerator (rng : Type) : Type :=
  randbelow : nat → rng → nat * rng.

(** [random.shuffle(x)] as CPython implements it:
    [for i in reversed(range(1, len(x))): j = randbelow(i + 1); swap i j]. *)
Fixpoint shuffle_from `{RandomGenerator rng} {A : Type}
    (i : nat) (x : list A) (r : rng) : list A * rng :=
  match i with
  | 0 => (x, r)
  | S i' =>
      let '(j, r') := randbelow (S i) r in
      shuffle_from i' (swap x i j) r'
  end.

Definition shuffle `{RandomGenerator rng} {A : Type}
    (x : list A) (r : rng) : list A * rng :=
  shuffle_from (length x - 1) x r.

(** ** The [RoundRecord] dataclass *)

Module RoundRecord.
(** One record per round.  Fields the engine copies from an agent's return
    without narrowing it hold a [pyval]. *)
Inductive t : Type := Build {
  number_of_players : nat;
  fascists : gset nat;
  hitler : nat;
  _previous_record : option t;
  president : option nat;
  declared_election_intent : option (gmap nat (gmap nat pyval));
  chancellor : option pyval;
  election_results : option (gmap nat pyval);
  successful_election : option bool;
  num_fascist_policies_for_president : option nat;
  policy_discarded_by_president : option Policy.t;
  num_fascist_policies_for_chancellor : option nat;
  policy_discarded_by_chancellor : option Policy.t;
  chancellor_veto : option bool;
  president_veto : option bool;
  president_claimed_number_of_fascist_cards_drawn : option pyval;
  president_claimed_discarded_policy : option Policy.t;
  chancellor_claimed_discarded_policy : option Policy.t;
  anarchy_occured : option bool;
  selected_policy : option Policy.t;
  investigated_player : option pyval;
  investigated_player_identity : option Allegiance.t;
  claimed_investigated_player_allegiance : option pyval;
  special_election_next_president : option pyval;
  executed_player : option pyval;
  anarchy_result : option Policy.t;
  your_player_id : option nat
}.

Definition set_president
    (v : option nat) (r : t) : t :=
  Build (number_of_players r) (fascists r) (hitler r) (_previous_record r) v
    (declared_election_intent r) (chancellor r) (election_results r)
    (successful_election r) (num_fascist_policies_for_president r)
    (policy_discarded_by_president r)
    (num_fascist_policies_for_chancellor r)
    (policy_discarded_by_chancellor r) (chancellor_veto r)
    (president_veto r) (president_claimed_number_of_fascist_cards_drawn r)
    (president_claimed_discarded_policy r)
    (chancellor_claimed_discarded_policy r) (anarchy_occured r)
    (selected_policy r) (investigated_player r)
    (investigated_player_identity r)
    (claimed_investigated_player_allegiance r)
    (special_election_next_president r) (executed_player r)
    (anarchy_result r) (your_player_id r).

Definition set_declared_election_intent
    (v : option (gmap nat (gmap nat pyval))) (r : t) : t :=
  Build (number_of_players r) (fascists r) (hitler r) (_previous_record r)
    (president r) v (chancellor r) (election_results r)
    (successful_election r) (num_fascist_policies_for_president r)
    (policy_discarded_by_president r)
    (num_fascist_policies_for_chancellor r)
    (policy_discarded_by_chancellor r) (chancellor_veto r)
    (president_veto r) (president_claimed_number_of_fascist_cards_drawn r)
    (president_claimed_discarded_policy r)
    (chancellor_claimed_discarded_policy r) (anarchy_occured r)
    (selected_policy r) (investigated_player r)
    (investigated_player_identity r)
    (claimed_investigated_player_allegiance r)
    (special_election_next_president r) (executed_player r)
    (anarchy_result r) (your_player_id r).

Definition set_chancellor
    (v : option pyval) (r : t) : t :=
  Build (number_of_players r) (fascists r) (hitler r) (_previous_record r)
    (president r) (declared_election_intent r) v (election_results r)
    (successful_election r) (num_fascist_policies_for_president r)
    (policy_discarded_by_president r)
    (num_fascist_policies_for_chancellor r)
    (policy_discarded_by_chancellor r) (chancellor_veto r)
    (president_veto r) (president_claimed_number_of_fascist_cards_drawn r)
    (president_claimed_discarded_policy r)
    (chancellor_claimed_discarded_policy r) (anarchy_occured r)
    (selected_policy r) (investigated_player r)
    (investigated_player_identity r)
    (claimed_investigated_player_allegiance r)
    (special_election_next_president r) (executed_player r)
    (anarchy_result r) (your_player_id r).

Definition set_election_results
    (v : option (gmap nat pyval)) (r : t) : t :=
  Build (number_of_players r) (fascists r) (hitler r) (_previous_record r)
    (president r) (declared_election_intent r) (chancellor r) v
    (successful_election r) (num_fascist_policies_for_president r)
    (policy_discarded_by_president r)
    (num_fascist_policies_for_chancellor r)
    (policy_discarded_by_chancellor r) (chancellor_veto r)
    (president_veto r) (president_claimed_number_of_fascist_cards_drawn r)
    (president_claimed_discarded_policy r)
    (chancellor_claimed_discarded_policy r) (anarchy_occured r)
    (selected_policy r) (investigated_player r)
    (investigated_player_identity r)
    (claimed_investigated_player_allegiance r)
    (special_election_next_president r) (executed_player r)
    (anarchy_result r) (your_player_id r).

Definition set_successful_election
    (v : option bool) (r : t) : t :=
  Build (number_of_players r) (fascists r) (hitler r) (_previous_record r)
    (president r) (declared_election_intent r) (chancellor r)
    (election_results r) v (num_fascist_policies_for_president r)
    (policy_discarded_by_president r)
    (num_fascist_policies_for_chancellor r)
    (policy_discarded_by_chancellor r) (chancellor_veto r)
    (president_veto r) (president_claimed_number_of_fascist_cards_drawn r)
    (president_claimed_discarded_policy r)
    (chancellor_claimed_discarded_policy r) (anarchy_occured r)
    (selected_policy r) (investigated_player r)
    (investigated_player_identity r)
    (claimed_investigated_player_allegiance r)
    (special_election_next_president r) (executed_player r)
    (anarchy_result r) (your_player_id r).

Definition set_num_fascist_policies_for_president
    (v : option nat) (r : t) : t :=
  Build (number_of_players r) (fascists r) (hitler r) (_previous_record r)
    (president r) (declared_election_intent r) (chancellor r)
    (election_results r) (successful_election r) v
    (policy_discarded_by_president r)
    (num_fascist_policies_for_chancellor r)
    (policy_discarded_by_chancellor r) (chancellor_veto r)
    (president_veto r) (president_claimed_number_of_fascist_cards_drawn r)
    (president_claimed_discarded_policy r)
    (chancellor_claimed_discarded_policy r) (anarchy_occured r)
    (selected_policy r) (investigated_player r)
    (investigated_player_identity r)
    (claimed_investigated_player_allegiance r)
    (special_election_next_president r) (executed_player r)
    (anarchy_result r) (your_player_id r).

Definition set_policy_discarded_by_president
    (v : option Policy.t) (r : t) : t :=
  Build (number_of_players r) (fascists r) (hitler r) (_previous_record r)
    (president r) (declared_election_intent r) (chancellor r)
    (election_results r) (successful_election r)
    (num_fascist_policies_for_president r) v
    (num_fascist_policies_for_chancellor r)
    (policy_discarded_by_chancellor r) (chancellor_veto r)
    (president_veto r) (president_claimed_number_of_fascist_cards_drawn r)
    (president_claimed_discarded_policy r)
    (chancellor_claimed_discarded_policy r) (anarchy_occured r)
    (selected_policy r) (investigated_player r)
    (investigated_player_identity r)
    (claimed_investigated_player_allegiance r)
    (special_election_next_president r) (executed_player r)
    (anarchy_result r) (your_player_id r).

Definition set_num_fascist_policies_for_chancellor
    (v : option nat) (r : t) : t :=
  Build (number_of_players r) (fascists r) (hitler r) (_previous_record r)
    (president r) (declared_election_intent r) (chancellor r)
    (election_results r) (successful_election r)
    (num_fascist_policies_for_president r) (policy_discarded_by_president r)
    v (policy_discarded_by_chancellor r) (chancellor_veto r)
    (president_veto r) (president_claimed_number_of_fascist_cards_drawn r)
    (president_claimed_discarded_policy r)
    (chancellor_claimed_discarded_policy r) (anarchy_occured r)
    (selected_policy r) (investigated_player r)
    (investigated_player_identity r)
    (claimed_investigated_player_allegiance r)
    (special_election_next_president r) (executed_player r)
    (anarchy_result r) (your_player_id r).

Definition set_policy_discarded_by_chancellor
    (v : option Policy.t) (r : t) : t :=
  Build (number_of_players r) (fascists r) (hitler r) (_previous_record r)
    (president r) (declared_election_intent r) (chancellor r)
    (election_results r) (successful_election r)
    (num_fascist_policies_for_president r) (policy_discarded_by_president r)
    (num_fascist_policies_for_chancellor r) v (chancellor_veto r)
    (president_veto r) (president_claimed_number_of_fascist_cards_drawn r)
    (president_claimed_discarded_policy r)
    (chancellor_claimed_discarded_policy r) (anarchy_occured r)
    (selected_policy r) (investigated_player r)
    (investigated_player_identity r)
    (claimed_investigated_player_allegiance r)
    (special_election_next_president r) (executed_player r)
    (anarchy_result r) (your_player_id r).

Definition set_chancellor_veto
    (v : option bool) (r : t) : t :=
  Build (number_of_players r) (fascists r) (hitler r) (_previous_record r)
    (president r) (declared_election_intent r) (chancellor r)
    (election_results r) (successful_election r)
    (num_fascist_policies_for_president r) (policy_discarded_by_president r)
    (num_fascist_policies_for_chancellor r)
    (policy_discarded_by_chancellor r) v (president_veto r)
    (president_claimed_number_of_fascist_cards_drawn r)
    (president_claimed_discarded_policy r)
    (chancellor_claimed_discarded_policy r) (anarchy_occured r)
    (selected_policy r) (investigated_player r)
    (investigated_player_identity r)
    (claimed_investigated_player_allegiance r)
    (special_election_next_president r) (executed_player r)
    (anarchy_result r) (your_player_id r).

Definition set_president_veto
    (v : option bool) (r : t) : t :=
  Build (number_of_players r) (fascists r) (hitler r) (_previous_record r)
    (president r) (declared_election_intent r) (chancellor r)
    (election_results r) (successful_election r)
    (num_fascist_policies_for_president r) (policy_discarded_by_president r)
    (num_fascist_policies_for_chancellor r)
    (policy_discarded_by_chancellor r) (chancellor_veto r) v
    (president_claimed_number_of_fascist_cards_drawn r)
    (president_claimed_discarded_policy r)
    (chancellor_claimed_discarded_policy r) (anarchy_occured r)
    (selected_policy r) (investigated_player r)
    (investigated_player_identity r)
    (claimed_investigated_player_allegiance r)
    (special_election_next_president r) (executed_player r)
    (anarchy_result r) (your_player_id r).

Definition set_president_claimed_number_of_fascist_cards_drawn
    (v : option pyval) (r : t) : t :=
  Build (number_of_players r) (fascists r) (hitler r) (_previous_record r)
    (president r) (declared_election_intent r) (chancellor r)
    (election_results r) (successful_election r)
    (num_fascist_policies_for_president r) (policy_discarded_by_president r)
    (num_fascist_policies_for_chancellor r)
    (policy_discarded_by_chancellor r) (chancellor_veto r)
    (president_veto r) v (president_claimed_discarded_policy r)
    (chancellor_claimed_discarded_policy r) (anarchy_occured r)
    (selected_policy r) (investigated_player r)
    (investigated_player_identity r)
    (claimed_investigated_player_allegiance r)
    (special_election_next_president r) (executed_player r)
    (anarchy_result r) (your_player_id r).

Definition set_president_claimed_discarded_policy
    (v : option Policy.t) (r : t) : t :=
  Build (number_of_players r) (fascists r) (hitler r) (_previous_record r)
    (president r) (declared_election_intent r) (chancellor r)
    (election_results r) (successful_election r)
    (num_fascist_policies_for_president r) (policy_discarded_by_president r)
    (num_fascist_policies_for_chancellor r)
    (policy_discarded_by_chancellor r) (chancellor_veto r)
    (president_veto r) (president_claimed_number_of_fascist_cards_drawn r) v
    (chancellor_claimed_discarded_policy r) (anarchy_occured r)
    (selected_policy r) (investigated_player r)
    (investigated_player_identity r)
    (claimed_investigated_player_allegiance r)
    (special_election_next_president r) (executed_player r)
    (anarchy_result r) (your_player_id r).

Definition set_chancellor_claimed_discarded_policy
    (v : option Policy.t) (r : t) : t :=
  Build (number_of_players r) (fascists r) (hitler r) (_previous_record r)
    (president r) (declared_election_intent r) (chancellor r)
    (election_results r) (successful_election r)
    (num_fascist_policies_for_president r) (policy_discarded_by_president r)
    (num_fascist_policies_for_chancellor r)
    (policy_discarded_by_chancellor r) (chancellor_veto r)
    (president_veto r) (president_claimed_number_of_fascist_cards_drawn r)
    (president_claimed_discarded_policy r) v (anarchy_occured r)
    (selected_policy r) (investigated_player r)
    (investigated_player_identity r)
    (claimed_investigated_player_allegiance r)
    (special_election_next_president r) (executed_player r)
    (anarchy_result r) (your_player_id r).

Definition set_selected_policy
    (v : option Policy.t) (r : t) : t :=
  Build (number_of_players r) (fascists r) (hitler r) (_previous_record r)
    (president r) (declared_election_intent r) (chancellor r)
    (election_results r) (successful_election r)
    (num_fascist_policies_for_president r) (policy_discarded_by_president r)
    (num_fascist_policies_for_chancellor r)
    (policy_discarded_by_chancellor r) (chancellor_veto r)
    (president_veto r) (president_claimed_number_of_fascist_cards_drawn r)
    (president_claimed_discarded_policy r)
    (chancellor_claimed_discarded_policy r) (anarchy_occured r) v
    (investigated_player r) (investigated_player_identity r)
    (claimed_investigated_player_allegiance r)
    (special_election_next_president r) (executed_player r)
    (anarchy_result r) (your_player_id r).

Definition set_investigated_player
    (v : option pyval) (r : t) : t :=
  Build (number_of_players r) (fascists r) (hitler r) (_previous_record r)
    (president r) (declared_election_intent r) (chancellor r)
    (election_results r) (successful_election r)
    (num_fascist_policies_for_president r) (policy_discarded_by_president r)
    (num_fascist_policies_for_chancellor r)
    (policy_discarded_by_chancellor r) (chancellor_veto r)
    (president_veto r) (president_claimed_number_of_fascist_cards_drawn r)
    (president_claimed_discarded_policy r)
    (chancellor_claimed_discarded_policy r) (anarchy_occured r)
    (selected_policy r) v (investigated_player_identity r)
    (claimed_investigated_player_allegiance r)
    (special_election_next_president r) (executed_player r)
    (anarchy_result r) (your_player_id r).

Definition set_investigated_player_identity
    (v : option Allegiance.t) (r : t) : t :=
  Build (number_of_players r) (fascists r) (hitler r) (_previous_record r)
    (president r) (declared_election_intent r) (chancellor r)
    (election_results r) (successful_election r)
    (num_fascist_policies_for_president r) (policy_discarded_by_president r)
    (num_fascist_policies_for_chancellor r)
    (policy_discarded_by_chancellor r) (chancellor_veto r)
    (president_veto r) (president_claimed_number_of_fascist_cards_drawn r)
    (president_claimed_discarded_policy r)
    (chancellor_claimed_discarded_policy r) (anarchy_occured r)
    (selected_policy r) (investigated_player r) v
    (claimed_investigated_player_allegiance r)
    (special_election_next_president r) (executed_player r)
    (anarchy_result r) (your_player_id r).

Definition set_claimed_investigated_player_allegiance
    (v : option pyval) (r : t) : t :=
  Build (number_of_players r) (fascists r) (hitler r) (_previous_record r)
    (president r) (declared_election_intent r) (chancellor r)
    (election_results r) (successful_election r)
    (num_fascist_policies_for_president r) (policy_discarded_by_president r)
    (num_fascist_policies_for_chancellor r)
    (policy_discarded_by_chancellor r) (chancellor_veto r)
    (president_veto r) (president_claimed_number_of_fascist_cards_drawn r)
    (president_claimed_discarded_policy r)
    (chancellor_claimed_discarded_policy r) (anarchy_occured r)
    (selected_policy r) (investigated_player r)
    (investigated_player_identity r) v (special_election_next_president r)
    (executed_player r) (anarchy_result r) (your_player_id r).

Definition set_special_election_next_president
    (v : option pyval) (r : t) : t :=
  Build (number_of_players r) (fascists r) (hitler r) (_previous_record r)
    (president r) (declared_election_intent r) (chancellor r)
    (election_results r) (successful_election r)
    (num_fascist_policies_for_president r) (policy_discarded_by_president r)
    (num_fascist_policies_for_chancellor r)
    (policy_discarded_by_chancellor r) (chancellor_veto r)
    (president_veto r) (president_claimed_number_of_fascist_cards_drawn r)
    (president_claimed_discarded_policy r)
    (chancellor_claimed_discarded_policy r) (anarchy_occured r)
    (selected_policy r) (investigated_player r)
    (investigated_player_identity r)
    (claimed_investigated_player_allegiance r) v (executed_player r)
    (anarchy_result r) (your_player_id r).

Definition set_executed_player
    (v : option pyval) (r : t) : t :=
  Build (number_of_players r) (fascists r) (hitler r) (_previous_record r)
    (president r) (declared_election_intent r) (chancellor r)
    (election_results r) (successful_election r)
    (num_fascist_policies_for_president r) (policy_discarded_by_president r)
    (num_fascist_policies_for_chancellor r)
    (policy_discarded_by_chancellor r) (chancellor_veto r)
    (president_veto r) (president_claimed_number_of_fascist_cards_drawn r)
    (president_claimed_discarded_policy r)
    (chancellor_claimed_discarded_policy r) (anarchy_occured r)
    (selected_policy r) (investigated_player r)
    (investigated_player_identity r)
    (claimed_investigated_player_allegiance r)
    (special_election_next_president r) v (anarchy_result r)
    (your_player_id r).

Definition set_anarchy_result
    (v : option Policy.t) (r : t) : t :=
  Build (number_of_players r) (fascists r) (hitler r) (_previous_record r)
    (president r) (declared_election_intent r) (chancellor r)
    (election_results r) (successful_election r)
    (num_fascist_policies_for_president r) (policy_discarded_by_president r)
    (num_fascist_policies_for_chancellor r)
    (policy_discarded_by_chancellor r) (chancellor_veto r)
    (president_veto r) (president_claimed_number_of_fascist_cards_drawn r)
    (president_claimed_discarded_policy r)
    (chancellor_claimed_discarded_policy r) (anarchy_occured r)
    (selected_policy r) (investigated_player r)
    (investigated_player_identity r)
    (claimed_investigated_player_allegiance r)
    (special_election_next_president r) (executed_player r) v
    (your_player_id r).

Definition set_your_player_id
    (v : option nat) (r : t) : t :=
  Build (number_of_players r) (fascists r) (hitler r) (_previous_record r)
    (president r) (declared_election_intent r) (chancellor r)
    (election_results r) (successful_election r)
    (num_fascist_policies_for_president r) (policy_discarded_by_president r)
    (num_fascist_policies_for_chancellor r)
    (policy_discarded_by_chancellor r) (chancellor_veto r)
    (president_veto r) (president_claimed_number_of_fascist_cards_drawn r)
    (president_claimed_discarded_policy r)
    (chancellor_claimed_discarded_policy r) (anarchy_occured r)
    (selected_policy r) (investigated_player r)
    (investigated_player_identity r)
    (claimed_investigated_player_allegiance r)
    (special_election_next_president r) (executed_player r)
    (anarchy_result r) v.

(** [RoundRecord(_previous_record=..., number_of_players=..., fascists=...,
    hitler=...)]: every other field takes its default, [None]. *)
Definition new (previous : option t) (number_of_players : nat)
    (fascists : gset nat) (hitler : nat) : t :=
  Build number_of_players fascists hitler previous None None None None None
    None None None None None None None None None None None None None None
    None None None None.

(** *** Derived values, computed on read by walking [_previous_record] *)

Definition passed (p : Policy.t) (r : t) : bool :=
  bool_decide (selected_policy r = Some p)
  || bool_decide (anarchy_result r = Some p).

Fixpoint number_of_liberal_policies_passed (r : t) : nat :=
  let passed_liberal_policy := passed Policy.LIBERAL r in
  match _previous_record r with
  | Some previous =>
      number_of_liberal_policies_passed previous
      + Nat.b2n passed_liberal_policy
  | None => Nat.b2n passed_liberal_policy
  end.

Fixpoint number_of_fascist_policies_passed (r : t) : nat :=
  let passed_fascist_policy := passed Policy.FASCIST r in
  match _previous_record r with
  | Some previous =>
      number_of_fascist_policies_passed previous
      + Nat.b2n passed_fascist_policy
  | None => Nat.b2n passed_fascist_policy
  end.

Fixpoint anarchy_counter (r : t) : nat :=
  match election_results r with
  | None =>
      match _previous_record r with
      | Some previous => anarchy_counter previous
      | None => 0
      end
  | Some _ =>
      if default false (successful_election r) then 0
      else match _previous_record r with
           | Some previous => anarchy_counter previous + 1
           | None => 1
           end
  end.

Fixpoint executed_players (r : t) : list pyval :=
  match executed_player r with
  | None =>
      match _previous_record r with
      | Some previous => executed_players previous
      | None => []
      end
  | Some executed =>
      match _previous_record r with
      | Some previous => executed_players previous ++ [executed]
      | None => [executed]
      end
  end.

Fixpoint ineligible_for_chancellorship (r : t) : list pyval :=
  match _previous_record r with
  | None => []
  | Some previous =>
      if bool_decide (number_of_players r - length (executed_players r) ≤ 5)
      then executed_players previous
      else if default false (successful_election previous)
      then executed_players previous ++ [default VNone (chancellor previous)]
      else ineligible_for_chancellorship previous
  end.
End RoundRecord.

(** ** The [Game] engine *)

Section Engine.
Context {rng : Type} `{RandomGenerator rng}.

(** The attributes of a [Game] object.  [random_number_generator] holds a
    saved state of the [random] module (the result of [random.getstate()]). *)
Record Game : Type := Build_Game {
  liberals : gset Player.t;
  fascists : gset Player.t;
  hitler : Player.t;
  policy_deck : list Policy.t;
  presidential_order : list Player.t;
  round_history : list RoundRecord.t;
  players : list Player.t;
  executed_players : list Player.t;
  special_election_next_president : option Player.t;
  previous_government : gset Player.t;
  anarchy_counter : nat;
  liberal_policies_passed : nat;
  fascist_policies_passed : nat;
  shot_hitler : bool;
  elected_hitler : bool;
  random_number_generator : rng
}.

Definition set_policy_deck (v : list Policy.t) (g : Game) : Game :=
  Build_Game (liberals g) (fascists g) (hitler g) v (presidential_order g)
    (round_history g) (players g) (executed_players g)
    (special_election_next_president g) (previous_government g)
    (anarchy_counter g) (liberal_policies_passed g)
    (fascist_policies_passed g) (shot_hitler g) (elected_hitler g)
    (random_number_generator g).

Definition set_presidential_order (v : list Player.t) (g : Game) : Game :=
  Build_Game (liberals g) (fascists g) (hitler g) (policy_deck g) v
    (round_history g) (players g) (executed_players g)
    (special_election_next_president g) (previous_government g)
    (anarchy_counter g) (liberal_policies_passed g)
    (fascist_policies_passed g) (shot_hitler g) (elected_hitler g)
    (random_number_generator g).

Definition set_round_history (v : list RoundRecord.t) (g : Game) : Game :=
  Build_Game (liberals g) (fascists g) (hitler g) (policy_deck g)
    (presidential_order g) v (players g) (executed_players g)
    (special_election_next_president g) (previous_government g)
    (anarchy_counter g) (liberal_policies_passed g)
    (fascist_policies_passed g) (shot_hitler g) (elected_hitler g)
    (random_number_generator g).

Definition set_executed_players (v : list Player.t) (g : Game) : Game :=
  Build_Game (liberals g) (fascists g) (hitler g) (policy_deck g)
    (presidential_order g) (round_history g) (players g) v
    (special_election_next_president g) (previous_government g)
    (anarchy_counter g) (liberal_policies_passed g)
    (fascist_policies_passed g) (shot_hitler g) (elected_hitler g)
    (random_number_generator g).

Definition set_special_election_next_president (v : option Player.t) (g : Game) : Game :=
  Build_Game (liberals g) (fascists g) (hitler g) (policy_deck g)
    (presidential_order g) (round_history g) (players g)
    (executed_players g) v (previous_government g) (anarchy_counter g)
    (liberal_policies_passed g) (fascist_policies_passed g) (shot_hitler g)
    (elected_hitler g) (random_number_generator g).

Definition set_anarchy_counter (v : nat) (g : Game) : Game :=
  Build_Game (liberals g) (fascists g) (hitler g) (policy_deck g)
    (presidential_order g) (round_history g) (players g)
    (executed_players g) (special_election_next_president g)
    (previous_government g) v (liberal_policies_passed g)
    (fascist_policies_passed g) (shot_hitler g) (elected_hitler g)
    (random_number_generator g).

Definition set_liberal_policies_passed (v : nat) (g : Game) : Game :=
  Build_Game (liberals g) (fascists g) (hitler g) (policy_deck g)
    (presidential_order g) (round_history g) (players g)
    (executed_players g) (special_election_next_president g)
    (previous_government g) (anarchy_counter g) v
    (fascist_policies_passed g) (shot_hitler g) (elected_hitler g)
    (random_number_generator g).

Definition set_fascist_policies_passed (v : nat) (g : Game) : Game :=
  Build_Game (liberals g) (fascists g) (hitler g) (policy_deck g)
    (presidential_order g) (round_history g) (players g)
    (executed_players g) (special_election_next_president g)
    (previous_government g) (anarchy_counter g) (liberal_policies_passed g)
    v (shot_hitler g) (elected_hitler g) (random_number_generator g).

Definition set_elected_hitler (v : bool) (g : Game) : Game :=
  Build_Game (liberals g) (fascists g) (hitler g) (policy_deck g)
    (presidential_order g) (round_history g) (players g)
    (executed_players g) (special_election_next_president g)
    (previous_government g) (anarchy_counter g) (liberal_policies_passed g)
    (fascist_policies_passed g) (shot_hitler g) v
    (random_number_generator g).

Definition set_random_number_generator (v : rng) (g : Game) : Game :=
  Build_Game (liberals g) (fascists g) (hitler g) (policy_deck g)
    (presidential_order g) (round_history g) (players g)
    (executed_players g) (special_election_next_president g)
    (previous_government g) (anarchy_counter g) (liberal_policies_passed g)
    (fascist_policies_passed g) (shot_hitler g) (elected_hitler g) v.

(** *** The monad of engine methods

    A method runs on the [Game] object and on the state of the process-wide
    generator of the [random] module; it returns a value with the new
    states, or raises.  State reached before an exception is dropped: the
    only handler that survives, in [play_game], reads immutable attributes
    only. *)

Inductive Res (A : Type) : Type :=
  | Ok (a : A) (g : Game) (r : rng)
  | Raise (e : exn).
#[global] Arguments Ok {A} a g r.
#[global] Arguments Raise {A} e.

Definition M (A : Type) : Type := Game → rng → Res A.

Definition ret {A : Type} (a : A) : M A := λ g r, Ok a g r.

Definition bind {A B : Type} (m : M A) (k : A → M B) : M B :=
  λ g r, match m g r with
         | Ok a g' r' => k a g' r'
         | Raise e => Raise e
         end.

Definition raise {A : Type} (e : exn) : M A := λ _ _, Raise e.

(** [try: m except Exception as e: handler e]: what is not an instance
    of [Exception] is not caught.  The handlers of the engine only
    re-raise, so the state at the time of the exception is not needed. *)
Definition try_except {A : Type} (m : M A) (handler : exn → M A) : M A :=
  λ g r, match m g r with
         | Ok a g' r' => Ok a g' r'
         | Raise e => if is_Exception e then handler e g r else Raise e
         end.

Definition get : M Game := λ g r, Ok g g r.
Definition modify (f : Game → Game) : M unit := λ g r, Ok tt (f g) r.

(** [random.getstate()] and [random.setstate(state)] *)
Definition getstate : M rng := λ g r, Ok r g r.
Definition setstate (state : rng) : M unit := λ g _, Ok tt g state.

(** [random.shuffle(x)], on the process-wide generator. *)
Definition random_shuffle {A : Type} (x : list A) : M (list A) :=
  λ g r, let '(shuffled, r') := shuffle x r in Ok shuffled g r'.

(** Lift a partial operation, raising when it fails. *)
Definition lift {A : Type} (x : exn + A) : M A :=
  match x with
  | inl e => raise e
  | inr a => ret a
  end.

#[global] Instance M_ret : MRet M := @ret.
#[global] Instance M_bind : MBind M := λ A B k m, bind m k.

(** *** Agents

    [agents p m state] is the call [p.m(state)]: besides answering, an
    agent is free to draw from the [random] module, which advances the
    process-wide generator. *)
Variable agents :
  Player.t → Player.method → list RoundRecord.t → rng → reply * rng.

Definition call (p : Player.t) (m : Player.method)
    (state : list RoundRecord.t) : M pyval :=
  λ g r, match agents p m state r with
         | (Returns v, r') => Ok v g r'
         | (Raises e, _) => Raise e
         end.

(** [self.players.index(player)] *)
Definition players_index (player : Player.t) : M nat :=
  g ← get;
  match index (players g) player with
  | Some i => mret i
  | None => raise (ValueError "tuple.index(x): x not in tuple")
  end.

(** [for x in l: b = body b x] with an accumulator. *)
Fixpoint for_each {A B : Type} (l : list A) (b : B) (body : B → A → M B)
    : M B :=
  match l with
  | [] => mret b
  | x :: l' => b' ← body b x; for_each l' b' body
  end.

(** [self.round_history[-1] = f(self.round_history[-1])], the shape of
    every attribute assignment on the record of the current round. *)
Definition update_current_round (f : RoundRecord.t → RoundRecord.t)
    : M unit :=
  g ← get;
  match last (round_history g) with
  | None => raise IndexError
  | Some current =>
      modify (set_round_history
                (take (length (round_history g) - 1) (round_history g)
                 ++ [f current]))
  end.

(** *** [Game.__init__] *)

Definition validate (liberals fascists : gset Player.t) (hitler : Player.t)
    (presidential_order : list Player.t) : exn + unit :=
  let number_players := length presidential_order in
  if existsb (λ player,
                bool_decide (player ∉ liberals)
                && bool_decide (player ∉ fascists)
                && bool_decide (player ≠ hitler)) presidential_order
  then inl (ValueError "Player {player} does not have an assigned role.")
  else if negb (bool_decide (set_Forall (λ p, p ∈ presidential_order)
                               liberals))
  then inl (ValueError "Not every liberal player is in presidential order.")
  else if negb (bool_decide (set_Forall (λ p, p ∈ presidential_order)
                               fascists))
  then inl (ValueError "Not every fascist player is in presidential order.")
  else if negb (bool_decide (hitler ∈ presidential_order))
  then inl (ValueError "Hitler ({hitler}) is not in presidential order")
  else match PARTY_MEMBERSHIP_BY_PLAYERS number_players with
       | None => inl KeyError
       | Some membership =>
           if negb (size liberals =? membership Allegiance.LIBERAL)
           then inl (ValueError
             "Invalid number of liberals for a {number_players} player game.")
           else if negb (size fascists =? membership Allegiance.FASCIST)
           then inl (ValueError
             "Invalid number of fascists for a {number_players} player game.")
           else inr ()
       end.

(** [Game(liberals, fascists, hitler, policy_deck, presidential_order)];
    [r] is the state of the [random] module at the time of the call. *)
Definition init (liberals fascists : gset Player.t) (hitler : Player.t)
    (policy_deck : list Policy.t) (presidential_order : list Player.t)
    (r : rng) : exn + Game :=
  match validate liberals fascists hitler presidential_order with
  | inl e => inl e
  | inr _ =>
      inr {| liberals := liberals;
             fascists := fascists;
             hitler := hitler;
             policy_deck := policy_deck;
             presidential_order := presidential_order;
             round_history := [];
             players := presidential_order;
             executed_players := [];
             special_election_next_president := None;
             previous_government := ∅;
             anarchy_counter := 0;
             liberal_policies_passed := 0;
             fascist_policies_passed := 0;
             shot_hitler := false;
             elected_hitler := false;
             random_number_generator := r |}
  end.

(** [Game.generate_random_policy_deck()] *)
Definition generate_random_policy_deck : M (list Policy.t) :=
  let policy_deck_list :=
    replicate 11 Policy.FASCIST ++ replicate 6 Policy.LIBERAL in
  random_shuffle policy_deck_list.

(** *** The view handed to agents, as a value

    [deepcopy] of a record is the same value.  The copy is recursive
    along [_previous_record]: on a history of about 250 records
    [deepcopy] raises [RecursionError], which is not modelled. *)
Definition get_player_percieved_game_state (player : Player.t)
    : M (list RoundRecord.t) :=
  g ← get;
  for_each (round_history g) [] (λ game_state round,
    let round_state := round in
    player_id ← players_index player;
    mret (game_state
          ++ [RoundRecord.set_your_player_id (Some player_id) round_state])).

(** *** Setting up a round *)

Definition update_round_history : M unit :=
  g ← get;
  fascists_ids ← for_each (elements (fascists g)) ∅ (λ ids player,
    i ← players_index player; mret ({[i]} ∪ ids));
  hitler_id ← players_index (hitler g);
  modify (set_round_history
            (round_history g
             ++ [RoundRecord.new (last (round_history g))
                   (length (players g)) fascists_ids hitler_id])).

Definition determine_next_president : M (Player.t * nat) :=
  g ← get;
  president ←
    match special_election_next_president g with
    | Some president =>
        modify (set_special_election_next_president None);;
        mret president
    | None =>
        match presidential_order g with
        | [] => raise IndexError
        | president :: rest =>
            modify (set_presidential_order (rest ++ [president]));;
            mret president
        end
    end;
  president_id ← players_index president;
  update_current_round (RoundRecord.set_president (Some president_id));;
  mret (president, president_id).

(** The test that skips a proposed chancellor in [solicit_intent_to_vote]. *)
Definition skipped_candidate (g : Game) (president : Player.t)
    (proposed_chancellor : Player.t) : bool :=
  bool_decide (proposed_chancellor ∈ executed_players g)
  || bool_decide (proposed_chancellor = president)
  || (bool_decide (proposed_chancellor ∈ previous_government g)
      && bool_decide (5 < length (presidential_order g))).

(** [d.setdefault(k, {})[j] = v] *)
Definition record_intent (k j : nat) (v : pyval)
    (d : gmap nat (gmap nat pyval)) : gmap nat (gmap nat pyval) :=
  <[k := <[j := v]> (default ∅ (d !! k))]> d.

Definition solicit_intent_to_vote (president : Player.t) : M unit :=
  g ← get;
  declared_election_intent ←
    for_each (players g) ∅ (λ declared proposed_chancellor,
      proposed_chancellor_id ← players_index proposed_chancellor;
      g' ← get;
      if skipped_candidate g' president proposed_chancellor
      then mret declared
      else
        for_each (players g) declared (λ declared player,
          g'' ← get;
          if bool_decide (player ∈ executed_players g'')
          then mret declared
          else
            player_id ← players_index player;
            game_state ← get_player_percieved_game_state player;
            v ← call player Player.intent_to_vote_on_government game_state;
            mret (record_intent proposed_chancellor_id player_id v
                    declared)));
  update_current_round
    (RoundRecord.set_declared_election_intent
       (Some declared_election_intent)).

Definition select_chancellor (president : Player.t)
    : M (Player.t * pyval) :=
  president_perspective ← get_player_percieved_game_state president;
  chancellor_id ←
    try_except
      (call president Player.select_chancellor president_perspective)
      (λ e, raise (PlayerException
                     "Exception from {president} while selecting Chancellor"
                     president (Some e)));
  update_current_round (RoundRecord.set_chancellor (Some chancellor_id));;
  g ← get;
  chancellor ← lift (subscript (players g) chancellor_id);
  mret (chancellor, chancellor_id).

(** [sum(election_results.values())]: of the values of [pyval], the
    integers and booleans are added up, and adding any other one ([None],
    a string, a member of an [Enum], a tuple) to the running total raises
    [TypeError]. *)
Definition sum_values (values : list pyval) : exn + Z :=
  foldr (λ v acc,
           match acc, as_int v with
           | inr total, Some z => inr (total + z)%Z
           | inr _, None => inl TypeError
           | inl e, _ => inl e
           end) (inr 0%Z) values.

(** [total > number / 2], the right-hand side being Python's true
    division (exact on these magnitudes). *)
Definition more_than_half (total : Z) (number : nat) : bool :=
  negb (QArith_base.Qle_bool (QArith_base.inject_Z total)
          (QArith_base.Qmake (Z.of_nat number) 2)).

Definition hold_election : M bool :=
  g ← get;
  election_results ←
    for_each (players g) ∅ (λ (results : gmap nat pyval) player,
      g' ← get;
      if bool_decide (player ∈ executed_players g')
      then mret results
      else
        player_id ← players_index player;
        player_perception ← get_player_percieved_game_state player;
        v ← call player Player.vote_on_government player_perception;
        mret (<[player_id := v]> results));
  total ← lift (sum_values (snd <$> map_to_list election_results));
  let successful_election := more_than_half total (length (players g)) in
  update_current_round
    (RoundRecord.set_election_results (Some election_results));;
  update_current_round
    (RoundRecord.set_successful_election (Some successful_election));;
  mret successful_election.

(** *** The legislative session *)

Definition draw_legislative_session_policies : M (list Policy.t) :=
  g ← get;
  let legislative_session_policies := take 3 (policy_deck g) in
  modify (set_policy_deck (drop 3 (policy_deck g)));;
  mret legislative_session_policies.

Definition draw_anarchy_policy : M Policy.t :=
  g ← get;
  match policy_deck g with
  | [] => raise IndexError
  | anarchy_card :: rest =>
      modify (set_policy_deck rest);;
      mret anarchy_card
  end.

(** [v not in [Policy.LIBERAL, Policy.FASCIST]] fails exactly on the
    members of [Policy]. *)
Definition as_policy (v : pyval) : option Policy.t :=
  match v with
  | VPolicy p => Some p
  | _ => None
  end.

(** [v in [0, 1, 2, 3]], by [==]: [True] and [False] qualify. *)
Definition in_0_to_3 (v : pyval) : bool :=
  match as_int v with
  | Some z => bool_decide (0 ≤ z ≤ 3)%Z
  | None => false
  end.

(** [(a, b) = v]: a sequence of two items unpacks, a sequence of another
    length raises [ValueError], anything else [TypeError]. *)
Definition unpack_pair (v : pyval) : exn + pyval * pyval :=
  match v with
  | VTuple [a; b] => inr (a, b)
  | VStr (String a (String b EmptyString)) =>
      inr (VStr (String a EmptyString), VStr (String b EmptyString))
  | VTuple _ | VStr _ => inl (ValueError "unpack: expected 2 values")
  | _ => inl TypeError
  end.

(** [isinstance(v, bool)] inside the [try] of a veto call. *)
Definition veto_of (who : Player.t) (message : string) (v : pyval)
    : M bool :=
  match v with
  | VBool b => mret b
  | _ => raise (PlayerException message who None)
  end.

Definition hold_legislation_session (president chancellor : Player.t)
    : M Policy.t :=
  (* Draw policies *)
  legislative_session_policies ← draw_legislative_session_policies;
  let num_fascist_policies_for_president :=
    count Policy.FASCIST legislative_session_policies in
  update_current_round
    (RoundRecord.set_num_fascist_policies_for_president
       (Some num_fascist_policies_for_president));;
  (* The president selects a policy to discard *)
  policy_discarded_by_president ←
    match num_fascist_policies_for_president with
    | 0 => mret Policy.LIBERAL
    | 1 | 2 =>
        president_perceptive ← get_player_percieved_game_state president;
        try_except
          (v ← call president Player.select_policy_to_discard_as_president
                 president_perceptive;
           match as_policy v with
           | Some p => mret p
           | None =>
               raise (ValueError
                 "Unknown policy type returned by player {president}")
           end)
          (λ e, raise (PlayerException
             "Exception from {president} while selecting policies as President"
             president (Some e)))
    | 3 => mret Policy.FASCIST
    | _ =>
        raise (ValueError
          "Invalid number of fascist policies handed to President.")
    end;
  let num_fascist_policies_for_chancellor :=
    match policy_discarded_by_president with
    | Policy.LIBERAL => num_fascist_policies_for_president
    | Policy.FASCIST => num_fascist_policies_for_president - 1
    end in
  update_current_round
    (RoundRecord.set_policy_discarded_by_president
       (Some policy_discarded_by_president));;
  update_current_round
    (RoundRecord.set_num_fascist_policies_for_chancellor
       (Some num_fascist_policies_for_chancellor));;
  (* The chancellor selects a policy *)
  '(policy_discarded_by_chancellor, selected_policy) ←
    match num_fascist_policies_for_chancellor with
    | 0 => mret (Policy.LIBERAL, Policy.LIBERAL)
    | 1 =>
        chancellor_perceptive ← get_player_percieved_game_state chancellor;
        discarded ←
          try_except
            (v ← call chancellor
                   Player.select_policy_to_discard_as_chancellor
                   chancellor_perceptive;
             match as_policy v with
             | Some p => mret p
             | None =>
                 raise (PlayerException
                   "Invalid policy passed by chancellor ({chancellor})"
                   chancellor None)
             end)
            (λ e, raise (PlayerException
               "Exception from {chancellor} while selecting policies as Chancellor."
               chancellor (Some e)));
        mret (discarded,
              match discarded with
              | Policy.FASCIST => Policy.LIBERAL
              | Policy.LIBERAL => Policy.FASCIST
              end)
    | 2 => mret (Policy.FASCIST, Policy.FASCIST)
    | _ => raise UnboundLocalError
    end;
  update_current_round
    (RoundRecord.set_policy_discarded_by_chancellor
       (Some policy_discarded_by_chancellor));;
  (* Veto *)
  g ← get;
  veto ←
    (if bool_decide (5 ≤ fascist_policies_passed g) then
       chancellor_perceptive ← get_player_percieved_game_state chancellor;
       chancellor_veto ←
         try_except
           (v ← call chancellor Player.veto_legislation
                  chancellor_perceptive;
            veto_of chancellor
              "Invalid veto value by chancellor ({chancellor})" v)
           (λ e, raise (PlayerException
              "Exception from {chancellor} while vetoing legislation."
              chancellor (Some e)));
       update_current_round
         (RoundRecord.set_chancellor_veto (Some chancellor_veto));;
       if (chancellor_veto : bool) then
         president_perceptive ← get_player_percieved_game_state president;
         president_veto ←
           try_except
             (v ← call president Player.veto_legislation
                    president_perceptive;
              veto_of president
                "Invalid veto value by president ({president})" v)
             (λ e, raise (PlayerException
                "Exception from {president} while vetoing legislation."
                president (Some e)));
         update_current_round
           (RoundRecord.set_president_veto (Some president_veto));;
         mret president_veto
       else mret false
     else mret false);
  (* Enact the policy *)
  (if (veto : bool) then mret ()
   else
     match selected_policy with
     | Policy.LIBERAL =>
         modify (λ g, set_liberal_policies_passed
                        (liberal_policies_passed g + 1) g)
     | Policy.FASCIST =>
         modify (λ g, set_fascist_policies_passed
                        (fascist_policies_passed g + 1) g)
     end;;
     update_current_round
       (RoundRecord.set_selected_policy (Some selected_policy)));;
  (* Claim policies *)
  president_perceptive ← get_player_percieved_game_state president;
  chancellor_perceptive ← get_player_percieved_game_state chancellor;
  '(president_claimed_number_of_fascist_cards_drawn,
    president_claimed_discarded_policy) ←
    try_except
      (v ← call president Player.claimed_policy_to_discard_as_president
             president_perceptive;
       '(number, discarded) ← lift (unpack_pair v);
       if negb (in_0_to_3 number) then
         raise (PlayerException
           "Player {president} claimed an invalid number of fascist cards"
           president None)
       else
         match as_policy discarded with
         | None =>
             raise (PlayerException
               "Player {president} claimed an invalid policy as President"
               president None)
         | Some p => mret (number, p)
         end)
      (λ e, raise (PlayerException
         "Exception from {president} while claiming policies as President."
         president (Some e)));
  chancellor_claimed_discarded_policy ←
    try_except
      (v ← call chancellor Player.claimed_policy_to_discard_as_chancellor
             chancellor_perceptive;
       match as_policy v with
       | None =>
           raise (PlayerException
             "Player {chancellor} claimed an invalid policy as Chancellor"
             chancellor None)
       | Some p => mret p
       end)
      (λ e, raise (PlayerException
         "Exception from {chancellor} while claiming policies as Chancellor."
         chancellor (Some e)));
  update_current_round
    (RoundRecord.set_president_claimed_number_of_fascist_cards_drawn
       (Some president_claimed_number_of_fascist_cards_drawn));;
  update_current_round
    (RoundRecord.set_president_claimed_discarded_policy
       (Some president_claimed_discarded_policy));;
  update_current_round
    (RoundRecord.set_chancellor_claimed_discarded_policy
       (Some chancellor_claimed_discarded_policy));;
  mret selected_policy.

(** *** Executive actions *)

(** The validation shared by the three presidential powers:
    [not isinstance(id, int) or id < 0 or id > len(self.players) - 1]
    raises [ValueError] inside the [try]. *)
Definition valid_player_id (g : Game) (v : pyval) : bool :=
  match as_int v with
  | Some z => bool_decide (0 ≤ z ∧ z ≤ Z.of_nat (length (players g)) - 1)%Z
  | None => false
  end.

Definition ask_player_id (president : Player.t) (m : Player.method)
    (state : list RoundRecord.t) (invalid message : string) : M pyval :=
  try_except
    (v ← call president m state;
     g ← get;
     if valid_player_id g v then mret v else raise (ValueError invalid))
    (λ e, raise (PlayerException message president (Some e))).

Definition investigate_player (president : Player.t) : M unit :=
  president_perceptive ← get_player_percieved_game_state president;
  investigated_player_id ←
    ask_player_id president Player.select_player_to_investigate
      president_perceptive
      "Invalid player_id {investigated_player_id} returned by President for investigating."
      "Exception from {president} while investigating as President.";
  g ← get;
  investigated_player ← lift (subscript (players g) investigated_player_id);
  investigated_player_identity ←
    (if bool_decide (investigated_player ∈ liberals g)
     then mret Allegiance.LIBERAL
     else if bool_decide (investigated_player ∈ fascists g)
     then mret Allegiance.FASCIST
     else raise (ValueError
       "Unable to determine allegiance of player ({investigated_player})"));
  update_current_round
    (RoundRecord.set_investigated_player (Some investigated_player_id));;
  update_current_round
    (RoundRecord.set_investigated_player_identity
       (Some investigated_player_identity));;
  claimed_investigated_player_allegiance ←
    call president Player.claimed_player_investigation_result
      president_perceptive;
  update_current_round
    (RoundRecord.set_claimed_investigated_player_allegiance
       (Some claimed_investigated_player_allegiance)).

Definition declare_special_election (president : Player.t) : M unit :=
  president_perceptive ← get_player_percieved_game_state president;
  special_election_president_id ←
    ask_player_id president Player.select_special_election_president
      president_perceptive
      "Invalid player_id {special_election_president_id} returned by President for selecting special president."
      "Exception from {president} while calling special election as President.";
  g ← get;
  special_election_president ←
    lift (subscript (players g) special_election_president_id);
  if bool_decide (special_election_president = president) then
    raise (PlayerException
      "Player {president} selected themselves as President for special election."
      president None)
  else if bool_decide (special_election_president ∈ executed_players g) then
    raise (PlayerException
      "Player {president} selected a corpse as President for special election."
      president None)
  else
    modify (set_special_election_next_president
              (Some special_election_president));;
    update_current_round
      (RoundRecord.set_special_election_next_president
         (Some special_election_president_id)).

Definition execute_player (president : Player.t) : M unit :=
  president_perceptive ← get_player_percieved_game_state president;
  executed_player_id ←
    ask_player_id president Player.select_player_to_execute
      president_perceptive
      "Invalid player_id {executed_player_id} returned by President for execution."
      "Exception from {president} while executing as President.";
  g ← get;
  executed_player ← lift (subscript (players g) executed_player_id);
  if bool_decide (executed_player ∈ executed_players g) then
    raise (PlayerException
      "Player {president} selected a corpse for execution." president None)
  else
    modify (set_executed_players (executed_players g ++ [executed_player]));;
    modify (set_presidential_order
              (filter (λ player, player ≠ executed_player)
                 (presidential_order g)));;
    update_current_round
      (RoundRecord.set_executed_player (Some executed_player_id)).

Definition executive_action (president : Player.t) : M unit :=
  g ← get;
  match fascist_policies_passed g with
  | 1 | 2 => investigate_player president
  | 3 => declare_special_election president
  | 4 | 5 => execute_player president
  | 6 => mret ()
  | _ =>
      raise (ValueError
        "Unknown number of Fascist policies passed: {self.fascist_policies_passed}")
  end.

(** *** Anarchy, the deck and the end of the game *)

Definition execute_anarchy : M unit :=
  next_policy ← draw_anarchy_policy;
  match next_policy with
  | Policy.LIBERAL =>
      modify (λ g, set_liberal_policies_passed
                     (liberal_policies_passed g + 1) g);;
      update_current_round
        (RoundRecord.set_anarchy_result (Some Policy.LIBERAL))
  | Policy.FASCIST =>
      modify (λ g, set_fascist_policies_passed
                     (fascist_policies_passed g + 1) g);;
      update_current_round
        (RoundRecord.set_anarchy_result (Some Policy.FASCIST))
  end.

Definition update_policy_deck : M unit :=
  g ← get;
  if bool_decide (length (policy_deck g) < 3) then
    let policy_deck_list :=
      replicate (11 - fascist_policies_passed g) Policy.FASCIST
      ++ replicate (6 - liberal_policies_passed g) Policy.LIBERAL in
    setstate (random_number_generator g);;
    shuffled ← random_shuffle policy_deck_list;
    modify (set_policy_deck shuffled);;
    state ← getstate;
    modify (set_random_number_generator state)
  else mret ().

Definition determine_if_winner (g : Game)
    : option Allegiance.t * option string :=
  if bool_decide (liberal_policies_passed g = 5)
  then (Some Allegiance.LIBERAL, Some "Passed 5 Liberal Policies")
  else if shot_hitler g
  then (Some Allegiance.LIBERAL, Some "Shot Hitler")
  else if bool_decide (fascist_policies_passed g = 6)
  then (Some Allegiance.FASCIST, Some "Passed 6 Fascist Policies")
  else if elected_hitler g
  then (Some Allegiance.FASCIST, Some "Elected Hitler")
  else (None, None).

(** *** A round and a game *)

Definition play_round : M unit :=
  (* Update policy deck *)
  update_policy_deck;;
  (* Initialize round history *)
  update_round_history;;
  (* Determine next president *)
  '(president, president_id) ← determine_next_president;
  (* Solicit intent to vote in government from all players *)
  solicit_intent_to_vote president;;
  (* Determine the next chancellor *)
  '(chancellor, chancellor_id) ← select_chancellor president;
  (* Hold election *)
  successful_election ← hold_election;
  (* Election results *)
  if (successful_election : bool) then
    g ← get;
    (* Check for Hitler *)
    if bool_decide (3 ≤ fascist_policies_passed g)
       && bool_decide (chancellor = hitler g)
    then modify (set_elected_hitler true)
    else
      (* Pass a policy *)
      passed_policy ← hold_legislation_session president chancellor;
      (* Executive action *)
      match passed_policy with
      | Policy.FASCIST => executive_action president
      | Policy.LIBERAL => mret ()
      end
  else
    (* Anarchy *)
    modify (λ g, set_anarchy_counter (anarchy_counter g + 1) g);;
    g ← get;
    if bool_decide (anarchy_counter g = 3) then execute_anarchy
    else mret ().

(** [while self.determine_if_winner()[0] is None: self.play_round()],
    cut after [fuel] rounds: [false] means the loop was still running. *)
Fixpoint play_rounds (fuel : nat) : M bool :=
  g ← get;
  match determine_if_winner g with
  | (None, _) =>
      match fuel with
      | 0 => mret false
      | S fuel' => play_round;; play_rounds fuel'
      end
  | (Some _, _) => mret true
  end.

(** What a call of [play_game] comes to. *)
Inductive outcome : Type :=
  | Returned (winner : option Allegiance.t) (reason : option string)
  | ReturnedTraceback (winner : Allegiance.t) (e : exn)
  | ReturnedNone
  | Uncaught (e : exn)
  | StillRunning.

(** [play_game], the reason of a fault being
    ["\n".join(format_exception(e))], kept as the exception itself. *)
Definition play_game (fuel : nat) (g : Game) (r : rng) : outcome :=
  match play_rounds fuel g r with
  | Ok true g' _ =>
      let '(winner, reason) := determine_if_winner g' in
      Returned winner reason
  | Ok false _ _ => StillRunning
  | Raise (PlayerException message player_generating_exception cause) =>
      let e := PlayerException message player_generating_exception cause in
      if bool_decide (player_generating_exception ∈ liberals g)
      then ReturnedTraceback Allegiance.FASCIST e
      else if bool_decide (player_generating_exception ∈ fascists g)
      then ReturnedTraceback Allegiance.LIBERAL e
      else ReturnedNone
  | Raise e => Uncaught e
  end.
End Engine.

#[global] Arguments Game rng : clear implicits.
#[global] Arguments Res rng A : clear implicits.
#[global] Arguments M rng A : clear implicits.

(** ** Concrete generators and agents, to run the engine *)

Module Scenario.
(** A generator whose draws are always the largest value allowed: with
    it [shuffle] swaps every position with itself. *)
Definition largest : RandomGenerator Z :=
  λ n s, (n - 1, (s + 1)%Z).

(** A linear congruential generator. *)
Definition lcg : RandomGenerator Z :=
  λ n s, (Z.to_nat (s `mod` Z.of_nat n),
          (s * 1103515245 + 12345) `mod` 2147483648)%Z.

(** Agents that answer from the state they are shown and leave the
    generator alone. *)
Definition scripted (answer : list RoundRecord.t → Player.method → reply)
    : Player.t → Player.method → list RoundRecord.t → Z → reply * Z :=
  λ _ m state r, (answer state m, r).

(** The same answers, drawing [draws] times first. *)
Definition fidgety (draws : Z)
    (answer : list RoundRecord.t → Player.method → reply)
    : Player.t → Player.method → list RoundRecord.t → Z → reply * Z :=
  λ _ m state r, (answer state m, (r + draws)%Z).

Definition president_now (state : list RoundRecord.t) : option nat :=
  last state ≫= RoundRecord.president.

Definition executed_so_far (state : list RoundRecord.t) : list pyval :=
  from_option RoundRecord.executed_players [] (last state).

Definition is_int (z : Z) (v : pyval) : bool :=
  bool_decide (as_int v = Some z).

(** The first of [candidates] that has not been executed yet. *)
Definition first_living (candidates : list Z) (state : list RoundRecord.t)
    : pyval :=
  from_option VInt VNone
    (find (λ z, negb (existsb (is_int z) (executed_so_far state)))
       candidates).

(** Agents that play by the rules: everybody votes yes; the president
    nominates player 1 (player 0 when presiding as player 1), discards a
    liberal policy when given the choice, calls player 3 to a special
    election, shoots Hitler (player 4) first, agrees to every veto, and
    claims what a liberal would. *)
Definition loyal (state : list RoundRecord.t) (m : Player.method) : reply :=
  match m with
  | Player.select_chancellor =>
      Returns (VInt (if bool_decide (president_now state = Some 1)
                     then 0 else 1))
  | Player.intent_to_vote_on_government => Returns VNone
  | Player.vote_on_government => Returns (VBool true)
  | Player.select_policy_to_discard_as_president
  | Player.select_policy_to_discard_as_chancellor
  | Player.claimed_policy_to_discard_as_chancellor =>
      Returns (VPolicy Policy.LIBERAL)
  | Player.veto_legislation => Returns (VBool true)
  | Player.claimed_policy_to_discard_as_president =>
      Returns (VTuple [VInt 2; VPolicy Policy.LIBERAL])
  | Player.select_player_to_investigate => Returns (VInt 2)
  | Player.claimed_player_investigation_result =>
      Returns (VAllegiance Allegiance.LIBERAL)
  | Player.select_special_election_president => Returns (VInt 3)
  | Player.select_player_to_execute =>
      Returns (first_living [4; 3; 2; 1; 0]%Z state)
  end.

(** [loyal], except that every vote is no. *)
Definition dissenting (state : list RoundRecord.t) (m : Player.method)
    : reply :=
  match m with
  | Player.vote_on_government => Returns (VBool false)
  | _ => loyal state m
  end.

(** [loyal], except that every vote is no in every round but the
    second. *)
Definition wavering (state : list RoundRecord.t) (m : Player.method)
    : reply :=
  match m, state with
  | Player.vote_on_government, [_; _] => Returns (VBool true)
  | Player.vote_on_government, _ => Returns (VBool false)
  | _, _ => loyal state m
  end.

(** [loyal], except that the president always nominates player 2. *)
Definition insistent (state : list RoundRecord.t) (m : Player.method)
    : reply :=
  match m with
  | Player.select_chancellor => Returns (VInt 2)
  | _ => loyal state m
  end.

(** [loyal], except that the president nominates a seat that does not
    exist. *)
Definition out_of_range (state : list RoundRecord.t) (m : Player.method)
    : reply :=
  match m with
  | Player.select_chancellor => Returns (VInt 7)
  | _ => loyal state m
  end.

(** [loyal], except that claiming an investigation result raises. *)
Definition tongue_tied (state : list RoundRecord.t) (m : Player.method)
    : reply :=
  match m with
  | Player.claimed_player_investigation_result =>
      Raises (Exception "RuntimeError")
  | _ => loyal state m
  end.

(** [loyal], except that a vote is a number: 3 from the president, 0
    from anybody else. *)
Definition weighty (state : list RoundRecord.t) (m : Player.method)
    : reply :=
  match m with
  | Player.vote_on_government =>
      Returns
        (VInt (if bool_decide
                    (last state ≫= RoundRecord.your_player_id
                     = president_now state)
               then 3 else 0))
  | _ => loyal state m
  end.

(** [loyal], except that the president claims the result of the
    investigation that the state shows, as
    [NaiveLiberal.claimed_player_investigation_result] does:
    [state[-1].investigated_player_identity]. *)
Definition truthful (state : list RoundRecord.t) (m : Player.method)
    : reply :=
  match m with
  | Player.claimed_player_investigation_result =>
      Returns (from_option VAllegiance VNone
                 (last state ≫= RoundRecord.investigated_player_identity))
  | _ => loyal state m
  end.

Definition fascist_first : list Policy.t :=
  replicate 11 Policy.FASCIST ++ replicate 6 Policy.LIBERAL.

Definition liberal_first : list Policy.t :=
  replicate 6 Policy.LIBERAL ++ replicate 11 Policy.FASCIST.

(** Five seats: players 0, 1, 2 liberal, 3 and 4 fascist, 4 is Hitler;
    this is the game that [Game({0, 1, 2}, {3, 4}, 4, policy_deck,
    (0, 1, 2, 3, 4))] builds. *)
Definition five (policy_deck : list Policy.t) : Game Z :=
  {| liberals := {[0; 1; 2]};
     fascists := {[3; 4]};
     hitler := 4;
     policy_deck := policy_deck;
     presidential_order := [0; 1; 2; 3; 4];
     round_history := [];
     players := [0; 1; 2; 3; 4];
     executed_players := [];
     special_election_next_president := None;
     previous_government := ∅;
     anarchy_counter := 0;
     liberal_policies_passed := 0;
     fascist_policies_passed := 0;
     shot_hitler := false;
     elected_hitler := false;
     random_number_generator := 0%Z |}.

(** Six seats: players 0 to 3 liberal, 4 and 5 fascist, 5 is Hitler. *)
Definition six (policy_deck : list Policy.t) : Game Z :=
  {| liberals := {[0; 1; 2; 3]};
     fascists := {[4; 5]};
     hitler := 5;
     policy_deck := policy_deck;
     presidential_order := [0; 1; 2; 3; 4; 5];
     round_history := [];
     players := [0; 1; 2; 3; 4; 5];
     executed_players := [];
     special_election_next_president := None;
     previous_government := ∅;
     anarchy_counter := 0;
     liberal_policies_passed := 0;
     fascist_policies_passed := 0;
     shot_hitler := false;
     elected_hitler := false;
     random_number_generator := 0%Z |}.

(** The game after at most [n] rounds, when nothing was raised. *)
Definition after `{RandomGenerator Z} (n : nat)
    (agents : Player.t → Player.method → list RoundRecord.t → Z
              → reply * Z)
    (start : Game Z) : option (Game Z) :=
  match play_rounds agents n start 0%Z with
  | Ok _ g _ => Some g
  | Raise _ => None
  end.

(** The same, for a run known not to raise. *)
Definition rounds `{RandomGenerator Z} (n : nat)
    (agents : Player.t → Player.method → list RoundRecord.t → Z
              → reply * Z)
    (start : Game Z) : Game Z :=
  default start (after n agents start).

(** A whole game. *)
Definition game `{RandomGenerator Z} (fuel : nat)
    (agents : Player.t → Player.method → list RoundRecord.t → Z
              → reply * Z)
    (start : Game Z) : outcome :=
  play_game agents fuel start 0%Z.

(** The parts of a run that returned. *)
Definition value_of {A : Type} (otherwise : A) (x : Res Z A) : A :=
  match x with
  | Ok a _ _ => a
  | Raise _ => otherwise
  end.

Definition game_of {A : Type} (otherwise : Game Z) (x : Res Z A)
    : Game Z :=
  match x with
  | Ok _ g _ => g
  | Raise _ => otherwise
  end.

Definition generator_of {A : Type} (x : Res Z A) : Z :=
  match x with
  | Ok _ _ r => r
  | Raise _ => 0%Z
  end.
End Scenario.

(** ** Vocabulary for the properties of the engine *)

Section Vocabulary.
Context {rng : Type}.

(** [stable R m]: whenever [m] returns, the [Game] it leaves is related
    by [R] to the one it started from. *)
Definition stable {A : Type} (R : relation (Game rng)) (m : M rng A)
    : Prop :=
  ∀ g r a g' r', m g r = Ok a g' r' → R g g'.

(** The attributes no method assigns after construction, together with the
    one counter that is only ever incremented. *)
Definition unwritten (g g' : Game rng) : Prop :=
  liberals g' = liberals g ∧ fascists g' = fascists g
  ∧ hitler g' = hitler g ∧ players g' = players g
  ∧ previous_government g' = previous_government g
  ∧ shot_hitler g' = shot_hitler g
  ∧ anarchy_counter g ≤ anarchy_counter g'.

(** The results of two runs agree: same value and same [Game] (deck and
    saved generator included), or same exception; the process-wide
    generators may differ. *)
Definition agree {A : Type} (x y : Res rng A) : Prop :=
  match x, y with
  | Ok a g _, Ok a' g' _ => a = a' ∧ g = g'
  | Raise e, Raise e' => e = e'
  | _, _ => False
  end.

(** [sim m1 m2]: the runs of [m1] and [m2] from the same game agree,
    whatever the two process-wide generators. *)
Definition sim {A : Type} (m1 m2 : M rng A) : Prop :=
  ∀ g r1 r2, agree (m1 g r1) (m2 g r2).

(** Two tables of agents answer every call alike, whatever they draw from
    the generator and however far they advance it. *)
Definition same_decisions
    (agents1 agents2 :
      Player.t → Player.method → list RoundRecord.t → rng → reply * rng)
    : Prop :=
  ∀ p m state r1 r2, (agents1 p m state r1).1 = (agents2 p m state r2).1.
End Vocabulary.

(** A yes vote. *)
Definition is_yes (v : pyval) : bool :=
  match v with
  | VBool true => true
  | _ => false
  end.

(** The number of yes votes among the recorded votes. *)
Definition yes_votes (results : gmap nat pyval) : nat :=
  length (filter (λ v, is_yes v) (snd <$> map_to_list results)).

(** The recorded votes are booleans. *)
Definition ballots (results : gmap nat pyval) : Prop :=
  ∀ i v, results !! i = Some v → ∃ b, v = VBool b.

(** ** Vocabulary for the specifications of methods *)

Section Specification.
Context {rng : Type}.

(** [wp m Q E g r]: run on the game [g] with the process-wide generator
    in state [r], the method [m] returns a value and states that satisfy
    [Q], or raises an exception that satisfies [E]. *)
Definition wp {A : Type} (m : M rng A)
    (Q : A → Game rng → rng → Prop) (E : exn → Prop)
    (g : Game rng) (r : rng) : Prop :=
  match m g r with
  | Ok a g' r' => Q a g' r'
  | Raise e => E e
  end.
End Specification.

#[global] Arguments wp : simpl never.

(** The fields of a [RoundRecord] by the phase of the round that writes
    them: those given to the constructor; those of the election, written by
    [determine_next_president], [solicit_intent_to_vote],
    [select_chancellor] and [hold_election]; those of the legislative
    session; those of the executive action; those of anarchy. *)
Definition constants_of (c : RoundRecord.t) :=
  (RoundRecord.number_of_players c, RoundRecord.fascists c,
   RoundRecord.hitler c, RoundRecord._previous_record c).

Definition government_of (c : RoundRecord.t) :=
  (RoundRecord.president c, RoundRecord.declared_election_intent c,
   RoundRecord.chancellor c, RoundRecord.election_results c,
   RoundRecord.successful_election c).

Definition legislation_of (c : RoundRecord.t) :=
  (RoundRecord.num_fascist_policies_for_president c,
   RoundRecord.policy_discarded_by_president c,
   RoundRecord.num_fascist_policies_for_chancellor c,
   RoundRecord.policy_discarded_by_chancellor c,
   RoundRecord.chancellor_veto c, RoundRecord.president_veto c,
   RoundRecord.president_claimed_number_of_fascist_cards_drawn c,
   RoundRecord.president_claimed_discarded_policy c,
   RoundRecord.chancellor_claimed_discarded_policy c,
   RoundRecord.selected_policy c).

Definition executive_of (c : RoundRecord.t) :=
  (RoundRecord.investigated_player c,
   RoundRecord.investigated_player_identity c,
   RoundRecord.claimed_investigated_player_allegiance c,
   RoundRecord.special_election_next_president c,
   RoundRecord.executed_player c).

Definition anarchy_of (c : RoundRecord.t) :=
  (RoundRecord.anarchy_occured c, RoundRecord.anarchy_result c).

(** A veto that both the chancellor and the president declared, as the
    record of the round and the fascist tally before the session show it. *)
Definition vetoed (fascist_policies_passed : nat) (c : RoundRecord.t)
    : bool :=
  bool_decide (5 ≤ fascist_policies_passed)
  && bool_decide (RoundRecord.chancellor_veto c = Some true)
  && bool_decide (RoundRecord.president_veto c = Some true).

(** An exception the engine blames on one of [culprits]. *)
Definition blames (culprits : list Player.t) (e : exn) : Prop :=
  ∃ message culprit cause,
    e = PlayerException message culprit cause ∧ culprit ∈ culprits.

(** The methods that the engine calls inside [try: ... except Exception]:
    those of the legislative session, those of the presidential powers, and
    all of them with [select_chancellor]. *)
Definition legislative : list Player.method :=
  [Player.select_policy_to_discard_as_president;
   Player.select_policy_to_discard_as_chancellor;
   Player.veto_legislation;
   Player.claimed_policy_to_discard_as_president;
   Player.claimed_policy_to_discard_as_chancellor].

Definition executive : list Player.method :=
  [Player.select_player_to_investigate;
   Player.select_special_election_president;
   Player.select_player_to_execute].

Definition guarded : list Player.method :=
  Player.select_chancellor :: legislative ++ executive.

Section Agents_vocabulary.
Context {rng : Type}.
Context (agents :
  Player.t → Player.method → list RoundRecord.t → rng → reply * rng).

(** [v] is an answer of [p.m(state)]. *)
Definition answers (p : Player.t) (m : Player.method)
    (state : list RoundRecord.t) (v : pyval) : Prop :=
  ∃ r r', agents p m state r = (Returns v, r').

(** Some call of the method [m] raises [e]. *)
Definition raised_by (m : Player.method) (e : exn) : Prop :=
  ∃ p state r r', agents p m state r = (Raises e, r').

(** One of [culprits], asked by one of [methods], raised [e], which is
    no instance of [Exception]: [except Exception] lets it through. *)
Definition interrupts (culprits : list Player.t)
    (methods : list Player.method) (e : exn) : Prop :=
  is_Exception e = false
  ∧ ∃ p m state r r',
      p ∈ culprits ∧ m ∈ methods
      ∧ agents p m state r = (Raises e, r').

(** What [get_player_percieved_game_state] hands to a seated player. *)
Definition perceived (g : Game rng) (p : Player.t) : list RoundRecord.t :=
  match index (players g) p with
  | Some i => RoundRecord.set_your_player_id (Some i) <$> round_history g
  | None => []
  end.

(** What player [j] declared about candidate [k]. *)
Definition declared (d : gmap nat (gmap nat pyval)) (k j : nat)
    : option pyval :=
  inner ← d !! k; inner !! j.

(** The players that have not been executed, in the order of the seats. *)
Definition living (g : Game rng) : list Player.t :=
  filter (λ p, p ∉ executed_players g) (players g).
End Agents_vocabulary.

(** The records that a record stands on, oldest first and itself last,
    found by following [_previous_record]. *)
Fixpoint chain (c : RoundRecord.t) : list RoundRecord.t :=
  match RoundRecord._previous_record c with
  | Some previous => chain previous ++ [c]
  | None => [c]
  end.

(** A round whose election failed, and a round with a forced draw. *)
Definition failed (c : RoundRecord.t) : Prop :=
  RoundRecord.successful_election c = Some false.

Definition forced (c : RoundRecord.t) : Prop :=
  is_Some (RoundRecord.anarchy_result c).

#[global] Instance failed_dec c : Decision (failed c).
Proof. unfold failed. apply _. Defined.

#[global] Instance forced_dec c : Decision (forced c).
Proof. unfold forced. apply _. Defined.

Section Invariants.
Context {rng : Type}.

(** Every record of the history refers to the record before it. *)
Definition linked (g : Game rng) : Prop :=
  ∀ k c, round_history g !! k = Some c →
         RoundRecord._previous_record c
         = match k with 0 => None | S k' => round_history g !! k' end.

(** The seats are in order: the presidential order holds the living
    players, each as often as it is seated; nobody was executed twice or
    without having a seat; a president called by special election is
    alive. *)
Definition seated (g : Game rng) : Prop :=
  presidential_order g ≡ₚ living g
  ∧ NoDup (executed_players g)
  ∧ (∀ p, p ∈ executed_players g → p ∈ players g)
  ∧ (∀ p, special_election_next_president g = Some p → p ∈ living g).

(** The values that agents derive from the chain of records are those
    the engine keeps: both tallies, and the executed players, id by
    id. *)
Definition derived (g : Game rng) : Prop :=
  from_option RoundRecord.number_of_liberal_policies_passed 0
    (last (round_history g)) = liberal_policies_passed g
  ∧ from_option RoundRecord.number_of_fascist_policies_passed 0
      (last (round_history g)) = fascist_policies_passed g
  ∧ Forall2 (λ id p, subscript (players g) id = inr p)
      (from_option RoundRecord.executed_players []
         (last (round_history g)))
      (executed_players g).

(** No more cards of a kind in the deck than are left to enact. *)
Definition stocked (g : Game rng) : Prop :=
  liberal_policies_passed g ≤ 5 ∧ fascist_policies_passed g ≤ 6
  ∧ liberal_policies_passed g + fascist_policies_passed g
    ≤ length (round_history g)
  ∧ count Policy.FASCIST (policy_deck g) + fascist_policies_passed g ≤ 11
  ∧ count Policy.LIBERAL (policy_deck g) + liberal_policies_passed g ≤ 6.

(** [anarchy_counter] counts the failed elections of the whole game, and
    a policy was drawn by force in one round if there were three, in
    none otherwise. *)
Definition counted (g : Game rng) : Prop :=
  anarchy_counter g = length (filter failed (round_history g))
  ∧ length (filter forced (round_history g))
    = if decide (3 ≤ anarchy_counter g) then 1 else 0.
End Invariants.

(** ** What a round lets through *)

Section Faults.
Context {rng : Type}.
Context (agents :
  Player.t → Player.method → list RoundRecord.t → rng → reply * rng).

End Faults.

Section Quiet.
Context {rng : Type}.

End Quiet.

(** ** More tables and decks *)

Module Table.
Import Scenario.

(** The seventeen cards, fascist and liberal policies alternating as
    long as there are liberal ones. *)
Definition alternating : list Policy.t :=
  [Policy.FASCIST; Policy.LIBERAL; Policy.FASCIST; Policy.LIBERAL;
   Policy.FASCIST; Policy.LIBERAL; Policy.FASCIST; Policy.LIBERAL;
   Policy.FASCIST; Policy.LIBERAL; Policy.FASCIST; Policy.LIBERAL;
   Policy.FASCIST; Policy.FASCIST; Policy.FASCIST; Policy.FASCIST;
   Policy.FASCIST].

(** [loyal], except that the president names the seat five before the
    end of the table, and executes whoever is president. *)
Definition selfish (state : list RoundRecord.t) (m : Player.method)
    : reply :=
  match m with
  | Player.select_chancellor => Returns (VInt (-5))
  | Player.select_player_to_execute =>
      Returns (from_option (λ i, VInt (Z.of_nat i)) VNone
                 (president_now state))
  | _ => loyal state m
  end.

(** [loyal], except that a president asked to discard a policy leaves
    the interpreter. *)
Definition abrupt (state : list RoundRecord.t) (m : Player.method)
    : reply :=
  match m with
  | Player.select_policy_to_discard_as_president =>
      Raises (BaseException "SystemExit")
  | _ => loyal state m
  end.

(** The game of five after [n] rounds at a [loyal] table, and its last
    record. *)
Definition position `{RandomGenerator Z} (n : nat)
    (policy_deck : list Policy.t) : Game Z :=
  rounds n (scripted loyal) (five policy_deck).

Definition last_record (g : Game Z) : RoundRecord.t :=
  default (RoundRecord.new None 0 ∅ 0) (last (round_history g)).

Definition earlier (g : Game Z) : list RoundRecord.t :=
  take (length (round_history g) - 1) (round_history g).

(** What a run raised. *)
Definition fault_of {A : Type} (x : Res Z A) : exn :=
  match x with
  | Ok _ _ _ => Exception "no exception"
  | Raise e => e
  end.
End Table.

(** * Properties of the engine *)

(** ** What a method can change: a frame rule for the monad *)

Section Stable.
Context {rng : Type} `{RandomGenerator rng}.
Context (R : relation (Game rng)) `{!PreOrder R}.

Lemma stable_ret {A} (a : A) : stable R (mret a).
Proof. intros g r a' g' r' [= _ <- _]. reflexivity. Qed.

Lemma stable_bind {A B} (m : M rng A) (k : A → M rng B) :
  stable R m → (∀ a, stable R (k a)) → stable R (m ≫= k).
Proof.
  intros Hm Hk g r b g' r'. unfold mbind, M_bind, bind.
  destruct (m g r) as [a g1 r1|e] eqn:E; [|done].
  intros Hb. etrans; [exact (Hm _ _ _ _ _ E)|exact (Hk _ _ _ _ _ _ Hb)].
Qed.

Lemma stable_raise {A} (e : exn) : stable R (raise (A:=A) e).
Proof. intros g r a g' r' [=]. Qed.

Lemma stable_try_except {A} (m : M rng A) (handler : exn → M rng A) :
  stable R m → (∀ e, stable R (handler e)) → stable R (try_except m handler).
Proof.
  intros Hm Hh g r a g' r'. unfold try_except.
  destruct (m g r) as [a1 g1 r1|e] eqn:E.
  - intros [= <- <- <-]. exact (Hm _ _ _ _ _ E).
  - destruct (is_Exception e); [apply Hh|done].
Qed.

Lemma stable_get : stable R get.
Proof. intros g r a g' r' [= _ <- _]. reflexivity. Qed.

Lemma stable_getstate : stable R getstate.
Proof. intros g r a g' r' [= _ <- _]. reflexivity. Qed.

Lemma stable_setstate (s : rng) : stable R (setstate s).
Proof. intros g r a g' r' [= _ <- _]. reflexivity. Qed.

Lemma stable_modify (f : Game rng → Game rng) :
  (∀ g, R g (f g)) → stable R (modify f).
Proof. intros Hf g r a g' r' [= _ <- _]. apply Hf. Qed.

Lemma stable_lift {A} (x : exn + A) : stable R (lift x).
Proof. destruct x; [apply stable_raise|apply stable_ret]. Qed.

Lemma stable_random_shuffle {A} (x : list A) : stable R (random_shuffle x).
Proof.
  intros g r a g' r'. unfold random_shuffle.
  destruct (shuffle x r). intros [= _ <- _]. reflexivity.
Qed.

Lemma stable_for_each {A B} (l : list A) (b : B) (body : B → A → M rng B) :
  (∀ b x, stable R (body b x)) → stable R (for_each l b body).
Proof.
  intros Hbody. revert b.
  induction l as [|x l IH]; intros b; simpl.
  - apply stable_ret.
  - apply stable_bind; [apply Hbody|exact IH].
Qed.

Context (agents :
  Player.t → Player.method → list RoundRecord.t → rng → reply * rng).

Lemma stable_call p m state : stable R (call agents p m state).
Proof.
  intros g r a g' r'. unfold call.
  destruct (agents p m state r) as [[v|e] r1]; [|done].
  intros [= _ <- _]. reflexivity.
Qed.
End Stable.

Create HintDb stable.

#[global] Hint Resolve stable_ret stable_raise stable_get stable_getstate
  stable_setstate stable_lift stable_random_shuffle stable_call : stable.

(** One step of a frame proof: split the method along its syntax. *)
Ltac stable_step :=
  lazymatch goal with
  | |- stable _ (_ ≫= _) => apply stable_bind; [apply _| |intros ?]
  | |- stable _ (try_except _ _) => apply stable_try_except; [|intros ?]
  | |- stable _ (for_each _ _ _) =>
      apply stable_for_each; [apply _|intros ? ?]
  | |- stable _ (modify _) => apply stable_modify; intros ?
  | |- stable _ (match ?x with _ => _ end) => destruct x
  | |- stable _ _ => solve [eauto with stable]
  end.

Ltac stable_auto := repeat stable_step.

Section Frame.
Context {rng : Type} `{RandomGenerator rng}.

#[global] Instance unwritten_preorder : PreOrder (unwritten (rng:=rng)).
Proof.
  split.
  - intros g. unfold unwritten. auto 10.
  - intros g1 g2 g3 (?&?&?&?&?&?&?) (?&?&?&?&?&?&?).
    unfold unwritten. repeat split; try congruence. lia.
Qed.

Hint Resolve unwritten_preorder : stable.

Lemma unwritten_set (f : Game rng → Game rng) :
  (∀ g, liberals (f g) = liberals g ∧ fascists (f g) = fascists g
        ∧ hitler (f g) = hitler g ∧ players (f g) = players g
        ∧ previous_government (f g) = previous_government g
        ∧ shot_hitler (f g) = shot_hitler g
        ∧ anarchy_counter g ≤ anarchy_counter (f g)) →
  stable (rng:=rng) unwritten (modify f).
Proof. intros Hf. apply stable_modify. exact Hf. Qed.

Context (agents :
  Player.t → Player.method → list RoundRecord.t → rng → reply * rng).

Local Ltac frame :=
  repeat first
    [ stable_step
    | match goal with
      | |- unwritten _ _ => unfold unwritten; simpl; repeat split; lia
      end ].

Lemma frame_players_index p : stable (rng:=rng) unwritten (players_index p).
Proof. unfold players_index. frame. Qed.

Lemma frame_update_current_round f :
  stable (rng:=rng) unwritten (update_current_round f).
Proof. unfold update_current_round. frame. Qed.

Hint Resolve frame_players_index frame_update_current_round : stable.

Lemma frame_get_player_percieved_game_state p :
  stable (rng:=rng) unwritten (get_player_percieved_game_state p).
Proof. unfold get_player_percieved_game_state. frame. Qed.

Hint Resolve frame_get_player_percieved_game_state : stable.

Lemma frame_update_policy_deck : stable (rng:=rng) unwritten update_policy_deck.
Proof. unfold update_policy_deck. frame. Qed.

Lemma frame_update_round_history : stable (rng:=rng) unwritten update_round_history.
Proof. unfold update_round_history. frame. Qed.

Lemma frame_determine_next_president :
  stable (rng:=rng) unwritten determine_next_president.
Proof. unfold determine_next_president. frame. Qed.

Lemma frame_solicit_intent_to_vote p :
  stable (rng:=rng) unwritten (solicit_intent_to_vote agents p).
Proof. unfold solicit_intent_to_vote. frame. Qed.

Lemma frame_select_chancellor p :
  stable (rng:=rng) unwritten (select_chancellor agents p).
Proof. unfold select_chancellor. frame. Qed.

Lemma frame_hold_election : stable (rng:=rng) unwritten (hold_election agents).
Proof. unfold hold_election. frame. Qed.

Lemma frame_hold_legislation_session p c :
  stable (rng:=rng) unwritten (hold_legislation_session agents p c).
Proof.
  unfold hold_legislation_session, draw_legislative_session_policies,
    veto_of.
  frame.
Qed.

Lemma frame_ask_player_id p m state invalid message :
  stable (rng:=rng) unwritten (ask_player_id agents p m state invalid message).
Proof. unfold ask_player_id. frame. Qed.

Hint Resolve frame_ask_player_id : stable.

Lemma frame_execute_player p : stable (rng:=rng) unwritten (execute_player agents p).
Proof. unfold execute_player. frame. Qed.

Lemma frame_executive_action p :
  stable (rng:=rng) unwritten (executive_action agents p).
Proof.
  unfold executive_action, investigate_player, declare_special_election.
  pose proof (frame_execute_player p). frame.
Qed.

Lemma frame_execute_anarchy : stable (rng:=rng) unwritten execute_anarchy.
Proof. unfold execute_anarchy, draw_anarchy_policy. frame. Qed.

Hint Resolve frame_update_policy_deck frame_update_round_history
  frame_determine_next_president frame_solicit_intent_to_vote
  frame_select_chancellor frame_hold_election
  frame_hold_legislation_session frame_executive_action
  frame_execute_anarchy : stable.

(** A round leaves the roles, the seats, [previous_government] and
    [shot_hitler] as they were, and never lowers [anarchy_counter]. *)
Lemma frame_play_round : stable (rng:=rng) unwritten (play_round agents).
Proof. unfold play_round. frame. Qed.

Lemma frame_play_rounds fuel : stable (rng:=rng) unwritten (play_rounds agents fuel).
Proof.
  pose proof frame_play_round.
  induction fuel; simpl; frame.
Qed.
End Frame.

(** ** What the engine never writes *)

Section NeverWritten.
Context {rng : Type} `{RandomGenerator rng}.
Context (agents :
  Player.t → Player.method → list RoundRecord.t → rng → reply * rng).

(** No run of rounds changes [shot_hitler] or [previous_government]. *)
Lemma play_rounds_unwritten fuel g r b g' r' :
  play_rounds agents fuel g r = Ok b g' r' →
  shot_hitler g' = shot_hitler g
  ∧ previous_government g' = previous_government g
  ∧ players g' = players g
  ∧ anarchy_counter g ≤ anarchy_counter g'.
Proof.
  intros Hrun.
  destruct (frame_play_rounds agents fuel _ _ _ _ _ Hrun)
    as (_&_&_&?&?&?&?).
  auto.
Qed.

Lemma init_unwritten liberals fascists hitler deck order r
    (g : Game rng) :
  init liberals fascists hitler deck order r = inr g →
  shot_hitler g = false ∧ previous_government g = ∅ ∧ players g = order.
Proof.
  unfold init. destruct (validate _ _ _ _); [done|].
  intros [= <-]. done.
Qed.

(** A game built by [Game(...)] never ends with "Shot Hitler". *)
Lemma play_game_never_shot_hitler liberals fascists hitler deck order r
    (g : Game rng) fuel r' winner :
  init liberals fascists hitler deck order r = inr g →
  play_game agents fuel g r' ≠ Returned winner (Some "Shot Hitler").
Proof.
  intros Hinit. destruct (init_unwritten _ _ _ _ _ _ _ Hinit) as (Hs&_&_).
  unfold play_game.
  destruct (play_rounds agents fuel g r') as [b g' r''|e] eqn:Hrun.
  - destruct (play_rounds_unwritten _ _ _ _ _ _ Hrun) as (Hs'&_).
    rewrite Hs in Hs'. destruct b; [|done].
    unfold determine_if_winner. rewrite Hs'.
    repeat case_bool_decide; try destruct (elected_hitler g'); congruence.
  - destruct e; try done. repeat case_bool_decide; congruence.
Qed.

(** In a game built by [Game(...)], the candidates skipped when intents
    are solicited are the executed players and the president, whatever
    the previous government was. *)
Lemma skipped_candidate_ignores_previous_government liberals fascists
    hitler deck order r (g : Game rng) fuel r' b g' r'' president
    candidate :
  init liberals fascists hitler deck order r = inr g →
  play_rounds agents fuel g r' = Ok b g' r'' →
  skipped_candidate g' president candidate
  = bool_decide (candidate ∈ executed_players g')
    || bool_decide (candidate = president).
Proof.
  intros Hinit Hrun.
  destruct (init_unwritten _ _ _ _ _ _ _ Hinit) as (_&Hp&_).
  destruct (play_rounds_unwritten _ _ _ _ _ _ Hrun) as (_&Hp'&_).
  unfold skipped_candidate. rewrite Hp', Hp.
  rewrite (bool_decide_eq_false_2 (candidate ∈ (∅ : gset Player.t)))
    by set_solver.
  by rewrite orb_false_r.
Qed.
End NeverWritten.

(** ** Runs that show the defects of the engine *)

Section Runs.
Import Scenario.
#[local] Existing Instance largest.

(** The opening positions of the runs are what [Game(...)] builds. *)
Lemma five_and_six_are_constructed policy_deck :
  init {[0; 1; 2]} {[3; 4]} 4 policy_deck [0; 1; 2; 3; 4] 0%Z
  = inr (five policy_deck)
  ∧ init {[0; 1; 2; 3]} {[4; 5]} 5 policy_deck [0; 1; 2; 3; 4; 5] 0%Z
    = inr (six policy_deck).
Proof. split; reflexivity. Qed.

(** C1 (defect of the code).  Five seats, Hitler is player 4, the deck
    starts with its eleven fascist policies.  The fourth fascist policy is
    enacted in round 4 and the president executes Hitler:
    [execute_player] records the execution, but [shot_hitler] stays
    [False], [determine_if_winner] reports no winner, further rounds are
    played and the game is eventually won by the fascists. *)
Theorem executing_hitler_does_not_end_the_game :
  let start := five fascist_first in
  (λ g, (hitler g, executed_players g,
         RoundRecord.executed_player <$> last (round_history g),
         fascist_policies_passed g, shot_hitler g, determine_if_winner g))
    <$> after 4 (scripted loyal) start
  = Some (4, [4], Some (Some (VInt 4)), 4, false, (None, None))
  ∧ (length ∘ round_history) <$> after 7 (scripted loyal) start = Some 7
  ∧ game 20 (scripted loyal) start
    = Returned (Some Allegiance.FASCIST) (Some "Passed 6 Fascist Policies").
Proof. vm_compute. done. Qed.

(** C2 (defect of the code).  In the same game the fascist tally is 5
    from round 6 on.  In round 7 three fascist policies are drawn, the
    chancellor declares a veto and the president agrees: no policy is
    recorded and both tallies keep their values, both claims are recorded,
    and yet [hold_legislation_session] returns the fascist policy it had
    selected, so [play_round] dispatches the executive action and the
    president executes player 2. *)
Theorem agreed_veto_still_dispatches_executive_action :
  let start := five fascist_first in
  let before := after 6 (scripted loyal) start in
  let after_veto := after 7 (scripted loyal) start in
  (λ g, (liberal_policies_passed g, fascist_policies_passed g,
         executed_players g)) <$> before
  = Some (1, 5, [4; 3])
  ∧ (λ g, (liberal_policies_passed g, fascist_policies_passed g,
           executed_players g)) <$> after_veto
    = Some (1, 5, [4; 3; 2])
  ∧ (λ g, (λ round,
             (RoundRecord.chancellor_veto round,
              RoundRecord.president_veto round,
              RoundRecord.selected_policy round,
              RoundRecord.president_claimed_discarded_policy round,
              RoundRecord.chancellor_claimed_discarded_policy round,
              RoundRecord.executed_player round))
          <$> last (round_history g)) <$> after_veto
    = Some (Some (Some true, Some true, None, Some Policy.LIBERAL,
                  Some Policy.LIBERAL, Some (VInt 2))).
Proof. vm_compute. done. Qed.

(** C3 (defect of the code).  With every election failing, the third
    failure force-draws the top policy (fascist here) and applies it, but
    [anarchy_counter] stays at 3 and keeps growing: rounds 4 to 6 fail as
    well and draw nothing.  With the elections of rounds 1, 3 and 4
    failing and that of round 2 succeeding, the counter of the engine is 1
    after the success, while the [anarchy_counter] derived from the record
    chain is 0, and the forced draw comes in round 4, after two
    consecutive failures. *)
Theorem anarchy_counter_is_never_reset :
  let summary (g : Game Z) :=
    (anarchy_counter g, liberal_policies_passed g,
     fascist_policies_passed g, length (policy_deck g),
     RoundRecord.successful_election <$> round_history g,
     RoundRecord.anarchy_result <$> round_history g) in
  summary <$> after 3 (scripted dissenting) (five fascist_first)
  = Some (3, 0, 1, 16, [Some false; Some false; Some false],
          [None; None; Some Policy.FASCIST])
  ∧ summary <$> after 6 (scripted dissenting) (five fascist_first)
    = Some (6, 0, 1, 16,
            [Some false; Some false; Some false;
             Some false; Some false; Some false],
            [None; None; Some Policy.FASCIST; None; None; None])
  ∧ (λ g, (anarchy_counter g,
           RoundRecord.successful_election <$> round_history g,
           RoundRecord.anarchy_counter <$> last (round_history g)))
      <$> after 2 (scripted wavering) (five fascist_first)
    = Some (1, [Some false; Some true], Some 0)
  ∧ (λ g, (anarchy_counter g,
           RoundRecord.successful_election <$> round_history g,
           RoundRecord.anarchy_result <$> round_history g))
      <$> after 4 (scripted wavering) (five fascist_first)
    = Some (3, [Some false; Some true; Some false; Some false],
            [None; None; None; Some Policy.FASCIST]).
Proof. vm_compute. done. Qed.

(** C4 (defect of the code).  Six seats, all six living.  Round 1 elects
    president 0 with chancellor 2.  In round 2 (president 1) intents are
    solicited for every seat but the president's, among them 0 and 2, the
    president nominates player 2 again and the government is elected:
    [previous_government] is still empty.  The record chain, for its
    part, lists player 2 as ineligible. *)
Theorem previous_government_is_not_excluded :
  (λ g, (previous_government g, length (presidential_order g),
         (λ round, (RoundRecord.president round,
                    RoundRecord.chancellor round,
                    RoundRecord.successful_election round,
                    dom <$> RoundRecord.declared_election_intent round))
           <$> round_history g,
         RoundRecord.ineligible_for_chancellorship
           <$> last (round_history g)))
    <$> after 2 (scripted insistent) (six liberal_first)
  = Some (∅, 6,
          [(Some 0, Some (VInt 2), Some true, Some {[1; 2; 3; 4; 5]});
           (Some 1, Some (VInt 2), Some true, Some {[0; 2; 3; 4; 5]})],
          Some [VInt 2]).
Proof. vm_compute. done. Qed.

(** C5 (defect of the code).  A president whose [select_chancellor]
    returns 7 in a game of five makes [play_game] propagate [IndexError],
    and a president whose [claimed_player_investigation_result] raises
    makes it propagate that exception: in both cases no winner is
    returned. *)
Theorem some_agent_faults_escape_play_game :
  game 20 (scripted out_of_range) (five fascist_first)
  = Uncaught IndexError
  ∧ game 20 (scripted tongue_tied) (five fascist_first)
    = Uncaught (Exception "RuntimeError").
Proof. vm_compute. done. Qed.

(** C6 (defect of the code).  [hold_election] adds up whatever
    [vote_on_government] returns and validates none of it.  Five seats,
    all living, first round: the president answers 3 and the four others
    answer 0.  The five answers are recorded as they came, none of them
    is a yes vote, and the election succeeds, since 3 is more than half
    of five; the government takes office and enacts a policy. *)
Theorem election_succeeds_without_a_yes_vote :
  let start := five fascist_first in
  (length (players start), executed_players start) = (5, [])
  ∧ (λ g, (λ round,
             (RoundRecord.president round,
              (λ results : gmap nat pyval,
                 (λ seat, results !! seat) <$> [0; 1; 2; 3; 4; 5])
                <$> RoundRecord.election_results round,
              yes_votes <$> RoundRecord.election_results round,
              RoundRecord.successful_election round,
              RoundRecord.selected_policy round))
          <$> last (round_history g))
      <$> after 1 (scripted weighty) start
    = Some (Some (Some 0,
                  Some [Some (VInt 3); Some (VInt 0); Some (VInt 0);
                        Some (VInt 0); Some (VInt 0); None],
                  Some 0, Some true, Some Policy.FASCIST)).
Proof. vm_compute. done. Qed.

(** C9 (defect of the code).  [investigate_player] builds one view of
    the president before asking whom to investigate and hands the same
    view to [claimed_player_investigation_result], after the engine has
    written the investigated player and the result to its record: at
    that decision point the agent is not given a copy of the records up
    to the current round.  Five seats, the first round enacts a fascist
    policy and the president investigates player 2: the record holds the
    player and the party, a view built from it shows both, and the
    president who claims what the state shows claims [None]. *)
Theorem investigation_result_is_claimed_from_a_stale_view :
  let start := five fascist_first in
  let finished := rounds 1 (scripted truthful) start in
  let fresh :=
    value_of []
      (get_player_percieved_game_state (rng:=Z) 0 finished 0%Z) in
  (length ∘ round_history) <$> after 1 (scripted truthful) start = Some 1
  ∧ (λ round, (RoundRecord.president round,
               RoundRecord.investigated_player round,
               RoundRecord.investigated_player_identity round,
               RoundRecord.claimed_investigated_player_allegiance round))
      <$> last (round_history finished)
    = Some (Some 0, Some (VInt 2), Some Allegiance.LIBERAL, Some VNone)
  ∧ (λ round, (RoundRecord.your_player_id round,
               RoundRecord.investigated_player round,
               RoundRecord.investigated_player_identity round))
      <$> last fresh
    = Some (Some 0, Some (VInt 2), Some Allegiance.LIBERAL)
  ∧ truthful fresh Player.claimed_player_investigation_result
    = Returns (VAllegiance Allegiance.LIBERAL).
Proof. vm_compute. done. Qed.
End Runs.

(** ** Inverting a run that returned *)

Section Inversion.
Context {rng : Type} `{RandomGenerator rng}.
Context (agents :
  Player.t → Player.method → list RoundRecord.t → rng → reply * rng).

Lemma bind_Ok {A B} (m : M rng A) (k : A → M rng B) g r b g' r' :
  (m ≫= k) g r = Ok b g' r' →
  ∃ a g1 r1, m g r = Ok a g1 r1 ∧ k a g1 r1 = Ok b g' r'.
Proof.
  unfold mbind, M_bind, bind.
  destruct (m g r) as [a g1 r1|e]; [|done]. eauto.
Qed.

Lemma index_Some l x i : index l x = Some i → l !! i = Some x.
Proof.
  revert i. induction l as [|y l IH]; intros i; simpl; [done|].
  destruct (decide (y = x)) as [->|_].
  - by intros [= <-].
  - destruct (index l x) as [j|]; simpl; [|done].
    intros [= <-]. by apply IH.
Qed.

Lemma index_is_Some l x : x ∈ l → is_Some (index l x).
Proof.
  induction 1 as [|x y l _ IH]; simpl.
  - rewrite decide_True by done. eauto.
  - destruct (decide (y = x)); [eauto|]. destruct IH as [i ->]. eauto.
Qed.

Lemma players_index_Ok p (g : Game rng) r i g' r' :
  players_index p g r = Ok i g' r' →
  g' = g ∧ r' = r ∧ index (players g) p = Some i.
Proof.
  unfold players_index. intros (g0&g1&r1&[= <- <- <-]&Hk)%bind_Ok.
  destruct (index (players g) p); [|done].
  by injection Hk as <- <- <-.
Qed.

Lemma call_Ok p m state (g : Game rng) r v g' r' :
  call agents p m state g r = Ok v g' r' →
  g' = g ∧ agents p m state r = (Returns v, r').
Proof.
  unfold call. destruct (agents p m state r) as [[v0|e] r0]; [|done].
  by intros [= <- <- <-].
Qed.

Lemma view_loop p (l acc : list RoundRecord.t) (g : Game rng) r view g' r' :
  for_each l acc
    (λ game_state round,
       player_id ← players_index p;
       mret (game_state
             ++ [RoundRecord.set_your_player_id (Some player_id) round]))
    g r = Ok view g' r' →
  g' = g ∧ r' = r
  ∧ match index (players g) p with
    | Some i =>
        view = acc ++ (RoundRecord.set_your_player_id (Some i) <$> l)
    | None => l = [] ∧ view = acc
    end.
Proof.
  revert acc. induction l as [|x l IH]; intros acc; simpl.
  - intros [= <- <- <-]. split_and!; [done..|].
    destruct (index (players g) p); by rewrite ?app_nil_r.
  - intros (acc'&g1&r1&Hbody&Hrest)%bind_Ok.
    apply bind_Ok in Hbody as (i&g2&r2&(->&->&Hi)%players_index_Ok&Hret).
    injection Hret as <- <- <-.
    destruct (IH _ Hrest) as (->&->&Hview). rewrite Hi in Hview |- *.
    split_and!; [done..|]. by rewrite Hview, <- (assoc_L (++)).
Qed.

(** Building a view reads the game and nothing else, and the view is the
    history, each record with [your_player_id] set: as many rounds as
    have been opened, none more. *)
Lemma get_player_percieved_game_state_Ok p (g : Game rng) r view g' r' :
  get_player_percieved_game_state p g r = Ok view g' r' →
  g' = g ∧ r' = r
  ∧ match index (players g) p with
    | Some i =>
        view = RoundRecord.set_your_player_id (Some i) <$> round_history g
    | None => round_history g = [] ∧ view = []
    end.
Proof.
  unfold get_player_percieved_game_state.
  intros (g0&g1&r1&[= <- <- <-]&Hk)%bind_Ok.
  by apply view_loop in Hk.
Qed.

(** A loop whose body leaves the game alone establishes any invariant of
    the accumulator that each iteration maintains. *)
Lemma for_each_invariant {A B} (I : list A → B → Prop)
    (body : B → A → M rng B) (g : Game rng) :
  (∀ b x r b' g' r', body b x g r = Ok b' g' r' → g' = g) →
  (∀ done x b r b' r',
     I done b → body b x g r = Ok b' g r' → I (done ++ [x]) b') →
  ∀ l done b r b' g' r',
    I done b → for_each l b body g r = Ok b' g' r' →
    g' = g ∧ I (done ++ l) b'.
Proof.
  intros Hg Hstep l.
  induction l as [|x l IH]; intros done b r b' g' r' HI; simpl.
  - intros [= <- <- <-]. by rewrite app_nil_r.
  - intros (b1&g1&r1&Hbody&Hrest)%bind_Ok.
    pose proof (Hg _ _ _ _ _ _ Hbody) as ->.
    rewrite (assoc_L (++) done [x] l : done ++ x :: l = (done ++ [x]) ++ l).
    eapply IH; [|exact Hrest]. eauto.
Qed.

Lemma update_current_round_Ok f (g : Game rng) r u g' r' :
  update_current_round f g r = Ok u g' r' →
  ∃ current,
    last (round_history g) = Some current
    ∧ g' = set_round_history
             (take (length (round_history g) - 1) (round_history g)
              ++ [f current]) g
    ∧ r' = r.
Proof.
  unfold update_current_round.
  intros (g0&g1&r1&[= <- <- <-]&Hk)%bind_Ok.
  destruct (last (round_history g)) as [current|]; [|done].
  injection Hk as <- <-. eauto.
Qed.
End Inversion.

(** ** Elections *)

Section Election.
Context {rng : Type} `{RandomGenerator rng}.
Context (agents :
  Player.t → Player.method → list RoundRecord.t → rng → reply * rng).

Lemma sum_values_bools (values : list pyval) :
  Forall (λ v, ∃ b, v = VBool b) values →
  sum_values values
  = inr (Z.of_nat (length (filter (λ v, is_yes v) values))).
Proof.
  induction 1 as [|v values [b ->] _ IH]; [done|].
  rewrite filter_cons. unfold sum_values in *. cbn [foldr]. rewrite IH.
  destruct b; simpl; f_equal; lia.
Qed.

Lemma more_than_half_spec (yes number : nat) :
  more_than_half (Z.of_nat yes) number = bool_decide (number < 2 * yes).
Proof.
  unfold more_than_half, QArith_base.Qle_bool. simpl.
  case_bool_decide; [apply negb_true_iff|apply negb_false_iff]; lia.
Qed.

(** The body of the loop of [hold_election]. *)
Lemma cast_vote_Ok (g : Game rng) (results : gmap nat pyval) player r
    results' g' r' :
  (g0 ← get;
   if bool_decide (player ∈ executed_players g0)
   then mret results
   else
     player_id ← players_index player;
     player_perception ← get_player_percieved_game_state player;
     v ← call agents player Player.vote_on_government player_perception;
     mret (<[player_id := v]> results)) g r = Ok results' g' r' →
  g' = g
  ∧ (if bool_decide (player ∈ executed_players g) then results' = results
     else ∃ i v, index (players g) player = Some i
                 ∧ results' = <[i := v]> results).
Proof.
  intros (g0&g1&r1&[= <- <- <-]&Hk)%bind_Ok.
  destruct (bool_decide (player ∈ executed_players g)).
  - by injection Hk as <- <- <-.
  - apply bind_Ok in Hk as (i&g1&r1&(->&->&Hi)%players_index_Ok&Hk).
    apply bind_Ok in Hk
      as (view&g1&r1&(->&->&_)%get_player_percieved_game_state_Ok&Hk).
    apply bind_Ok in Hk as (v&g1&r1&(->&_)%call_Ok&Hk).
    injection Hk as <- <- <-. eauto.
Qed.

(** When [hold_election] returns, the record of the round holds one
    vote for each seat of a living player and none for the seat of an
    executed one, and, the votes being booleans, the election succeeded
    if and only if twice the number of yes votes exceeds the number of
    seats [len(self.players)], which no method ever changes
    ([play_rounds_unwritten]): executed players cast no vote and still
    count in the denominator. *)
Theorem election_needs_majority_of_all_seats (g : Game rng) r b g' r' :
  hold_election agents g r = Ok b g' r' →
  ∃ results current,
    last (round_history g') = Some current
    ∧ RoundRecord.election_results current = Some results
    ∧ RoundRecord.successful_election current = Some b
    ∧ players g' = players g
    ∧ (∀ i, is_Some (results !! i)
            ↔ (∃ p, p ∈ players g ∧ (p ∉ executed_players g)
                    ∧ index (players g) p = Some i))
    ∧ (ballots results →
       b = bool_decide (length (players g) < 2 * yes_votes results)).
Proof.
  unfold hold_election.
  intros (g0&g1&r1&[= <- <- <-]&Hk)%bind_Ok.
  apply bind_Ok in Hk as (results&g1&r1&Hloop&Hk).
  pose (I := λ (done : list Player.t) (results : gmap nat pyval),
          ∀ i, is_Some (results !! i)
               ↔ (∃ p, p ∈ done ∧ (p ∉ executed_players g)
                       ∧ index (players g) p = Some i)).
  assert (I [] ∅) as HI0.
  { intros i. rewrite lookup_empty. split; [by intros []|].
    intros (?&[]%elem_of_nil&_). }
  eapply (for_each_invariant I) in Hloop as [-> Hdom]; [| | |exact HI0].
  - apply bind_Ok in Hk as (total&g1&r2&Htotal&Hk).
    destruct (sum_values _) as [e|total'] eqn:Hsum; [done|].
    injection Htotal as <- <- <-.
    apply bind_Ok in Hk
      as (?&g1&r2&(c1&Hc1&->&->)%update_current_round_Ok&Hk).
    apply bind_Ok in Hk
      as (?&g2&r2&(c2&Hc2&->&->)%update_current_round_Ok&Hk).
    injection Hk as <- <- <-.
    simpl in Hc2. rewrite last_snoc in Hc2. injection Hc2 as <-.
    eexists results, _.
    split_and!;
      [simpl; by rewrite last_snoc|done|done|done|exact Hdom|].
    intros Hballots. rewrite sum_values_bools in Hsum.
    { injection Hsum as <-. apply more_than_half_spec. }
    apply Forall_forall.
    intros v ([i v']&->&Hi%elem_of_map_to_list)%list_elem_of_fmap.
    eauto.
  - intros ?? r0 ?? r0' Hbody. by apply cast_vote_Ok in Hbody as [-> _].
  - intros done p results0 r0 results' r0' HI Hbody i.
    apply cast_vote_Ok in Hbody as [_ Hbody].
    case_bool_decide as Hex.
    + subst results'. rewrite (HI i). split.
      * intros (q&?&?&?). exists q. set_solver.
      * intros (q&[?| ->%list_elem_of_singleton]%elem_of_app&?&?);
          [eauto|done].
    + destruct Hbody as (j&v&Hj&->).
      destruct (decide (j = i)) as [->|Hne].
      * rewrite lookup_insert_eq. split; [|eauto].
        intros _. exists p. set_solver.
      * rewrite lookup_insert_ne by done. rewrite (HI i). split.
        -- intros (q&?&?&?). exists q. set_solver.
        -- intros (q&[?| ->%list_elem_of_singleton]%elem_of_app&?&?);
             [eauto|congruence].
Qed.
End Election.

(** ** The policy deck *)

Section Shuffle.
Context {rng : Type} `{RandomGenerator rng}.

Lemma count_cons x y l :
  count x (y :: l) = (if decide (y = x) then 1 else 0) + count x l.
Proof. unfold count. rewrite filter_cons. by destruct (decide (y = x)). Qed.

Lemma count_app x l1 l2 : count x (l1 ++ l2) = count x l1 + count x l2.
Proof. unfold count. by rewrite filter_app, length_app. Qed.

Lemma count_replicate x y n :
  count x (replicate n y) = if decide (y = x) then n else 0.
Proof.
  induction n as [|n IH]; simpl; [by destruct (decide (y = x))|].
  rewrite count_cons, IH. by destruct (decide (y = x)).
Qed.

(** Overwriting one position trades the old item for the new one. *)
Lemma count_insert x l i a b :
  l !! i = Some a →
  count x (<[i:=b]> l) + (if decide (a = x) then 1 else 0)
  = count x l + (if decide (b = x) then 1 else 0).
Proof.
  revert i. induction l as [|y l IH]; intros [|i]; simpl; try done.
  - intros [= ->]. rewrite !count_cons. lia.
  - intros Hi. rewrite !count_cons. specialize (IH i Hi). lia.
Qed.

Lemma swap_count x (l : list Policy.t) i j :
  count x (swap l i j) = count x l.
Proof.
  unfold swap.
  destruct (l !! i) as [a|] eqn:Hi; [|done].
  destruct (l !! j) as [b|] eqn:Hj; [|done].
  assert (<[j:=a]> l !! i = Some a) as Hi'.
  { destruct (decide (i = j)) as [->|Hne].
    - rewrite list_lookup_insert_eq; [done|]. by eapply lookup_lt_Some.
    - by rewrite list_lookup_insert_ne. }
  pose proof (count_insert x _ _ _ b Hi').
  pose proof (count_insert x _ _ _ a Hj).
  lia.
Qed.

Lemma swap_length {A} (l : list A) i j : length (swap l i j) = length l.
Proof.
  unfold swap. destruct (l !! i), (l !! j); try done.
  by rewrite !length_insert.
Qed.

Lemma shuffle_from_count x i (l : list Policy.t) r :
  count x (shuffle_from i l r).1 = count x l.
Proof.
  revert l r. induction i as [|i IH]; intros l r; simpl; [done|].
  destruct (randbelow (S (S i)) r) as [j r'].
  by rewrite IH, swap_count.
Qed.

Lemma shuffle_from_length {A} i (l : list A) r :
  length (shuffle_from i l r).1 = length l.
Proof.
  revert l r. induction i as [|i IH]; intros l r; simpl; [done|].
  destruct (randbelow (S (S i)) r) as [j r'].
  by rewrite IH, swap_length.
Qed.

(** Shuffling keeps the number of copies of each policy. *)
Lemma shuffle_count x (l : list Policy.t) r :
  count x (shuffle l r).1 = count x l.
Proof. apply shuffle_from_count. Qed.

Lemma shuffle_length {A} (l : list A) r :
  length (shuffle l r).1 = length l.
Proof. apply shuffle_from_length. Qed.

(** C7.  [update_policy_deck], the first step of every round, always
    returns and leaves both tallies alone.  With fewer than 3 cards in the
    deck, the new deck holds exactly [11 - fascist_policies_passed]
    fascist and [6 - liberal_policies_passed] liberal policies and nothing
    else: every policy not enacted so far, the undrawn ones included, is
    in it once.  With 3 cards or more, neither the game nor the generator
    changes. *)
Theorem update_policy_deck_rebuilds_from_tallies (g : Game rng) (r : rng) :
  ∃ g' r',
    update_policy_deck g r = Ok () g' r'
    ∧ liberal_policies_passed g' = liberal_policies_passed g
    ∧ fascist_policies_passed g' = fascist_policies_passed g
    ∧ if bool_decide (length (policy_deck g) < 3)
      then count Policy.FASCIST (policy_deck g')
           = 11 - fascist_policies_passed g
           ∧ count Policy.LIBERAL (policy_deck g')
             = 6 - liberal_policies_passed g
           ∧ length (policy_deck g')
             = (11 - fascist_policies_passed g)
               + (6 - liberal_policies_passed g)
      else g' = g ∧ r' = r.
Proof.
  unfold update_policy_deck, mbind, M_bind, bind, get, setstate,
    random_shuffle, modify, getstate.
  destruct (bool_decide (length (policy_deck g) < 3)); [|by eauto 10].
  set (fresh_deck := replicate _ _ ++ replicate _ _).
  pose proof (shuffle_count Policy.FASCIST fresh_deck
                (random_number_generator g)) as HF.
  pose proof (shuffle_count Policy.LIBERAL fresh_deck
                (random_number_generator g)) as HL.
  pose proof (shuffle_length fresh_deck (random_number_generator g)) as Hn.
  destruct (shuffle fresh_deck (random_number_generator g))
    as [shuffled r'].
  simpl in *. eexists _, _. split; [done|]. simpl.
  subst fresh_deck.
  rewrite count_app, !count_replicate in HF, HL.
  rewrite length_app, !length_replicate in Hn. simpl in *.
  split_and!; [done|done|lia|lia|lia].
Qed.
End Shuffle.

(** ** Two runs that differ in the randomness agents draw *)

Section Isolation.
Context {rng : Type} `{RandomGenerator rng}.

Local Abbreviation sim := (sim (rng:=rng)).

Lemma sim_ret {A} (a : A) : sim (mret a) (mret a).
Proof. by intros g r1 r2. Qed.

Lemma sim_raise {A} (e : exn) : sim (raise (A:=A) e) (raise e).
Proof. by intros g r1 r2. Qed.

Lemma sim_bind {A B} (m1 m2 : M rng A) (k1 k2 : A → M rng B) :
  sim m1 m2 → (∀ a, sim (k1 a) (k2 a)) → sim (m1 ≫= k1) (m2 ≫= k2).
Proof.
  intros Hm Hk g r1 r2. unfold mbind, M_bind, bind.
  specialize (Hm g r1 r2).
  destruct (m1 g r1), (m2 g r2); simpl in Hm; try done.
  destruct Hm as [-> ->]. apply Hk.
Qed.

Lemma sim_try_except {A} (m1 m2 : M rng A) (h1 h2 : exn → M rng A) :
  sim m1 m2 → (∀ e, sim (h1 e) (h2 e)) →
  sim (try_except m1 h1) (try_except m2 h2).
Proof.
  intros Hm Hh g r1 r2. unfold try_except.
  specialize (Hm g r1 r2).
  destruct (m1 g r1), (m2 g r2); simpl in Hm; try done.
  subst. destruct (is_Exception _); [apply Hh|done].
Qed.

Lemma sim_get : sim get get.
Proof. by intros g r1 r2. Qed.

Lemma sim_modify f : sim (modify f) (modify f).
Proof. by intros g r1 r2. Qed.

Lemma sim_setstate s : sim (setstate s) (setstate s).
Proof. by intros g r1 r2. Qed.

Lemma sim_lift {A} (x : exn + A) : sim (lift x) (lift x).
Proof. destruct x; [apply sim_raise|apply sim_ret]. Qed.

Lemma sim_for_each {A B} (l : list A) (b : B)
    (body1 body2 : B → A → M rng B) :
  (∀ b x, sim (body1 b x) (body2 b x)) →
  sim (for_each l b body1) (for_each l b body2).
Proof.
  intros Hbody. revert b. induction l as [|x l IH]; intros b; simpl.
  - apply sim_ret.
  - apply sim_bind; [apply Hbody|exact IH].
Qed.

(** The reshuffle starts from the saved generator, not from the
    process-wide one. *)
Lemma sim_update_policy_deck : sim update_policy_deck update_policy_deck.
Proof.
  intros g r1 r2.
  unfold update_policy_deck, mbind, M_bind, bind, get, setstate,
    random_shuffle, modify, getstate.
  destruct (bool_decide (length (policy_deck g) < 3)); [|done].
  by destruct (shuffle _ _).
Qed.
End Isolation.

Create HintDb sim.

#[global] Hint Resolve sim_ret sim_raise sim_get sim_modify sim_setstate
  sim_lift sim_update_policy_deck : sim.

Ltac sim_step :=
  lazymatch goal with
  | |- sim (_ ≫= _) (_ ≫= _) => apply sim_bind; [|intros ?]
  | |- sim (try_except _ _) (try_except _ _) =>
      apply sim_try_except; [|intros ?]
  | |- sim (for_each _ _ _) (for_each _ _ _) =>
      apply sim_for_each; intros ? ?
  | |- sim (match ?x with _ => _ end) (match ?x with _ => _ end) =>
      destruct x
  | |- sim _ _ => solve [eauto with sim]
  end.

Ltac sim_auto := repeat sim_step.

Section Runs_agree.
Context {rng : Type} `{RandomGenerator rng}.
Context (agents1 agents2 :
  Player.t → Player.method → list RoundRecord.t → rng → reply * rng).

Hypothesis decisions : same_decisions agents1 agents2.

Lemma sim_call p m state :
  sim (call agents1 p m state) (call agents2 p m state).
Proof.
  intros g r1 r2. unfold call.
  pose proof (decisions p m state r1 r2) as Hd.
  destruct (agents1 p m state r1) as [[v1|e1] r1'],
    (agents2 p m state r2) as [[v2|e2] r2']; simpl in Hd; by simplify_eq.
Qed.

Hint Resolve sim_call : sim.

Lemma sim_players_index p : sim (rng:=rng) (players_index p) (players_index p).
Proof. unfold players_index. sim_auto. Qed.

Lemma sim_update_current_round f :
  sim (rng:=rng) (update_current_round f) (update_current_round f).
Proof. unfold update_current_round. sim_auto. Qed.

Hint Resolve sim_players_index sim_update_current_round : sim.

Lemma sim_get_player_percieved_game_state p :
  sim (rng:=rng) (get_player_percieved_game_state p)
    (get_player_percieved_game_state p).
Proof. unfold get_player_percieved_game_state. sim_auto. Qed.

Hint Resolve sim_get_player_percieved_game_state : sim.

Lemma sim_update_round_history :
  sim (rng:=rng) update_round_history update_round_history.
Proof. unfold update_round_history. sim_auto. Qed.

Lemma sim_determine_next_president :
  sim (rng:=rng) determine_next_president determine_next_president.
Proof. unfold determine_next_president. sim_auto. Qed.

Lemma sim_solicit_intent_to_vote p :
  sim (solicit_intent_to_vote agents1 p) (solicit_intent_to_vote agents2 p).
Proof. unfold solicit_intent_to_vote. sim_auto. Qed.

Lemma sim_select_chancellor p :
  sim (select_chancellor agents1 p) (select_chancellor agents2 p).
Proof. unfold select_chancellor. sim_auto. Qed.

Lemma sim_hold_election : sim (hold_election agents1) (hold_election agents2).
Proof. unfold hold_election. sim_auto. Qed.

Lemma sim_hold_legislation_session p c :
  sim (hold_legislation_session agents1 p c)
    (hold_legislation_session agents2 p c).
Proof.
  unfold hold_legislation_session, draw_legislative_session_policies,
    veto_of.
  sim_auto.
Qed.

Lemma sim_ask_player_id p m state invalid message :
  sim (ask_player_id agents1 p m state invalid message)
    (ask_player_id agents2 p m state invalid message).
Proof. unfold ask_player_id. sim_auto. Qed.

Hint Resolve sim_ask_player_id : sim.

Lemma sim_executive_action p :
  sim (executive_action agents1 p) (executive_action agents2 p).
Proof.
  unfold executive_action, investigate_player, declare_special_election,
    execute_player.
  sim_auto.
Qed.

Lemma sim_execute_anarchy :
  sim (rng:=rng) execute_anarchy execute_anarchy.
Proof. unfold execute_anarchy, draw_anarchy_policy. sim_auto. Qed.

Hint Resolve sim_update_round_history sim_determine_next_president
  sim_solicit_intent_to_vote sim_select_chancellor sim_hold_election
  sim_hold_legislation_session sim_executive_action sim_execute_anarchy
  : sim.

Lemma sim_play_round : sim (play_round agents1) (play_round agents2).
Proof. unfold play_round. sim_auto. Qed.

Lemma sim_play_rounds fuel :
  sim (play_rounds agents1 fuel) (play_rounds agents2 fuel).
Proof.
  pose proof sim_play_round.
  induction fuel; simpl; sim_auto.
Qed.
End Runs_agree.

Section Deck_isolation.
Context {rng : Type} `{RandomGenerator rng}.

(** C8.  Take two tables of agents that make the same decisions and draw
    what they like from the [random] module, and run the same game with
    each, the process-wide generator being in any state in either run.
    After any number of rounds both runs have raised the same exception,
    or both hold the same [Game]: the same deck, the same tallies, the
    same saved generator.  The reshuffle itself, run from one game with
    two different process-wide generators, yields the same game. *)
Theorem deck_order_ignores_randomness_drawn_by_agents
    (agents1 agents2 :
      Player.t → Player.method → list RoundRecord.t → rng → reply * rng) :
  same_decisions agents1 agents2 →
  ∀ (g : Game rng) (r1 r2 : rng),
    agree (update_policy_deck g r1) (update_policy_deck g r2)
    ∧ ∀ fuel,
        agree (play_rounds agents1 fuel g r1) (play_rounds agents2 fuel g r2).
Proof.
  intros Hsame g r1 r2. split.
  - apply sim_update_policy_deck.
  - intros fuel. by apply sim_play_rounds.
Qed.
End Deck_isolation.

(** ** Construction *)

Section Construction.
Context {rng : Type}.

Lemma validate_inr liberals fascists hitler presidential_order :
  validate liberals fascists hitler presidential_order = inr ()
  ↔ (∀ p, p ∈ presidential_order →
          p ∈ liberals ∨ p ∈ fascists ∨ p = hitler)
    ∧ (∀ p, p ∈ liberals → p ∈ presidential_order)
    ∧ (∀ p, p ∈ fascists → p ∈ presidential_order)
    ∧ hitler ∈ presidential_order
    ∧ ∃ membership,
        PARTY_MEMBERSHIP_BY_PLAYERS (length presidential_order)
        = Some membership
        ∧ size liberals = membership Allegiance.LIBERAL
        ∧ size fascists = membership Allegiance.FASCIST.
Proof.
  unfold validate.
  destruct (existsb _ presidential_order) eqn:Hrole.
  { split; [done|]. intros (Hall&_).
    apply existsb_exists in Hrole as (p&Hp%list_elem_of_In&Hno).
    apply andb_prop in Hno as [[H1%bool_decide_eq_true
      H2%bool_decide_eq_true]%andb_prop H3%bool_decide_eq_true].
    destruct (Hall p Hp) as [?|[?|?]]; done. }
  assert (∀ p, p ∈ presidential_order →
               p ∈ liberals ∨ p ∈ fascists ∨ p = hitler) as Hall.
  { intros p Hp.
    destruct (decide (p ∈ liberals)); [auto|].
    destruct (decide (p ∈ fascists)); [auto|].
    destruct (decide (p = hitler)); [auto|].
    assert (existsb (λ player,
              bool_decide (player ∉ liberals)
              && bool_decide (player ∉ fascists)
              && bool_decide (player ≠ hitler)) presidential_order = true)
      as Hcontra; [|congruence].
    apply existsb_exists. exists p. split; [by apply list_elem_of_In|].
    by rewrite !bool_decide_eq_true_2. }
  case_bool_decide as Hl; simpl; [|split; [done|]; intros (_&?&_); done].
  case_bool_decide as Hf; simpl; [|split; [done|]; intros (_&_&?&_); done].
  case_bool_decide as Hh; simpl; [|split; [done|]; intros (_&_&_&?&_); done].
  destruct (PARTY_MEMBERSHIP_BY_PLAYERS _) as [membership|];
    [|split; [done|]; intros (_&_&_&_&?&?&_); done].
  destruct (size liberals =? membership Allegiance.LIBERAL) eqn:Hsl; simpl;
    [apply Nat.eqb_eq in Hsl|apply Nat.eqb_neq in Hsl].
  2:{ split; [done|]. intros (_&_&_&_&?&?&?&_). congruence. }
  destruct (size fascists =? membership Allegiance.FASCIST) eqn:Hsf; simpl;
    [apply Nat.eqb_eq in Hsf|apply Nat.eqb_neq in Hsf].
  2:{ split; [done|]. intros (_&_&_&_&?&?&_&?). congruence. }
  split; [|done]. intros _. split_and!; eauto.
Qed.

(** C10.  [Game(...)] raises exactly when a seated player has no role, a
    liberal or a fascist is not seated, Hitler is not seated, or the
    sizes of the two sets are not those of the table for the number of
    seats (the table having no row for that number, a [KeyError], being
    one way of not matching it).  Nothing asks for Hitler to be a fascist
    or for the two sets to be disjoint: construction succeeds with Hitler
    among the liberals, and with Hitler in neither set while a player is
    in both. *)
Theorem construction_checks_roles_seats_and_sizes :
  (∀ liberals fascists hitler policy_deck presidential_order (r : rng),
     (∃ e, init liberals fascists hitler policy_deck presidential_order r
           = inl e)
     ↔ (∃ p, p ∈ presidential_order
             ∧ (p ∉ liberals) ∧ (p ∉ fascists) ∧ p ≠ hitler)
       ∨ (∃ p, p ∈ liberals ∧ (p ∉ presidential_order))
       ∨ (∃ p, p ∈ fascists ∧ (p ∉ presidential_order))
       ∨ (hitler ∉ presidential_order)
       ∨ ¬ (∃ membership,
              PARTY_MEMBERSHIP_BY_PLAYERS (length presidential_order)
              = Some membership
              ∧ size liberals = membership Allegiance.LIBERAL
              ∧ size fascists = membership Allegiance.FASCIST))
  ∧ (∀ (r : rng), ∃ g,
       init {[0; 1; 4]} {[2; 3]} 4 Scenario.fascist_first [0; 1; 2; 3; 4] r
       = inr g
       ∧ hitler g ∈ liberals g ∧ (hitler g ∉ fascists g))
  ∧ (∀ (r : rng), ∃ g,
       init {[0; 1; 2]} {[2; 3]} 4 Scenario.fascist_first [0; 1; 2; 3; 4] r
       = inr g
       ∧ (hitler g ∉ liberals g) ∧ (hitler g ∉ fascists g)
       ∧ 2 ∈ liberals g ∧ 2 ∈ fascists g).
Proof.
  split_and!.
  - intros liberals fascists hitler policy_deck presidential_order r.
    pose proof (validate_inr liberals fascists hitler presidential_order)
      as Hv.
    unfold init. destruct (validate _ _ _ _) as [e|[]].
    + split; [intros _|eauto].
      destruct (decide (Forall (λ p, p ∈ liberals ∨ p ∈ fascists
                                     ∨ p = hitler) presidential_order))
        as [Hall|Hno].
      2:{ apply not_Forall_Exists in Hno; [|apply _].
          apply Exists_exists in Hno as (p&Hp&Hno). simpl in Hno.
          left. exists p. split_and!; [done|..]; intros ?; apply Hno; auto. }
      right.
      destruct (decide (set_Forall (λ p, p ∈ presidential_order) liberals))
        as [Hl|Hno].
      2:{ apply not_set_Forall_Exists in Hno as (p&?&?); [|apply _].
          left. by exists p. }
      right.
      destruct (decide (set_Forall (λ p, p ∈ presidential_order) fascists))
        as [Hf|Hno].
      2:{ apply not_set_Forall_Exists in Hno as (p&?&?); [|apply _].
          left. by exists p. }
      right.
      destruct (decide (hitler ∈ presidential_order)); [|by left].
      right. intros Hsizes.
      assert (@inl exn () e = inr ()); [|done].
      apply Hv. split_and!; try done. by apply Forall_forall.
    + split; [by intros [? ?]|].
      destruct Hv as [Hv _].
      destruct (Hv eq_refl) as (Hall&Hl&Hf&Hh&Hsizes).
      intros [(p&Hp&?&?&?)|[(p&?&[]) |[(p&?&[])|[[]|[]]]]]; auto.
      destruct (Hall p Hp) as [?|[?|?]]; done.
  - intros r. eexists. split; [reflexivity|]. simpl. split_and!; compute_done.
  - intros r. eexists. split; [reflexivity|]. simpl. split_and!; compute_done.
Qed.
End Construction.

(** ** The theorems at work on concrete games *)

Section Witnesses.
Import Scenario.

(** After seven rounds of the game of five, two players are alive: both
    vote yes, and two votes are not more than half of five seats. *)
Lemma election_needs_majority_of_all_seats_witness :
  let g := rounds (H:=largest) 7 (scripted loyal) (five fascist_first) in
  let run := hold_election (scripted loyal) g 0%Z in
  let b := value_of true run in
  let g' := game_of g run in
  run = Ok b g' (generator_of run)
  ∧ length (players g) = 5 ∧ executed_players g = [4; 3; 2]
  ∧ b = false
  ∧ ∃ results current,
      last (round_history g') = Some current
      ∧ RoundRecord.election_results current = Some results
      ∧ RoundRecord.successful_election current = Some b
      ∧ players g' = players g
      ∧ (∀ i, is_Some (results !! i)
              ↔ (∃ p, p ∈ players g ∧ (p ∉ executed_players g)
                      ∧ index (players g) p = Some i))
      ∧ (ballots results →
         b = bool_decide (length (players g) < 2 * yes_votes results)).
Proof.
  intros g run b g'.
  assert (run = Ok b g' (generator_of run)) as Hrun
    by (vm_compute; reflexivity).
  split_and!; [exact Hrun|vm_compute; reflexivity..|].
  exact (election_needs_majority_of_all_seats (scripted loyal) g 0%Z b g'
           (generator_of run) Hrun).
Defined.

(** Agents that draw three times at every call decide like agents that
    never draw: the games they play from the same start agree, whatever
    the state of the process-wide generator. *)
Lemma deck_order_ignores_randomness_drawn_by_agents_witness :
  same_decisions (scripted loyal) (fidgety 3 loyal)
  ∧ agree (update_policy_deck (H:=lcg) (five fascist_first) 0%Z)
      (update_policy_deck (H:=lcg) (five fascist_first) 99%Z)
  ∧ ∀ fuel,
      agree
        (play_rounds (H:=lcg) (scripted loyal) fuel (five fascist_first)
           0%Z)
        (play_rounds (H:=lcg) (fidgety 3 loyal) fuel (five fascist_first)
           99%Z).
Proof.
  assert (same_decisions (scripted loyal) (fidgety 3 loyal)) as Hsame.
  { intros p m state r1 r2. reflexivity. }
  split; [exact Hsame|].
  apply (deck_order_ignores_randomness_drawn_by_agents
           (scripted loyal) (fidgety 3 loyal) Hsame).
Defined.
End Witnesses.

(** ** Running a method symbolically *)

Section Wp.
Context {rng : Type} `{RandomGenerator rng}.
Context (agents :
  Player.t → Player.method → list RoundRecord.t → rng → reply * rng).

Lemma wp_Ok {A} (m : M rng A) Q E g r a g' r' :
  wp m Q E g r → m g r = Ok a g' r' → Q a g' r'.
Proof. unfold wp. intros Hwp Hrun. by rewrite Hrun in Hwp. Qed.

Lemma wp_Raise {A} (m : M rng A) Q E g r e :
  wp m Q E g r → m g r = Raise e → E e.
Proof. unfold wp. intros Hwp Hrun. by rewrite Hrun in Hwp. Qed.

Lemma wp_mono {A} (m : M rng A) (Q Q' : A → Game rng → rng → Prop)
    (E E' : exn → Prop) g r :
  wp m Q E g r →
  (∀ a g' r', Q a g' r' → Q' a g' r') → (∀ e, E e → E' e) →
  wp m Q' E' g r.
Proof. unfold wp. destruct (m g r); eauto. Qed.

Lemma wp_post {A} (m : M rng A) (Q Q' : A → Game rng → rng → Prop)
    (E : exn → Prop) g r :
  wp m Q E g r → (∀ a g' r', Q a g' r' → Q' a g' r') → wp m Q' E g r.
Proof. intros Hwp HQ. eapply wp_mono; eauto. Qed.

Lemma wp_ret {A} (a : A) Q E (g : Game rng) r : Q a g r → wp (mret a) Q E g r.
Proof. done. Qed.

Lemma wp_raise {A} e (Q : A → Game rng → rng → Prop) (E : exn → Prop) g r :
  E e → wp (raise e) Q E g r.
Proof. done. Qed.

Lemma wp_bind {A B} (m : M rng A) (k : A → M rng B) Q E g r :
  wp m (λ a g' r', wp (k a) Q E g' r') E g r → wp (m ≫= k) Q E g r.
Proof.
  unfold wp, mbind, M_bind, bind. by destruct (m g r).
Qed.

Lemma wp_get Q E (g : Game rng) r : Q g g r → wp get Q E g r.
Proof. done. Qed.

Lemma wp_modify f Q E (g : Game rng) r : Q () (f g) r → wp (modify f) Q E g r.
Proof. done. Qed.

Lemma wp_getstate Q E (g : Game rng) r : Q r g r → wp getstate Q E g r.
Proof. done. Qed.

Lemma wp_setstate s Q E (g : Game rng) r : Q () g s → wp (setstate s) Q E g r.
Proof. done. Qed.

Lemma wp_lift {A} (x : exn + A) Q E (g : Game rng) r :
  match x with inl e => E e | inr a => Q a g r end → wp (lift x) Q E g r.
Proof. by destruct x. Qed.

Lemma wp_try_except {A} (m : M rng A) handler Q E g r :
  wp m Q (λ e, if is_Exception e then wp (handler e) Q E g r else E e) g r →
  wp (try_except m handler) Q E g r.
Proof.
  unfold wp, try_except. destruct (m g r) as [|e]; [done|].
  by destruct (is_Exception e).
Qed.

Lemma wp_random_shuffle {A} (x : list A) Q E (g : Game rng) r :
  Q (shuffle x r).1 g (shuffle x r).2 → wp (random_shuffle x) Q E g r.
Proof. unfold wp, random_shuffle. by destruct (shuffle x r). Qed.

(** An agent answers anything, raises anything and leaves the generator
    anywhere. *)
Lemma wp_call p m state Q E (g : Game rng) r :
  (∀ v r', agents p m state r = (Returns v, r') → Q v g r') →
  (∀ e r', agents p m state r = (Raises e, r') → E e) →
  wp (call agents p m state) Q E g r.
Proof.
  unfold wp, call. destruct (agents p m state r) as [[v|e] r']; eauto.
Qed.

Lemma interrupts_intro culprits methods p m state r r' e :
  agents p m state r = (Raises e, r') → is_Exception e = false →
  p ∈ culprits → m ∈ methods → interrupts agents culprits methods e.
Proof.
  intros Hcall He Hp Hm. split; [done|]. by exists p, m, state, r, r'.
Qed.

Lemma interrupts_mono culprits culprits' methods methods' e :
  interrupts agents culprits methods e →
  culprits ⊆ culprits' → methods ⊆ methods' →
  interrupts agents culprits' methods' e.
Proof.
  intros (He&p&m&state&r&r'&Hp&Hm&Hcall) Hculprits Hmethods.
  split; [done|]. exists p, m, state, r, r'.
  split_and!; [by apply Hculprits|by apply Hmethods|done].
Qed.

(** The rule for loops: [I done b g r] holds of the accumulator and the
    states once the items [done] have been handled. *)
Lemma wp_for_each {A B} (I : list A → B → Game rng → rng → Prop)
    (body : B → A → M rng B) E l :
  (∀ done x rest b g r,
     l = done ++ x :: rest → I done b g r →
     wp (body b x) (λ b' g' r', I (done ++ [x]) b' g' r') E g r) →
  ∀ b g r,
    I [] b g r → wp (for_each l b body) (λ b' g' r', I l b' g' r') E g r.
Proof.
  intros Hbody.
  assert (∀ rest done b g r,
            l = done ++ rest → I done b g r →
            wp (for_each rest b body) (λ b' g' r', I l b' g' r') E g r)
    as Hloop.
  { induction rest as [|x rest IH]; intros done b g r Hl HI; simpl.
    - apply wp_ret. by rewrite Hl, app_nil_r.
    - apply wp_bind. eapply wp_mono; [by eapply Hbody| |done].
      intros b' g' r' HI'. simpl. eapply IH; [|exact HI'].
      by rewrite <- (assoc_L (++)). }
  intros b g r. by apply (Hloop l []).
Qed.

Lemma wp_players_index p Q E (g : Game rng) r :
  match index (players g) p with
  | Some i => Q i g r
  | None => E (ValueError "tuple.index(x): x not in tuple")
  end →
  wp (players_index p) Q E g r.
Proof.
  unfold players_index. intros HQ. apply wp_bind, wp_get.
  by destruct (index (players g) p).
Qed.

Lemma wp_update_current_round f Q E (g : Game rng) r :
  match last (round_history g) with
  | Some current =>
      Q () (set_round_history
              (take (length (round_history g) - 1) (round_history g)
               ++ [f current]) g) r
  | None => E IndexError
  end →
  wp (update_current_round f) Q E g r.
Proof.
  unfold update_current_round. intros HQ. apply wp_bind, wp_get.
  by destruct (last (round_history g)).
Qed.

Lemma wp_update_current_round_snoc f Q E (g : Game rng) r past current :
  round_history g = past ++ [current] →
  Q () (set_round_history (past ++ [f current]) g) r →
  wp (update_current_round f) Q E g r.
Proof.
  intros Hh HQ. apply wp_update_current_round.
  rewrite Hh, last_snoc, length_app, Nat.add_sub, take_app_length. done.
Qed.

Lemma wp_veto_of who message v Q E (g : Game rng) r :
  (∀ b, v = VBool b → Q b g r) →
  E (PlayerException message who None) →
  wp (veto_of who message v) Q E g r.
Proof.
  intros HQ HE. destruct v; try exact HE. by apply wp_ret, HQ.
Qed.

Lemma wp_get_player_percieved_game_state p Q E (g : Game rng) r :
  match index (players g) p with
  | Some i =>
      Q (RoundRecord.set_your_player_id (Some i) <$> round_history g) g r
  | None =>
      match round_history g with
      | [] => Q [] g r
      | _ => E (ValueError "tuple.index(x): x not in tuple")
      end
  end →
  wp (get_player_percieved_game_state p) Q E g r.
Proof.
  unfold get_player_percieved_game_state. intros HQ. apply wp_bind, wp_get.
  destruct (index (players g) p) as [i|] eqn:Hi.
  - assert (∀ l acc,
              Q (acc ++ (RoundRecord.set_your_player_id (Some i) <$> l)) g r →
              wp (for_each l acc
                    (λ game_state round,
                       player_id ← players_index p;
                       mret (game_state
                             ++ [RoundRecord.set_your_player_id
                                   (Some player_id) round]))) Q E g r)
      as Hloop.
    { induction l as [|x l IH]; intros acc Hacc; simpl.
      - apply wp_ret. by rewrite app_nil_r in Hacc.
      - apply wp_bind, wp_bind, wp_players_index. rewrite Hi.
        apply wp_ret, IH. by rewrite <- (assoc_L (++)). }
    by apply Hloop.
  - destruct (round_history g) as [|x l]; simpl; [by apply wp_ret|].
    apply wp_bind, wp_bind, wp_players_index. by rewrite Hi.
Qed.

Lemma wp_get_player_percieved_game_state_snoc p Q E (g : Game rng) r past
    current :
  round_history g = past ++ [current] →
  match index (players g) p with
  | Some i =>
      Q (RoundRecord.set_your_player_id (Some i) <$> round_history g) g r
  | None => E (ValueError "tuple.index(x): x not in tuple")
  end →
  wp (get_player_percieved_game_state p) Q E g r.
Proof.
  intros Hh HQ. apply wp_get_player_percieved_game_state.
  destruct (index (players g) p); [done|].
  rewrite Hh. by destruct past.
Qed.
End Wp.

(** Membership in a list that is written out. *)
Ltac among :=
  solve [ unfold guarded, legislative, executive; simpl;
          repeat first [ apply list_elem_of_here
                       | apply list_elem_of_further ] ].

(** One step of the symbolic run of a method. *)
Ltac wp_index :=
  lazymatch goal with
  | H : index ?l ?p = _ |- context [index ?l ?p] => rewrite H
  | |- context [index ?l ?p] => destruct (index l p) eqn:?
  end.

Ltac wp_case x :=
  first [ match goal with H : x = _ |- _ => rewrite H end
        | destruct x eqn:? ].

(** Carry out the assignments to attributes of the game. *)
Ltac assign :=
  cbv delta [set_policy_deck set_presidential_order set_round_history
             set_executed_players set_special_election_next_president
             set_anarchy_counter set_liberal_policies_passed
             set_fascist_policies_passed set_elected_hitler
             set_random_number_generator];
  simpl.

(** Two games built from the same game by assignments are equal when their
    attributes are. *)
Ltac game_eq := assign; reflexivity.

Ltac wp_simpl := assign.

(** A step that does not branch on a value. *)
Ltac wp_step0 :=
  lazymatch goal with
  | |- wp (?m ≫= ?k) _ _ _ _ =>
      let K := fresh "K" in set (K := k); apply wp_bind
  | |- wp (mret _) _ _ _ _ => apply wp_ret
  | |- wp (raise _) _ _ _ _ => apply wp_raise
  | |- wp get _ _ _ _ => apply wp_get
  | |- wp (modify _) _ _ _ _ => apply wp_modify
  | |- wp (lift _) _ _ _ _ => apply wp_lift
  | |- wp getstate _ _ _ _ => apply wp_getstate
  | |- wp (setstate _) _ _ _ _ => apply wp_setstate
  | |- wp (random_shuffle _) _ _ _ _ => apply wp_random_shuffle
  | |- wp (try_except _ _) _ _ _ _ => apply wp_try_except
  | |- wp (veto_of _ _ _) _ _ _ _ => apply wp_veto_of; [intros ? ->|]
  | |- wp (call _ _ _ _) _ _ _ _ => apply wp_call; intros ? ? ?
  | |- wp (players_index _) _ _ _ _ => apply wp_players_index; simpl; wp_index
  | |- wp (update_current_round _) _ _ _ _ =>
      first [ eapply wp_update_current_round_snoc; [reflexivity|]
            | apply wp_update_current_round ]
  | |- wp (get_player_percieved_game_state _) _ _ _ _ =>
      first [ eapply wp_get_player_percieved_game_state_snoc;
              [reflexivity|]
            | apply wp_get_player_percieved_game_state ];
      simpl; wp_index
  | |- wp (?K _) _ _ _ _ => is_var K; subst K
  end;
  wp_simpl.

(** A step that does. *)
Ltac wp_branch :=
  lazymatch goal with
  | |- wp (match match ?x with _ => _ end with _ => _ end) _ _ _ _ =>
      wp_case x
  | |- wp (match ?x with _ => _ end) _ _ _ _ => wp_case x
  | |- match ?x with _ => _ end => wp_case x
  end;
  wp_simpl.

Ltac wp_step := first [wp_step0 | wp_branch].

(** The steps up to the next branch. *)
Ltac wp_seq := repeat wp_step0.

(** The whole run, [finish] closing the branches it can. *)
Tactic Notation "wp_run" "by" tactic3(finish) :=
  repeat (wp_step;
          try lazymatch goal with
              | |- wp _ _ _ _ _ => fail
              | |- _ => solve [finish]
              end).

Section Lists.
Lemma unpack_pair_Exception v e :
  unpack_pair v = inl e → is_Exception e = true.
Proof. unfold unpack_pair. repeat case_match; by intros [= <-]. Qed.

Lemma snoc_cases {A} (l : list A) : l = [] ∨ ∃ past x, l = past ++ [x].
Proof. induction l using rev_ind; eauto. Qed.

Lemma index_None l x : index l x = None → x ∉ l.
Proof.
  intros Hi Hx. apply index_is_Some in Hx as [i Hx]. congruence.
Qed.

Lemma count_le_length x l : count x l ≤ length l.
Proof. unfold count. apply length_filter. Qed.

Lemma count_take_3 x l : count x (take 3 l) ≤ 3.
Proof.
  etrans; [apply count_le_length|]. rewrite length_take. lia.
Qed.
End Lists.

(** ** The legislative session *)

Section Session.
Context {rng : Type} `{RandomGenerator rng}.
Context (agents :
  Player.t → Player.method → list RoundRecord.t → rng → reply * rng).

Lemma hold_legislation_session_wp president chancellor (g : Game rng) r :
  wp (hold_legislation_session agents president chancellor)
    (λ policy g' r',
       ∃ past current current' discarded_by_president
         discarded_by_chancellor liberal_policies fascist_policies,
         round_history g = past ++ [current]
         ∧ g' = set_policy_deck (drop 3 (policy_deck g))
                  (set_round_history (past ++ [current'])
                     (set_liberal_policies_passed liberal_policies
                        (set_fascist_policies_passed fascist_policies g)))
         ∧ constants_of current' = constants_of current
         ∧ government_of current' = government_of current
         ∧ executive_of current' = executive_of current
         ∧ anarchy_of current' = anarchy_of current
         ∧ RoundRecord.your_player_id current'
           = RoundRecord.your_player_id current
         ∧ RoundRecord.num_fascist_policies_for_president current'
           = Some (count Policy.FASCIST (take 3 (policy_deck g)))
         ∧ RoundRecord.policy_discarded_by_president current'
           = Some discarded_by_president
         ∧ RoundRecord.policy_discarded_by_chancellor current'
           = Some discarded_by_chancellor
         ∧ count Policy.FASCIST
             [discarded_by_president; discarded_by_chancellor; policy]
           = count Policy.FASCIST (take 3 (policy_deck g))
         ∧ if vetoed (fascist_policies_passed g) current'
           then liberal_policies = liberal_policies_passed g
                ∧ fascist_policies = fascist_policies_passed g
                ∧ RoundRecord.selected_policy current'
                  = RoundRecord.selected_policy current
           else RoundRecord.selected_policy current' = Some policy
                ∧ liberal_policies
                  = liberal_policies_passed g
                    + (if decide (policy = Policy.LIBERAL) then 1 else 0)
                ∧ fascist_policies
                  = fascist_policies_passed g
                    + (if decide (policy = Policy.FASCIST) then 1 else 0))
    (λ e, round_history g ≠ [] → president ∈ players g →
          chancellor ∈ players g →
          blames [president; chancellor] e
          ∨ interrupts agents [president; chancellor] legislative e)
    g r.
Proof.
  destruct g as [liberals0 fascists0 hitler0 deck order history seats
    executed special previous counter l f shot elected saved].
  destruct (snoc_cases history) as [->|(past&current&->)].
  { unfold hold_legislation_session, draw_legislative_session_policies.
    repeat wp_step. done. }
  assert (∀ message culprit cause,
            culprit ∈ [president; chancellor] →
            blames [president; chancellor]
              (PlayerException message culprit cause)) as Hblame.
  { intros. by eexists _, _, _. }
  assert (president ∈ [president; chancellor]) as Hp by set_solver.
  assert (chancellor ∈ [president; chancellor]) as Hc by set_solver.
  unfold hold_legislation_session, draw_legislative_session_policies.
  pose proof (count_take_3 Policy.FASCIST deck) as Hcount.
  wp_run by
    (simpl; intros _ Hp' Hc';
     first [ by left; apply Hblame
           | by right; eapply interrupts_intro;
               [done..|among|among]
           | exfalso;
             match goal with
             | H : unpack_pair _ = inl _ |- _ =>
                 apply unpack_pair_Exception in H
             end; congruence
           | by exfalso; eapply index_None; eauto
           | lia ]).
  all: eexists past, current, _, _, _, _, _.
  all: split; [reflexivity|]; split; [reflexivity|].
  all: unfold vetoed; simpl; rewrite ?Heqb; simpl.
  all: split_and!; try (reflexivity || lia).
  all: by repeat match goal with t : Policy.t |- _ => destruct t end.
Qed.
End Session.

(** ** What each step of a round does *)

Section Steps.
Context {rng : Type} `{RandomGenerator rng}.
Lemma update_policy_deck_wp (g : Game rng) r :
  wp update_policy_deck
    (λ _ g' r',
       if bool_decide (length (policy_deck g) < 3) then
         let shuffled :=
           shuffle
             (replicate (11 - fascist_policies_passed g) Policy.FASCIST
              ++ replicate (6 - liberal_policies_passed g) Policy.LIBERAL)
             (random_number_generator g) in
         g' = set_random_number_generator shuffled.2
                (set_policy_deck shuffled.1 g)
         ∧ r' = shuffled.2
       else g' = g ∧ r' = r)
    (λ _, False) g r.
Proof.
  unfold update_policy_deck. by repeat wp_step.
Qed.

Lemma update_round_history_wp (g : Game rng) r :
  wp update_round_history
    (λ _ g' r',
       ∃ fascists_ids hitler_id,
         g' = set_round_history
                (round_history g
                 ++ [RoundRecord.new (last (round_history g))
                       (length (players g)) fascists_ids hitler_id]) g
         ∧ r' = r
         ∧ index (players g) (hitler g) = Some hitler_id
         ∧ ∀ i, i ∈ fascists_ids
                ↔ ∃ p, p ∈ fascists g ∧ index (players g) p = Some i)
    (λ e, e = ValueError "tuple.index(x): x not in tuple"
          ∧ ((∃ p, p ∈ fascists g ∧ p ∉ players g)
             ∨ hitler g ∉ players g))
    g r.
Proof.
  unfold update_round_history. wp_seq.
  eapply wp_post;
    [apply (wp_for_each
              (λ done (ids : gset nat) g' r',
                 g' = g ∧ r' = r
                 ∧ ∀ i, i ∈ ids
                        ↔ ∃ p, p ∈ done ∧ index (players g) p = Some i))|].
  - intros done p rest ids g' r' Hl (->&->&Hids).
    assert (p ∈ fascists g) as Hp.
    { apply elem_of_elements. rewrite Hl. set_solver. }
    wp_seq.
    + split_and!; [done..|]. intros i.
      rewrite elem_of_union, elem_of_singleton, Hids. split.
      * intros [->|(q&?&?)]; [exists p|exists q]; set_solver.
      * intros (q&[?| ->%list_elem_of_singleton]%elem_of_app&Hq);
          [right; eauto|left; congruence].
    + split; [done|]. left. exists p. split; [done|]. by apply index_None.
  - split_and!; [done..|]. intros i. set_solver.
  - simpl. intros ids g' r' (->&->&Hids).
    wp_seq.
    + eexists _, _. split_and!; [done..|].
      intros i. rewrite Hids. by setoid_rewrite elem_of_elements.
    + split; [done|]. right. by apply index_None.
Qed.

Lemma determine_next_president_wp (g : Game rng) r :
  wp determine_next_president
    (λ a g' r',
       ∃ president president_id past current,
         a = (president, president_id) ∧ r' = r
         ∧ index (players g) president = Some president_id
         ∧ round_history g = past ++ [current]
         ∧ match special_election_next_president g with
           | Some called =>
               president = called
               ∧ g' = set_round_history
                        (past ++ [RoundRecord.set_president
                                    (Some president_id) current])
                        (set_special_election_next_president None g)
           | None =>
               ∃ rest,
                 presidential_order g = president :: rest
                 ∧ g' = set_round_history
                          (past ++ [RoundRecord.set_president
                                      (Some president_id) current])
                          (set_presidential_order (rest ++ [president]) g)
           end)
    (λ e, (e = IndexError
           ∧ (round_history g = []
              ∨ (special_election_next_president g = None
                 ∧ presidential_order g = [])))
          ∨ (e = ValueError "tuple.index(x): x not in tuple"
             ∧ ∃ president,
                 (president ∉ players g)
                 ∧ (special_election_next_president g = Some president
                    ∨ (special_election_next_president g = None
                       ∧ head (presidential_order g) = Some president))))
    g r.
Proof.
  destruct g as [liberals0 fascists0 hitler0 deck order history seats
    executed special previous counter l f shot elected saved].
  unfold determine_next_president.
  destruct (snoc_cases history) as [->|(past&current&->)].
  - wp_run by
      (simpl;
       first [ solve [auto]
             | right; split; [done|]; eexists;
               split; [by eapply index_None|]; solve [auto] ]).
  - wp_run by
      (simpl;
       first [ solve [auto]
             | right; split; [done|]; eexists;
               split; [by eapply index_None|]; solve [auto] ]).
    all: eexists _, _, _, _; split_and!; try done; eauto.
Qed.

Lemma declared_record_intent k j v d k' j' :
  declared (record_intent k j v d) k' j'
  = if decide (k = k' ∧ j = j') then Some v else declared d k' j'.
Proof.
  unfold declared, record_intent.
  destruct (decide (k = k')) as [->|Hk].
  - rewrite lookup_insert_eq. simpl.
    destruct (decide (j = j')) as [->|Hj].
    + rewrite lookup_insert_eq. by rewrite decide_True.
    + rewrite lookup_insert_ne by done. rewrite decide_False by naive_solver.
      by destruct (d !! k').
  - rewrite lookup_insert_ne by done. by rewrite decide_False by naive_solver.
Qed.

Lemma elem_of_living (g : Game rng) p :
  p ∈ living g ↔ p ∈ players g ∧ p ∉ executed_players g.
Proof. unfold living. rewrite list_elem_of_filter. tauto. Qed.

Lemma perceived_Some (g : Game rng) p i :
  index (players g) p = Some i →
  perceived g p
  = RoundRecord.set_your_player_id (Some i) <$> round_history g.
Proof. unfold perceived. by intros ->. Qed.

Context (agents :
  Player.t → Player.method → list RoundRecord.t → rng → reply * rng).

Lemma solicit_intent_to_vote_wp president (g : Game rng) r :
  wp (solicit_intent_to_vote agents president)
    (λ _ g' r',
       ∃ past current d,
         round_history g = past ++ [current]
         ∧ g' = set_round_history
                  (past ++ [RoundRecord.set_declared_election_intent
                              (Some d) current]) g
         ∧ (∀ k j v,
              declared d k j = Some v →
              ∃ candidate player,
                candidate ∈ players g
                ∧ skipped_candidate g president candidate = false
                ∧ index (players g) candidate = Some k
                ∧ player ∈ living g
                ∧ index (players g) player = Some j
                ∧ answers agents player
                    Player.intent_to_vote_on_government
                    (perceived g player) v)
         ∧ (∀ candidate player k j,
              candidate ∈ players g →
              skipped_candidate g president candidate = false →
              player ∈ living g →
              index (players g) candidate = Some k →
              index (players g) player = Some j →
              is_Some (declared d k j)))
    (λ e, raised_by agents Player.intent_to_vote_on_government e
          ∨ (e = IndexError ∧ round_history g = []))
    g r.
Proof.
  unfold solicit_intent_to_vote. wp_seq.
  set (sound := λ d : gmap nat (gmap nat pyval),
         ∀ k j v,
           declared d k j = Some v →
           ∃ candidate player,
             candidate ∈ players g
             ∧ skipped_candidate g president candidate = false
             ∧ index (players g) candidate = Some k
             ∧ player ∈ living g
             ∧ index (players g) player = Some j
             ∧ answers agents player Player.intent_to_vote_on_government
                 (perceived g player) v).
  set (complete := λ (d : gmap nat (gmap nat pyval)) candidate player,
         skipped_candidate g president candidate = false →
         player ∈ living g →
         ∀ k j, index (players g) candidate = Some k →
                index (players g) player = Some j →
                is_Some (declared d k j)).
  assert (∀ d k j v candidate player,
            complete d candidate player →
            complete (record_intent k j v d) candidate player) as Hmono.
  { intros d k j v candidate player Hd Hs Hl k' j' Hk' Hj'.
    rewrite declared_record_intent. case_decide; [done|]. by eapply Hd. }
  eapply wp_post;
    [apply (wp_for_each
              (λ done d g' r',
                 g' = g ∧ sound d
                 ∧ ∀ candidate player,
                     candidate ∈ done → complete d candidate player))|].
  - intros done candidate rest d g' r' Hl (->&Hsound&Hcomplete).
    assert (candidate ∈ players g) as Hcandidate.
    { rewrite Hl. set_solver. }
    destruct (index_is_Some _ _ Hcandidate) as [k Hk].
    wp_seq.
    destruct (skipped_candidate g president candidate) eqn:Hskip.
    { wp_step. split_and!; [done..|].
      intros c p [?| ->%list_elem_of_singleton]%elem_of_app;
        [by apply Hcomplete|].
      intros Hno. congruence. }
    eapply wp_post;
      [apply (wp_for_each
                (λ done' d g' r',
                   g' = g ∧ sound d
                   ∧ (∀ c p, c ∈ done → complete d c p)
                   ∧ ∀ p, p ∈ done' → complete d candidate p))|].
    + intros done' player rest' d' g' r'' Hl' (->&Hsound'&Hdone&Hdone').
      assert (player ∈ players g) as Hplayer.
      { rewrite Hl'. set_solver. }
      destruct (index_is_Some _ _ Hplayer) as [j Hj].
      wp_seq. case_bool_decide as Hex.
      { wp_step. split_and!; [done..|].
        intros p [?| ->%list_elem_of_singleton]%elem_of_app;
          [by apply Hdone'|].
        intros _ [_ Hliving]%elem_of_living. done. }
      wp_seq.
      2:{ left. by eexists _, _, _, _. }
      split_and!; [done| |by eauto|].
      * intros k' j' v' Hv'. rewrite declared_record_intent in Hv'.
        case_decide as Heq; [|by apply Hsound'].
        destruct Heq as [<- <-]. injection Hv' as <-.
        exists candidate, player. split_and!; try done.
        { by apply elem_of_living. }
        rewrite (perceived_Some _ _ _ Hj). by eexists _, _.
      * intros p [?| ->%list_elem_of_singleton]%elem_of_app;
          [by eauto|].
        intros _ _ k' j' Hk' Hj'. rewrite declared_record_intent.
        rewrite decide_True; [done|]. split; congruence.
    + split_and!; [done..|]. intros p []%elem_of_nil.
    + simpl. intros d' g' r'' (->&Hsound'&Hdone&Hthis).
      split_and!; [done..|].
      intros c p [?| ->%list_elem_of_singleton]%elem_of_app; [by eauto|].
      intros Hs Hp. apply Hthis; [|done..].
      by apply elem_of_living in Hp as [? _].
  - split_and!; [done| |by intros ?? []%elem_of_nil].
    intros k j v Hv. unfold declared in Hv. by rewrite lookup_empty in Hv.
  - simpl. intros d g' r' (->&Hsound&Hcomplete).
    destruct g as [liberals0 fascists0 hitler0 deck order history seats
      executed special previous counter l f shot elected saved].
    destruct (snoc_cases history) as [->|(past&current&->)].
    + wp_seq. by right.
    + wp_seq. eexists _, _, _. split_and!; [done..|].
      intros c p k j Hc Hs Hp. by apply Hcomplete.
Qed.

Lemma select_chancellor_wp president (g : Game rng) r :
  wp (select_chancellor agents president)
    (λ a g' r',
       ∃ past current chancellor chancellor_id,
         a = (chancellor, chancellor_id)
         ∧ round_history g = past ++ [current]
         ∧ g' = set_round_history
                  (past ++ [RoundRecord.set_chancellor
                              (Some chancellor_id) current]) g
         ∧ subscript (players g) chancellor_id = inr chancellor
         ∧ answers agents president Player.select_chancellor
             (perceived g president) chancellor_id)
    (λ e, (∃ cause,
             e = PlayerException
                   "Exception from {president} while selecting Chancellor"
                   president (Some cause)
             ∧ raised_by agents Player.select_chancellor cause)
          ∨ (∃ chancellor_id,
               answers agents president Player.select_chancellor
                 (perceived g president) chancellor_id
               ∧ subscript (players g) chancellor_id = inl e)
          ∨ (e = IndexError ∧ round_history g = [])
          ∨ (e = ValueError "tuple.index(x): x not in tuple"
             ∧ (president ∉ players g))
          ∨ interrupts agents [president] [Player.select_chancellor] e)
    g r.
Proof.
  destruct g as [liberals0 fascists0 hitler0 deck order history seats
    executed special previous counter l f shot elected saved].
  unfold select_chancellor.
  destruct (snoc_cases history) as [->|(past&current&->)].
  - wp_run by
      (simpl;
       first [ by left; eexists; split; [done|]; eexists _, _, _, _
             | by do 4 right; eapply interrupts_intro;
                 [done..|among|among]
             | by auto 6 ]).
  - wp_run by
      (simpl;
       first [ by left; eexists; split; [done|]; eexists _, _, _, _
             | by do 4 right; eapply interrupts_intro;
                 [done..|among|among]
             | by right; right; right; left; split;
                 [|eapply index_None] ]).
    all: unfold perceived; simpl; rewrite Heqo.
    + right. left. eexists. split; [by eexists _, _|done].
    + eexists _, _, _, _. split_and!; try done. by eexists _, _.
Qed.

Lemma hold_election_wp (g : Game rng) r :
  wp (hold_election agents)
    (λ b g' r',
       ∃ past current results total,
         round_history g = past ++ [current]
         ∧ g' = set_round_history
                  (past ++ [RoundRecord.set_successful_election (Some b)
                              (RoundRecord.set_election_results
                                 (Some results) current)]) g
         ∧ sum_values (snd <$> map_to_list results) = inr total
         ∧ b = more_than_half total (length (players g))
         ∧ (∀ i v,
              results !! i = Some v →
              ∃ player,
                player ∈ living g ∧ index (players g) player = Some i
                ∧ answers agents player Player.vote_on_government
                    (perceived g player) v)
         ∧ (∀ player i,
              player ∈ living g → index (players g) player = Some i →
              is_Some (results !! i)))
    (λ e, raised_by agents Player.vote_on_government e
          ∨ (e = TypeError
             ∧ ∃ player v,
                 player ∈ living g
                 ∧ answers agents player Player.vote_on_government
                     (perceived g player) v
                 ∧ as_int v = None)
          ∨ (e = IndexError ∧ round_history g = []))
    g r.
Proof.
  unfold hold_election. wp_seq.
  eapply wp_post;
    [apply (wp_for_each
              (λ done (results : gmap nat pyval) g' r',
                 g' = g
                 ∧ (∀ i v,
                      results !! i = Some v →
                      ∃ player,
                        player ∈ living g
                        ∧ index (players g) player = Some i
                        ∧ answers agents player Player.vote_on_government
                            (perceived g player) v)
                 ∧ ∀ player i,
                     player ∈ done → player ∈ living g →
                     index (players g) player = Some i →
                     is_Some (results !! i)))|].
  - intros done player rest results g' r' Hl (->&Hsound&Hcomplete).
    assert (player ∈ players g) as Hplayer.
    { rewrite Hl. set_solver. }
    destruct (index_is_Some _ _ Hplayer) as [j Hj].
    wp_seq. case_bool_decide as Hex.
    { wp_seq. split_and!; [done..|].
      intros p i [?| ->%list_elem_of_singleton]%elem_of_app;
        [by eauto|].
      by intros [_ ?]%elem_of_living. }
    wp_seq.
    2:{ left. by eexists _, _, _, _. }
    split_and!; [done| |].
    + intros i v' Hv'.
      destruct (decide (j = i)) as [->|Hne].
      * rewrite lookup_insert_eq in Hv'. injection Hv' as <-.
        exists player. split_and!; [by apply elem_of_living|done|].
        rewrite (perceived_Some _ _ _ Hj). by eexists _, _.
      * rewrite lookup_insert_ne in Hv' by done. eauto.
    + intros p i [?| ->%list_elem_of_singleton]%elem_of_app Hp Hi.
      * destruct (decide (j = i)) as [->|Hne];
          [by rewrite lookup_insert_eq|].
        rewrite lookup_insert_ne by done. eauto.
      * assert (j = i) as -> by congruence. by rewrite lookup_insert_eq.
  - split_and!; [done| |by intros ?? []%elem_of_nil].
    intros i v Hv. by rewrite lookup_empty in Hv.
  - simpl. intros results g' r' (->&Hsound&Hcomplete).
    destruct g as [liberals0 fascists0 hitler0 deck order history seats
      executed special previous counter l f shot elected saved].
    wp_seq. destruct (sum_values _) as [e|total] eqn:Hsum; simpl.
    { right. left.
      assert (∀ values e,
                sum_values values = inl e →
                e = TypeError ∧ ∃ v, v ∈ values ∧ as_int v = None)
        as Htype.
      { clear. intros values e. unfold sum_values.
        induction values as [|v values IH]; simpl; [done|].
        destruct (foldr _ _ values) as [e'|total].
        - intros [= <-]. destruct (IH eq_refl) as (->&v'&?&?).
          split; [done|]. exists v'. split; [by right|done].
        - destruct (as_int v) eqn:Hv; intros [= <-].
          split; [done|]. exists v. split; [by left|done]. }
      destruct (Htype _ _ Hsum) as (->&v&Hv&Hint).
      split; [done|].
      apply list_elem_of_fmap in Hv as ([i v']&->&Hv).
      apply elem_of_map_to_list in Hv.
      destruct (Hsound _ _ Hv) as (player&?&?&?). by exists player, v'. }
    destruct (snoc_cases history) as [->|(past&current&->)].
    + wp_seq. by auto.
    + wp_seq. eexists _, _, _, _. split_and!; try done.
      intros p i Hp. by apply Hcomplete; [apply elem_of_living in Hp as []|].
Qed.
End Steps.

(** ** What the presidential powers and anarchy do *)

Section Powers.
Context {rng : Type} `{RandomGenerator rng}.
(** An id that passes the range check selects a seat. *)
Lemma valid_player_id_subscript (g : Game rng) v :
  valid_player_id g v = true →
  ∃ i p, as_int v = Some (Z.of_nat i) ∧ players g !! i = Some p
         ∧ subscript (players g) v = inr p.
Proof.
  unfold valid_player_id, subscript.
  destruct (as_int v) as [z|]; [|done].
  intros [Hlo Hhi]%bool_decide_eq_true.
  destruct (Z.ltb_spec z 0) as [?|_]; [lia|].
  destruct (Z.ltb_spec z 0) as [?|_]; [lia|].
  destruct (lookup_lt_is_Some_2 (players g) (Z.to_nat z)) as [p Hp]; [lia|].
  exists (Z.to_nat z), p. rewrite Hp, Z2Nat.id by done. done.
Qed.

Lemma execute_anarchy_wp (g : Game rng) r :
  wp execute_anarchy
    (λ _ g' r',
       ∃ past current card rest,
         round_history g = past ++ [current]
         ∧ policy_deck g = card :: rest
         ∧ r' = r
         ∧ g' = set_round_history
                  (past ++ [RoundRecord.set_anarchy_result (Some card)
                              current])
                  (set_liberal_policies_passed
                     (liberal_policies_passed g
                      + (if decide (card = Policy.LIBERAL) then 1 else 0))
                     (set_fascist_policies_passed
                        (fascist_policies_passed g
                         + (if decide (card = Policy.FASCIST)
                            then 1 else 0))
                        (set_policy_deck rest g))))
    (λ e, e = IndexError ∧ (policy_deck g = [] ∨ round_history g = []))
    g r.
Proof.
  destruct g as [liberals0 fascists0 hitler0 deck order history seats
    executed special previous counter l f shot elected saved].
  unfold execute_anarchy, draw_anarchy_policy.
  destruct (snoc_cases history) as [->|(past&current&->)];
    destruct deck as [|[] rest]; wp_seq; try by auto.
  all: eexists _, _, _, _; split_and!; try done.
  all: simpl; by rewrite ?Nat.add_0_r.
Qed.
Context (agents :
  Player.t → Player.method → list RoundRecord.t → rng → reply * rng).

Lemma ask_player_id_wp president m state invalid message (g : Game rng) r :
  wp (ask_player_id agents president m state invalid message)
    (λ v g' r',
       g' = g ∧ answers agents president m state v
       ∧ valid_player_id g v = true)
    (λ e, (∃ cause,
             e = PlayerException message president (Some cause)
             ∧ (raised_by agents m cause
                ∨ (cause = ValueError invalid
                   ∧ ∃ v, answers agents president m state v
                          ∧ valid_player_id g v = false)))
          ∨ interrupts agents [president] [m] e)
    g r.
Proof.
  unfold ask_player_id. wp_run by idtac.
  - split_and!; [done|by eexists _, _|done].
  - left. eexists. split; [done|]. right. split; [done|].
    eexists. split; [by eexists _, _|done].
  - left. eexists. split; [done|]. left. by eexists _, _, _, _.
  - right. eapply interrupts_intro; [done..|among|among].
Qed.

Lemma investigate_player_wp president (g : Game rng) r :
  wp (investigate_player agents president)
    (λ _ g' r',
       ∃ past current investigated_id investigated claim,
         round_history g = past ++ [current]
         ∧ answers agents president Player.select_player_to_investigate
             (perceived g president) investigated_id
         ∧ valid_player_id g investigated_id = true
         ∧ subscript (players g) investigated_id = inr investigated
         ∧ (investigated ∈ liberals g ∨ investigated ∈ fascists g)
         ∧ g' = set_round_history
                  (past
                   ++ [RoundRecord.set_claimed_investigated_player_allegiance
                         (Some claim)
                         (RoundRecord.set_investigated_player_identity
                            (Some (if bool_decide (investigated ∈ liberals g)
                                   then Allegiance.LIBERAL
                                   else Allegiance.FASCIST))
                            (RoundRecord.set_investigated_player
                               (Some investigated_id) current))]) g)
    (λ e, blames [president] e
          ∨ (e = ValueError
                   "Unable to determine allegiance of player ({investigated_player})"
             ∧ ∃ investigated,
                 investigated ∈ players g
                 ∧ (investigated ∉ liberals g)
                 ∧ (investigated ∉ fascists g))
          ∨ raised_by agents Player.claimed_player_investigation_result e
          ∨ (e = IndexError ∧ round_history g = [])
          ∨ (e = ValueError "tuple.index(x): x not in tuple"
             ∧ (president ∉ players g))
          ∨ interrupts agents [president]
              [Player.select_player_to_investigate] e)
    g r.
Proof.
  destruct g as [liberals0 fascists0 hitler0 deck order history seats
    executed special previous counter l f shot elected saved].
  unfold investigate_player, perceived. simpl.
  destruct (snoc_cases history) as [->|(past&current&->)];
    destruct (index seats president) as [i|] eqn:Hi; wp_seq.
  4:{ right. right. right. right. left. split; [done|].
      by apply index_None. }
  all: eapply wp_mono; [apply ask_player_id_wp| |];
    [|simpl; intros e [(cause&->&_)|Hint];
      [left; eexists _, _, _; split; [done|]; set_solver
      |by do 5 right]].
  all: simpl; intros v g' r' (->&Hv&Hvalid).
  all: destruct (valid_player_id_subscript _ _ Hvalid)
         as (j&p&_&Hp%list_elem_of_lookup_2&Hsub); simpl in Hsub, Hp.
  all: wp_seq; rewrite Hsub; simpl; wp_seq.
  all: case_bool_decide as Hl; [|case_bool_decide as Hf]; wp_seq.
  all: try by auto 6.
  all: try by (right; right; left; eexists _, _, _, _).
  all: try by (right; left; split; [done|]; exists p).
  all: eexists _, _, _, _, _; split_and!; try done; auto.
  all: simpl; by rewrite ?(bool_decide_eq_true_2 _ Hl),
         ?(bool_decide_eq_false_2 _ Hl).
Qed.

Lemma declare_special_election_wp president (g : Game rng) r :
  wp (declare_special_election agents president)
    (λ _ g' r',
       ∃ past current called_id called,
         round_history g = past ++ [current]
         ∧ answers agents president
             Player.select_special_election_president
             (perceived g president) called_id
         ∧ valid_player_id g called_id = true
         ∧ subscript (players g) called_id = inr called
         ∧ called ≠ president
         ∧ (called ∉ executed_players g)
         ∧ g' = set_round_history
                  (past
                   ++ [RoundRecord.set_special_election_next_president
                         (Some called_id) current])
                  (set_special_election_next_president (Some called) g))
    (λ e, blames [president] e
          ∨ (e = IndexError ∧ round_history g = [])
          ∨ (e = ValueError "tuple.index(x): x not in tuple"
             ∧ (president ∉ players g))
          ∨ interrupts agents [president]
              [Player.select_special_election_president] e)
    g r.
Proof.
  destruct g as [liberals0 fascists0 hitler0 deck order history seats
    executed special previous counter l f shot elected saved].
  unfold declare_special_election, perceived. simpl.
  assert (∀ message cause,
            blames [president] (PlayerException message president cause))
    as Hblame.
  { intros. eexists _, _, _. split; [done|]. set_solver. }
  destruct (snoc_cases history) as [->|(past&current&->)];
    destruct (index seats president) as [i|] eqn:Hi; wp_seq.
  4:{ right. right. left. split; [done|]. by apply index_None. }
  all: eapply wp_mono; [apply ask_player_id_wp| |];
    [|simpl; intros e [(cause&->&_)|Hint]; [by left|by do 3 right]].
  all: simpl; intros v g' r' (->&Hv&Hvalid).
  all: destruct (valid_player_id_subscript _ _ Hvalid)
         as (j&p&_&Hp%list_elem_of_lookup_2&Hsub); simpl in Hsub, Hp.
  all: wp_seq; rewrite Hsub; simpl; wp_seq.
  all: case_bool_decide as Hself; [|case_bool_decide as Hdead]; wp_seq.
  all: try by auto.
  eexists _, _, _, _. by split_and!.
Qed.

Lemma execute_player_wp president (g : Game rng) r :
  wp (execute_player agents president)
    (λ _ g' r',
       ∃ past current executed_id executed,
         round_history g = past ++ [current]
         ∧ answers agents president Player.select_player_to_execute
             (perceived g president) executed_id
         ∧ valid_player_id g executed_id = true
         ∧ subscript (players g) executed_id = inr executed
         ∧ (executed ∉ executed_players g)
         ∧ g' = set_round_history
                  (past ++ [RoundRecord.set_executed_player
                              (Some executed_id) current])
                  (set_presidential_order
                     (filter (λ player, player ≠ executed)
                        (presidential_order g))
                     (set_executed_players
                        (executed_players g ++ [executed]) g)))
    (λ e, blames [president] e
          ∨ (e = IndexError ∧ round_history g = [])
          ∨ (e = ValueError "tuple.index(x): x not in tuple"
             ∧ (president ∉ players g))
          ∨ interrupts agents [president]
              [Player.select_player_to_execute] e)
    g r.
Proof.
  destruct g as [liberals0 fascists0 hitler0 deck order history seats
    executed special previous counter l f shot elected saved].
  unfold execute_player, perceived. simpl.
  assert (∀ message cause,
            blames [president] (PlayerException message president cause))
    as Hblame.
  { intros. eexists _, _, _. split; [done|]. set_solver. }
  destruct (snoc_cases history) as [->|(past&current&->)];
    destruct (index seats president) as [i|] eqn:Hi; wp_seq.
  4:{ right. right. left. split; [done|]. by apply index_None. }
  all: eapply wp_mono; [apply ask_player_id_wp| |];
    [|simpl; intros e [(cause&->&_)|Hint]; [by left|by do 3 right]].
  all: simpl; intros v g' r' (->&Hv&Hvalid).
  all: destruct (valid_player_id_subscript _ _ Hvalid)
         as (j&p&_&Hp%list_elem_of_lookup_2&Hsub); simpl in Hsub, Hp.
  all: wp_seq; rewrite Hsub; simpl; wp_seq.
  all: case_bool_decide as Hdead; wp_seq.
  all: try by auto.
  eexists _, _, _, _. by split_and!.
Qed.

End Powers.

(** ** A round, step by step *)

Section Uniform.
Context {rng : Type} `{RandomGenerator rng}.

(** The deck and the saved generator after [update_policy_deck], whether
    it reshuffles or not. *)
Lemma update_policy_deck_cases (g : Game rng) r :
  wp update_policy_deck
    (λ _ g' r',
       ∃ deck saved,
         g' = set_random_number_generator saved (set_policy_deck deck g)
         ∧ ((3 ≤ length (policy_deck g) ∧ deck = policy_deck g
             ∧ saved = random_number_generator g ∧ r' = r)
            ∨ (length (policy_deck g) < 3
               ∧ count Policy.FASCIST deck = 11 - fascist_policies_passed g
               ∧ count Policy.LIBERAL deck = 6 - liberal_policies_passed g
               ∧ length deck
                 = (11 - fascist_policies_passed g)
                   + (6 - liberal_policies_passed g)
               ∧ r' = saved)))
    (λ _, False) g r.
Proof.
  eapply wp_post; [apply update_policy_deck_wp|]. simpl.
  intros _ g' r'. case_bool_decide as Hlen.
  - intros [-> ->]. eexists _, _. split; [done|]. right.
    rewrite shuffle_length, !shuffle_count, !count_app, !count_replicate,
      length_app, !length_replicate.
    simpl. split_and!; [done|lia|lia|done|done].
  - intros [-> ->]. exists (policy_deck g), (random_number_generator g).
    split; [by destruct g|]. left. split_and!; [lia|done..].
Qed.

(** The president and the order after [determine_next_president], whether
    a special election was called or not. *)
Lemma determine_next_president_cases (g : Game rng) r :
  wp determine_next_president
    (λ a g' r',
       ∃ president president_id past current order,
         a = (president, president_id) ∧ r' = r
         ∧ index (players g) president = Some president_id
         ∧ round_history g = past ++ [current]
         ∧ g' = set_round_history
                  (past ++ [RoundRecord.set_president (Some president_id)
                              current])
                  (set_special_election_next_president None
                     (set_presidential_order order g))
         ∧ ((special_election_next_president g = Some president
             ∧ order = presidential_order g)
            ∨ (special_election_next_president g = None
               ∧ ∃ rest,
                   presidential_order g = president :: rest
                   ∧ order = rest ++ [president])))
    (λ e, (e = IndexError
           ∧ (round_history g = []
              ∨ (special_election_next_president g = None
                 ∧ presidential_order g = [])))
          ∨ (e = ValueError "tuple.index(x): x not in tuple"
             ∧ ∃ president,
                 (president ∉ players g)
                 ∧ (special_election_next_president g = Some president
                    ∨ (special_election_next_president g = None
                       ∧ head (presidential_order g) = Some president))))
    g r.
Proof.
  eapply wp_post; [apply determine_next_president_wp|]. simpl.
  intros a g' r' (president&i&past&current&->&->&Hi&Hh&Hcase).
  destruct g as [liberals0 fascists0 hitler0 deck order history seats
    executed special previous counter l f shot elected saved].
  simpl in *. destruct special as [called|].
  - destruct Hcase as [-> ->]. exists called, i, past, current, order.
    split_and!; [done..|]. by left.
  - destruct Hcase as (rest&->&->).
    exists president, i, past, current, (rest ++ [president]).
    split_and!; [done..|]. right. eauto.
Qed.

Context (agents :
  Player.t → Player.method → list RoundRecord.t → rng → reply * rng).

(** The four outcomes of [executive_action]. *)
Lemma executive_action_cases president (g : Game rng) r past current :
  round_history g = past ++ [current] →
  president ∈ players g →
  wp (executive_action agents president)
    (λ _ g' r',
       ∃ current' order executed special,
         g' = set_round_history (past ++ [current'])
                  (set_presidential_order order
                     (set_executed_players executed
                        (set_special_election_next_president special g)))
         ∧ ((fascist_policies_passed g ∈ [1; 2]
             ∧ order = presidential_order g
             ∧ executed = executed_players g
             ∧ special = special_election_next_president g
             ∧ ∃ investigated_id investigated claim,
                 valid_player_id g investigated_id = true
                 ∧ subscript (players g) investigated_id = inr investigated
                 ∧ (investigated ∈ liberals g ∨ investigated ∈ fascists g)
                 ∧ answers agents president
                     Player.select_player_to_investigate
                     (perceived g president) investigated_id
                 ∧ current'
                   = RoundRecord.set_claimed_investigated_player_allegiance
                       (Some claim)
                       (RoundRecord.set_investigated_player_identity
                          (Some (if bool_decide (investigated ∈ liberals g)
                                 then Allegiance.LIBERAL
                                 else Allegiance.FASCIST))
                          (RoundRecord.set_investigated_player
                             (Some investigated_id) current)))
            ∨ (fascist_policies_passed g = 3
               ∧ order = presidential_order g
               ∧ executed = executed_players g
               ∧ ∃ called_id called,
                   valid_player_id g called_id = true
                   ∧ subscript (players g) called_id = inr called
                   ∧ called ≠ president
                   ∧ (called ∉ executed_players g)
                   ∧ answers agents president
                       Player.select_special_election_president
                       (perceived g president) called_id
                   ∧ special = Some called
                   ∧ current'
                     = RoundRecord.set_special_election_next_president
                         (Some called_id) current)
            ∨ (fascist_policies_passed g ∈ [4; 5]
               ∧ special = special_election_next_president g
               ∧ ∃ shot_id shot,
                   valid_player_id g shot_id = true
                   ∧ subscript (players g) shot_id = inr shot
                   ∧ (shot ∉ executed_players g)
                   ∧ answers agents president
                       Player.select_player_to_execute
                       (perceived g president) shot_id
                   ∧ executed = executed_players g ++ [shot]
                   ∧ order = filter (λ player, player ≠ shot)
                               (presidential_order g)
                   ∧ current'
                     = RoundRecord.set_executed_player (Some shot_id)
                         current)
            ∨ (fascist_policies_passed g = 6
               ∧ order = presidential_order g
               ∧ executed = executed_players g
               ∧ special = special_election_next_president g
               ∧ current' = current)))
    (λ e, blames [president] e
          ∨ (e = ValueError
                   "Unable to determine allegiance of player ({investigated_player})"
             ∧ ∃ investigated,
                 investigated ∈ players g
                 ∧ (investigated ∉ liberals g)
                 ∧ (investigated ∉ fascists g))
          ∨ raised_by agents Player.claimed_player_investigation_result e
          ∨ (e = ValueError
                   "Unknown number of Fascist policies passed: {self.fascist_policies_passed}"
             ∧ (fascist_policies_passed g = 0
                ∨ 7 ≤ fascist_policies_passed g))
          ∨ interrupts agents [president] executive e)
    g r.
Proof.
  destruct g as [liberals0 fascists0 hitler0 deck order history seats
    executed special previous counter l f shot elected saved].
  simpl. intros -> Hp. unfold executive_action. wp_seq.
  assert (past ++ [current] ≠ []) as Hne by (by destruct past).
  destruct f as [|[|[|[|[|[|[|]]]]]]];
    wp_seq; try by (right; right; right; left; split; [done|]; lia).
  - eapply wp_mono; [apply investigate_player_wp| |]; simpl.
    + intros _ g' r' (past'&current'&id&p&claim&Hh'&?&?&?&?&->).
      simpl in *. apply app_inj_tail in Hh' as [<- <-].
      eexists _, _, _, _. split; [game_eq|]. left.
      split_and!; [set_solver|done..|]. by eexists _, _, _.
    + intros e [?|[?|[?|[[_ ?]|[[_ ?]|Hint]]]]]; try by auto 6.
      do 4 right. eapply interrupts_mono; [exact Hint|done|].
      intros ? ->%list_elem_of_singleton. among.
  - eapply wp_mono; [apply investigate_player_wp| |]; simpl.
    + intros _ g' r' (past'&current'&id&p&claim&Hh'&?&?&?&?&->).
      simpl in *. apply app_inj_tail in Hh' as [<- <-].
      eexists _, _, _, _. split; [game_eq|]. left.
      split_and!; [set_solver|done..|]. by eexists _, _, _.
    + intros e [?|[?|[?|[[_ ?]|[[_ ?]|Hint]]]]]; try by auto 6.
      do 4 right. eapply interrupts_mono; [exact Hint|done|].
      intros ? ->%list_elem_of_singleton. among.
  - eapply wp_mono; [apply declare_special_election_wp| |]; simpl.
    + intros _ g' r' (past'&current'&id&p&Hh'&?&?&?&?&?&->).
      simpl in *. apply app_inj_tail in Hh' as [<- <-].
      eexists _, _, _, _. split; [game_eq|]. right. left.
      split_and!; [done..|]. by eexists _, _.
    + intros e [?|[[_ ?]|[[_ ?]|Hint]]]; try by auto 6.
      do 4 right. eapply interrupts_mono; [exact Hint|done|].
      intros ? ->%list_elem_of_singleton. among.
  - eapply wp_mono; [apply execute_player_wp| |]; simpl.
    + intros _ g' r' (past'&current'&id&p&Hh'&?&?&?&?&->).
      simpl in *. apply app_inj_tail in Hh' as [<- <-].
      eexists _, _, _, _. split; [game_eq|]. right. right. left.
      split_and!; [set_solver|done|]. by eexists _, _.
    + intros e [?|[[_ ?]|[[_ ?]|Hint]]]; try by auto 6.
      do 4 right. eapply interrupts_mono; [exact Hint|done|].
      intros ? ->%list_elem_of_singleton. among.
  - eapply wp_mono; [apply execute_player_wp| |]; simpl.
    + intros _ g' r' (past'&current'&id&p&Hh'&?&?&?&?&->).
      simpl in *. apply app_inj_tail in Hh' as [<- <-].
      eexists _, _, _, _. split; [game_eq|]. right. right. left.
      split_and!; [set_solver|done|]. by eexists _, _.
    + intros e [?|[[_ ?]|[[_ ?]|Hint]]]; try by auto 6.
      do 4 right. eapply interrupts_mono; [exact Hint|done|].
      intros ? ->%list_elem_of_singleton. among.
  - eexists _, _, _, _. split; [game_eq|].
    right. right. right. by split_and!.
Qed.
End Uniform.

(** ** The five ways a round can go *)

(** Use the specification [lemma] of the method about to run. *)
Tactic Notation "wp_use" uconstr(lemma) "else" tactic3(fault) :=
  eapply wp_mono; [apply lemma| |solve [fault]]; simpl.

Ltac same_history H :=
  simpl in H; apply app_inj_tail in H as [<- <-].

(** Run [play_round] from a game given by its attributes, up to the five
    places where it returns: Hitler elected, a liberal policy selected, a
    fascist policy selected, a failed election with and without a forced
    draw. *)
Ltac round_run_else fault :=
  unfold play_round; wp_seq;
  wp_use update_policy_deck_cases else fault;
  intros [] ? ? (deck1&saved1&->&Hdeck); wp_seq;
  wp_use update_round_history_wp else fault;
  intros [] ? ? (fascists_ids&hitler_id&->&->&Hhitler_id&Hfascists_ids);
  wp_seq;
  wp_use determine_next_president_cases else fault;
  intros ? ? ? (president&president_id&?&?&order1&->&->&Hpresident_id&Hh
                &->&Horder);
  same_history Hh; simpl in Hpresident_id; wp_seq;
  wp_use solicit_intent_to_vote_wp else fault;
  intros [] ? ? (?&?&intent&Hh&->&_&_);
  same_history Hh; wp_seq;
  wp_use select_chancellor_wp else fault;
  intros ? ? ? (?&?&chancellor&chancellor_id&->&Hh&->&Hchancellor
                &_);
  same_history Hh; simpl in Hchancellor; wp_seq;
  wp_use hold_election_wp else fault;
  intros successful_election ? ? (?&?&results&total&Hh&->&Htotal&Helected
                                  &Hvotes&_);
  same_history Hh; simpl in Helected; wp_seq;
  destruct successful_election; wp_seq;
  [ lazymatch goal with
    | |- context [bool_decide (3 ≤ ?f) && bool_decide (?c = ?h)] =>
        destruct (bool_decide (3 ≤ f) && bool_decide (c = h)) eqn:Hhitler
    end;
    wp_seq;
    [ |
      wp_use hold_legislation_session_wp else fault;
      intros policy ? ? (?&?&current'&discarded_by_president
                         &discarded_by_chancellor&liberal_policies
                         &fascist_policies&Hh&->&Hconstants&Hgovernment
                         &Hexecutive&Hanarchy&Hyour_id&Hdrawn&Hpresident_discard
                         &Hchancellor_discard&Hcards&Hveto);
      same_history Hh; simpl in Hdrawn, Hcards, Hveto; wp_seq;
      destruct policy; wp_seq;
      [ |
        eapply wp_mono;
          [eapply executive_action_cases;
             [simpl; reflexivity
             |simpl; by eapply list_elem_of_lookup_2, index_Some]
          | |solve [fault]];
        simpl;
        intros [] ? ? (current''&order2&executed2&special2&->&Hpower) ] ]
  | lazymatch goal with
    | |- context [bool_decide (?c + 1 = 3)] =>
        destruct (bool_decide (c + 1 = 3)) eqn:Hthird
    end;
    wp_seq;
    [ wp_use execute_anarchy_wp else fault;
      intros [] ? ? (?&?&card&rest&Hh&Hcard&->&->);
      same_history Hh; simpl in Hcard
    | ] ];
  assign.

Ltac round_run := round_run_else ltac:(done).

(** The fields of a record, part by part. *)
Ltac parts :=
  unfold constants_of, government_of, legislation_of, executive_of,
    anarchy_of in *;
  simpl in *; simplify_eq;
  repeat match goal with
         | H : ?f ?c = _ |- context [?f ?c] => is_var c; rewrite H
         end.

(** The four outcomes of an executive action. *)
Ltac powers H :=
  destruct H
    as [(Htally&->&->&->&investigated_id&investigated&claim&Hvalid
         &Hinvestigated&Hparty&Hselected&->)
       |[(Htally&->&->&called_id&called&Hvalid&Hcalled&Hother&Hliving
          &Hselected&->&->)
        |[(Htally&->&shot_id&victim&Hvalid&Hvictim&Hliving&Hselected&->&->
           &->)
         |(Htally&->&->&->&->)]]].

Ltac exists_last president :=
  eexists _, president; rewrite last_snoc; split; [reflexivity|].

Ltac exists_deck deck drawn :=
  eexists _, deck, drawn; rewrite last_snoc; split; [reflexivity|].

Section Round.
Context {rng : Type} `{RandomGenerator rng}.
Context (agents :
  Player.t → Player.method → list RoundRecord.t → rng → reply * rng).

(** The record of a round: it is appended to the history, which is
    otherwise left alone, and its constants are those of the game. *)
Lemma count_nil x : count x [] = 0.
Proof. done. Qed.

Lemma count_complement (l : list Policy.t) :
  count Policy.LIBERAL l + count Policy.FASCIST l = length l.
Proof.
  induction l as [|[] l IH]; [done|rewrite !count_cons; simpl; lia..].
Qed.

Lemma play_round_record (g : Game rng) r :
  wp (play_round agents)
    (λ _ g' _,
       ∃ current,
         round_history g' = round_history g ++ [current]
         ∧ RoundRecord._previous_record current = last (round_history g)
         ∧ RoundRecord.number_of_players current = length (players g)
         ∧ index (players g) (hitler g)
           = Some (RoundRecord.hitler current)
         ∧ (∀ i, i ∈ RoundRecord.fascists current
                 ↔ ∃ p, p ∈ fascists g ∧ index (players g) p = Some i)
         ∧ RoundRecord.your_player_id current = None
         ∧ RoundRecord.anarchy_occured current = None)
    (λ _, True) g r.
Proof.
  destruct g as [liberals0 fascists0 hitler0 deck order history seats
    executed special previous counter l f shot elected saved].
  round_run.
  3: powers Hpower.
  all: eexists; split; [reflexivity|]; parts; by split_and!.
Qed.

(** The government of a round: who presides, who is nominated, how the
    election goes and what it does to the counter of failed elections and
    to [elected_hitler]. *)
Lemma play_round_government (g : Game rng) r :
  wp (play_round agents)
    (λ _ g' _,
       ∃ current president president_id chancellor chancellor_id results
         (elected : bool),
         last (round_history g') = Some current
         ∧ RoundRecord.president current = Some president_id
         ∧ index (players g) president = Some president_id
         ∧ (special_election_next_president g = Some president
            ∨ (special_election_next_president g = None
               ∧ head (presidential_order g) = Some president))
         ∧ RoundRecord.chancellor current = Some chancellor_id
         ∧ subscript (players g) chancellor_id = inr chancellor
         ∧ RoundRecord.election_results current = Some results
         ∧ RoundRecord.successful_election current = Some elected
         ∧ anarchy_counter g'
           = anarchy_counter g + (if elected then 0 else 1)
         ∧ elected_hitler g'
           = elected_hitler g
             || (elected && bool_decide (3 ≤ fascist_policies_passed g)
                 && bool_decide (chancellor = hitler g))
         ∧ (if elected
               && negb (bool_decide (3 ≤ fascist_policies_passed g)
                        && bool_decide (chancellor = hitler g))
            then is_Some
                   (RoundRecord.num_fascist_policies_for_president current)
                 ∧ is_Some
                     (RoundRecord.policy_discarded_by_president current)
                 ∧ is_Some
                     (RoundRecord.policy_discarded_by_chancellor current)
            else legislation_of current
                 = (None, None, None, None, None, None, None, None, None,
                    None)
                 ∧ executive_of current = (None, None, None, None, None))
         ∧ (if negb elected && bool_decide (anarchy_counter g + 1 = 3)
            then is_Some (RoundRecord.anarchy_result current)
            else RoundRecord.anarchy_result current = None))
    (λ _, True) g r.
Proof.
  destruct g as [liberals0 fascists0 hitler0 deck order history seats
    executed special previous counter l f shot elected saved].
  round_run.
  3: powers Hpower.
  all: eexists _, president, _, chancellor, _, _, _.
  all: rewrite last_snoc; split; [reflexivity|]; parts.
  all: simpl; rewrite ?Hhitler, ?Hthird; simpl;
    rewrite ?orb_true_r, ?orb_false_r, ?Nat.add_0_r.
  all: assert (special = Some president
               ∨ special = None ∧ head order = Some president)
         by (destruct Horder as [[??]|(?&?&->&?)]; by auto).
  all: split_and!; try (reflexivity || eassumption || symmetry; eassumption).
  all: simpl; rewrite ?Hhitler, ?Hthird; simpl;
    rewrite ?orb_true_r, ?orb_false_r, ?Nat.add_0_r, ?Hdrawn,
      ?Hpresident_discard, ?Hchancellor_discard;
    try (reflexivity || eassumption || by eexists).
  all: split_and?; try (reflexivity || by eexists).
Qed.

(** The presidential power of a round, if any, and what it does to the
    seats. *)
Lemma play_round_power (g : Game rng) r :
  wp (play_round agents)
    (λ _ g' _,
       ∃ current president,
         last (round_history g') = Some current
         ∧ (special_election_next_president g = Some president
            ∨ (special_election_next_president g = None
               ∧ head (presidential_order g) = Some president))
         ∧ ((executive_of current = (None, None, None, None, None)
             ∧ executed_players g' = executed_players g
             ∧ presidential_order g' ≡ₚ presidential_order g
             ∧ special_election_next_president g' = None)
            ∨ (∃ investigated_id investigated claim,
                 executive_of current
                 = (Some investigated_id,
                    Some (if bool_decide (investigated ∈ liberals g)
                          then Allegiance.LIBERAL else Allegiance.FASCIST),
                    Some claim, None, None)
                 ∧ fascist_policies_passed g' ∈ [1; 2]
                 ∧ subscript (players g) investigated_id = inr investigated
                 ∧ (investigated ∈ liberals g ∨ investigated ∈ fascists g)
                 ∧ executed_players g' = executed_players g
                 ∧ presidential_order g' ≡ₚ presidential_order g
                 ∧ special_election_next_president g' = None)
            ∨ (∃ called_id called,
                 executive_of current
                 = (None, None, None, Some called_id, None)
                 ∧ fascist_policies_passed g' = 3
                 ∧ subscript (players g) called_id = inr called
                 ∧ called ≠ president
                 ∧ (called ∉ executed_players g)
                 ∧ executed_players g' = executed_players g
                 ∧ presidential_order g' ≡ₚ presidential_order g
                 ∧ special_election_next_president g' = Some called)
            ∨ (∃ shot_id victim,
                 executive_of current
                 = (None, None, None, None, Some shot_id)
                 ∧ fascist_policies_passed g' ∈ [4; 5]
                 ∧ subscript (players g) shot_id = inr victim
                 ∧ (victim ∉ executed_players g)
                 ∧ executed_players g' = executed_players g ++ [victim]
                 ∧ presidential_order g'
                   ≡ₚ filter (λ player, player ≠ victim)
                        (presidential_order g)
                 ∧ special_election_next_president g' = None))
         ∧ (executive_of current ≠ (None, None, None, None, None) →
            RoundRecord.successful_election current = Some true
            ∧ RoundRecord.anarchy_result current = None))
    (λ _, True) g r.
Proof.
  destruct g as [liberals0 fascists0 hitler0 deck order history seats
    executed special previous counter l f shot elected saved].
  round_run.
  all: assert (special = Some president
               ∨ special = None ∧ head order = Some president)
         by (destruct Horder as [[??]|(?&?&->&?)]; by auto).
  all: assert (order1 ≡ₚ order) as Hrotated
         by (destruct Horder as [[? ->]|(?&?&->&->)];
             [done|by rewrite Permutation_app_comm]).
  3: powers Hpower.
  all: exists_last president; split; [assumption|]; parts.
  all: split;
    [|first [ by intros []
            | intros _; split; (reflexivity || eassumption
                                || symmetry; eassumption) ]].
  1, 2, 6, 7, 8: left; by split_and!.
  - right. left. eexists _, _, _. split_and!; try done.
  - right. right. left. eexists _, _. split_and!; try done.
  - right. right. right. eexists _, _. split_and!; try done.
    by rewrite Hrotated.
Qed.

(** The policy of a round, if any: where it comes from and what it does
    to the tallies. *)
Lemma play_round_policy (g : Game rng) r :
  wp (play_round agents)
    (λ _ g' _,
       ∃ current deck drawn,
         last (round_history g') = Some current
         ∧ liberal_policies_passed g'
           = liberal_policies_passed g
             + Nat.b2n (RoundRecord.passed Policy.LIBERAL current)
         ∧ fascist_policies_passed g'
           = fascist_policies_passed g
             + Nat.b2n (RoundRecord.passed Policy.FASCIST current)
         ∧ liberal_policies_passed g' + fascist_policies_passed g'
           ≤ liberal_policies_passed g + fascist_policies_passed g + 1
         ∧ ((3 ≤ length (policy_deck g) ∧ deck = policy_deck g
             ∧ random_number_generator g' = random_number_generator g)
            ∨ (length (policy_deck g) < 3
               ∧ count Policy.FASCIST deck = 11 - fascist_policies_passed g
               ∧ count Policy.LIBERAL deck = 6 - liberal_policies_passed g
               ∧ length deck
                 = (11 - fascist_policies_passed g)
                   + (6 - liberal_policies_passed g)))
         ∧ deck = drawn ++ policy_deck g'
         ∧ fascist_policies_passed g'
           ≤ fascist_policies_passed g + count Policy.FASCIST drawn
         ∧ (3 ≤ length deck →
            liberal_policies_passed g'
            ≤ liberal_policies_passed g + count Policy.LIBERAL drawn))
    (λ _, True) g r.
Proof.
  destruct g as [liberals0 fascists0 hitler0 deck order history seats
    executed special previous counter l f shot elected saved].
  round_run.
  3: powers Hpower.
  all: assert (3 ≤ length deck ∧ deck1 = deck ∧ saved1 = saved
               ∨ length deck < 3
                 ∧ count Policy.FASCIST deck1 = 11 - f
                 ∧ count Policy.LIBERAL deck1 = 6 - l
                 ∧ length deck1 = 11 - f + (6 - l)) as Hdeck'
         by (destruct Hdeck as [(?&?&?&?)|(?&?&?&?&?)]; by auto 6).
  all: clear Hdeck.
  1, 8: exists_deck deck1 (@nil Policy.t); simpl; split_and!;
    (assumption || reflexivity || lia).
  6: { subst deck1. exists_deck (card :: rest) [card].
       split_and!; try (assumption || reflexivity).
       all: unfold RoundRecord.passed; destruct card; simpl;
         rewrite ?count_cons; simpl; lia. }
  all: exists_deck deck1 (take 3 deck1); parts.
  all: unfold RoundRecord.passed; simpl; rewrite ?take_drop.
  all: assert (3 ≤ length deck1 →
               count Policy.LIBERAL (take 3 deck1)
               + count Policy.FASCIST (take 3 deck1) = 3) as Hthree
         by (intros; rewrite count_complement, length_take; lia).
  all: destruct (vetoed _ _); destruct Hveto as (?&?&?); subst;
    repeat match goal with
           | H : ?f ?c = _ |- context [?f ?c] => is_var c; rewrite H
           end; simpl.
  all: destruct discarded_by_president, discarded_by_chancellor;
    rewrite ?count_cons, ?count_nil in *; simpl in *.
  all: split_and!; (assumption || reflexivity || lia).
Qed.
End Round.

(** ** What holds after any number of rounds *)

Section Chains.
(** The chain of a record whose predecessors are the records before it
    in a history is that history, up to the record. *)
Lemma chain_unfold c :
  chain c = match RoundRecord._previous_record c with
            | Some previous => chain previous ++ [c]
            | None => [c]
            end.
Proof. by destruct c. Qed.

Lemma chain_linked (history : list RoundRecord.t) :
  (∀ k c, history !! k = Some c →
          RoundRecord._previous_record c
          = match k with 0 => None | S k' => history !! k' end) →
  ∀ k c, history !! k = Some c → chain c = take (S k) history.
Proof.
  intros Hlinked k. induction k as [|k IH]; intros c Hc.
  - rewrite chain_unfold, (Hlinked 0 _ Hc).
    destruct history; by simplify_eq/=.
  - rewrite chain_unfold, (Hlinked (S k) _ Hc).
    destruct (lookup_lt_is_Some_2 history k) as [previous Hk].
    { apply lookup_lt_Some in Hc. lia. }
    rewrite Hk, (IH _ Hk). by erewrite <- take_S_r.
Qed.

Lemma last_lookup_pred {A} (l : list A) :
  last l = match length l with 0 => None | S n => l !! n end.
Proof.
  rewrite last_lookup. destruct (length l) eqn:Hl; simpl; [|done].
  by destruct l.
Qed.
End Chains.

Section Games.
Context {rng : Type} `{RandomGenerator rng}.
Context (agents :
  Player.t → Player.method → list RoundRecord.t → rng → reply * rng).

(** What a round keeps when no winner stands before it, holds after any
    number of rounds. *)
Lemma play_rounds_invariant (I : Game rng → Prop) :
  (∀ g r g' r',
     I g → (determine_if_winner g).1 = None →
     play_round agents g r = Ok () g' r' → I g') →
  ∀ fuel g r b g' r',
    I g → play_rounds agents fuel g r = Ok b g' r' → I g'.
Proof.
  intros Hround.
  induction fuel as [|fuel IH]; intros g r b g' r' HI; simpl.
  - intros (g0&g1&r1&[= <- <- <-]&Hk)%bind_Ok.
    destruct (determine_if_winner g) as [[winner|] reason];
      by injection Hk as <- <- <-.
  - intros (g0&g1&r1&[= <- <- <-]&Hk)%bind_Ok.
    destruct (determine_if_winner g) as [[winner|] reason] eqn:Hwinner;
      [by injection Hk as <- <- <-|].
    apply bind_Ok in Hk as ([]&g1&r1&Hplayed&Hrest).
    eapply IH; [|exact Hrest]. eapply Hround; [done| |done].
    by rewrite Hwinner.
Qed.

(** *** The history is a chain *)

Lemma linked_play_round (g : Game rng) r g' r' :
  linked g → play_round agents g r = Ok () g' r' → linked g'.
Proof.
  intros Hlinked Hrun.
  destruct (wp_Ok _ _ _ _ _ _ _ _ (play_round_record agents g r) Hrun)
    as (current&Hh&Hprevious&_).
  intros k c. rewrite Hh. intros Hc.
  apply lookup_app_Some in Hc as [Hc|[Hk Hc]].
  - rewrite (Hlinked _ _ Hc). destruct k as [|k]; [done|].
    rewrite lookup_app_l; [done|]. apply lookup_lt_Some in Hc. lia.
  - apply list_lookup_singleton_Some in Hc as [Hk' <-].
    rewrite Hprevious, last_lookup_pred.
    assert (k = length (round_history g)) as -> by lia.
    destruct (length (round_history g)) as [|n] eqn:Hn; [done|].
    rewrite lookup_app_l; [done|]. lia.
Qed.

(** *** The values derived from the chain *)

Lemma subscript_elem_of {A} (l : list A) id x :
  subscript l id = inr x → x ∈ l.
Proof.
  unfold subscript. destruct (as_int id) as [z|]; [|done].
  destruct (_ <? 0)%Z; [done|].
  destruct (l !! _) as [y|] eqn:Hy; [|done]. simpl.
  intros [= <-]. by eapply list_elem_of_lookup_2.
Qed.

Lemma derived_play_round (g : Game rng) r g' r' :
  derived g → play_round agents g r = Ok () g' r' → derived g'.
Proof.
  intros (Hl&Hf&Hexecuted) Hrun.
  destruct (wp_Ok _ _ _ _ _ _ _ _ (play_round_record agents g r) Hrun)
    as (current&Hh&Hprevious&_).
  destruct (wp_Ok _ _ _ _ _ _ _ _ (play_round_policy agents g r) Hrun)
    as (c&?&?&Hlast&Hl'&Hf'&_).
  destruct (wp_Ok _ _ _ _ _ _ _ _ (play_round_power agents g r) Hrun)
    as (c'&?&Hlast'&_&Hpower&_).
  destruct (frame_play_round agents _ _ _ _ _ Hrun) as (_&_&_&Hplayers&_).
  rewrite Hh, last_snoc in Hlast, Hlast'.
  injection Hlast as <-. injection Hlast' as <-.
  unfold derived. rewrite Hh, last_snoc, Hl', Hf', Hplayers. simpl.
  destruct current; simpl in *. subst _previous_record.
  destruct (last (round_history g)) as [previous|]; simpl in *.
  all: split; [lia|]; split; [lia|].
  all: unfold executive_of in Hpower; simpl in Hpower.
  all: destruct Hpower
         as [([= -> -> -> -> ->]&->&_)
            |[(?&?&?&[= -> -> -> -> ->]&_&_&_&->&_)
             |[(?&?&[= -> -> -> -> ->]&_&_&_&_&->&_)
              |(?&?&[= -> -> -> -> ->]&_&?&_&->&_)]]];
         try done.
  all: refine (Forall2_app Hexecuted _); by repeat constructor.
Qed.

(** *** The seats *)

Lemma living_executed (g g' : Game rng) victim :
  players g' = players g →
  executed_players g' = executed_players g ++ [victim] →
  living g' = filter (λ player, player ≠ victim) (living g).
Proof.
  intros Hplayers Hexecuted. unfold living.
  rewrite Hplayers, Hexecuted, list_filter_filter.
  apply list_filter_iff. intros p. set_solver.
Qed.

Lemma seated_play_round (g : Game rng) r g' r' :
  seated g → play_round agents g r = Ok () g' r' → seated g'.
Proof.
  intros (Horder&Hnodup&Hseats&Hspecial) Hrun.
  destruct (wp_Ok _ _ _ _ _ _ _ _ (play_round_power agents g r) Hrun)
    as (c&president&_&_&Hpower&_).
  destruct (frame_play_round agents _ _ _ _ _ Hrun) as (_&_&_&Hplayers&_).
  unfold seated.
  assert (∀ g'' : Game rng,
            players g'' = players g →
            executed_players g'' = executed_players g →
            living g'' = living g) as Hsame.
  { intros g'' Hp He. unfold living. by rewrite Hp, He. }
  destruct Hpower
    as [(_&He&Ho&Hs)
       |[(?&?&?&_&_&_&_&He&Ho&Hs)
        |[(?&called&_&_&Hcalled&_&Hliving&He&Ho&Hs)
         |(?&victim&_&_&Hvictim&Hliving&He&Ho&Hs)]]].
  1, 2, 3: rewrite (Hsame _ Hplayers He), Ho, He, Hs, Hplayers.
  1, 2: by split_and!.
  - split_and!; try done. intros p [= <-]. apply elem_of_living.
    split; [|done]. by eapply subscript_elem_of.
  - rewrite (living_executed _ _ _ Hplayers He), Ho, He, Hs, Hplayers.
    split_and!; try done.
    + by rewrite Horder.
    + apply NoDup_app. split_and!; [done| |apply NoDup_singleton].
      intros p Hp ->%list_elem_of_singleton. done.
    + intros p [?| ->%list_elem_of_singleton]%elem_of_app; [by auto|].
      by eapply subscript_elem_of.
Qed.

(** *** The tallies and the deck *)

Lemma no_winner (g : Game rng) :
  (determine_if_winner g).1 = None →
  liberal_policies_passed g ≠ 5 ∧ shot_hitler g = false
  ∧ fascist_policies_passed g ≠ 6 ∧ elected_hitler g = false.
Proof.
  unfold determine_if_winner.
  case_bool_decide; [done|]. destruct (shot_hitler g); [done|].
  case_bool_decide; [done|]. by destruct (elected_hitler g).
Qed.

Lemma stocked_play_round (g : Game rng) r g' r' :
  stocked g → (determine_if_winner g).1 = None →
  play_round agents g r = Ok () g' r' → stocked g'.
Proof.
  intros (Hl&Hf&Hrounds&HF&HL) (Hl5&_&Hf6&_)%no_winner Hrun.
  destruct (wp_Ok _ _ _ _ _ _ _ _ (play_round_record agents g r) Hrun)
    as (current&Hh&_).
  destruct (wp_Ok _ _ _ _ _ _ _ _ (play_round_policy agents g r) Hrun)
    as (c&deck&drawn&_&Hl'&Hf'&Hone&Hdeck&Hdrawn&HF'&HL').
  unfold stocked. rewrite Hh, length_app. simpl.
  assert (liberal_policies_passed g' ≤ liberal_policies_passed g + 1)
    by (rewrite Hl'; destruct (RoundRecord.passed _ _); simpl; lia).
  assert (fascist_policies_passed g' ≤ fascist_policies_passed g + 1)
    by (rewrite Hf'; destruct (RoundRecord.passed _ _); simpl; lia).
  assert (3 ≤ length deck
          ∧ count Policy.FASCIST deck + fascist_policies_passed g ≤ 11
          ∧ count Policy.LIBERAL deck + liberal_policies_passed g ≤ 6)
    as (Hthree&HF1&HL1).
  { destruct Hdeck as [(?&->&_)|(?&?&?&?)]; [done|lia]. }
  specialize (HL' Hthree).
  pose proof (f_equal (count Policy.FASCIST) Hdrawn) as HcF.
  pose proof (f_equal (count Policy.LIBERAL) Hdrawn) as HcL.
  rewrite count_app in HcF, HcL. lia.
Qed.

(** *** The counter of failed elections *)

Lemma length_filter_snoc {A} (P : A → Prop) `{!∀ x, Decision (P x)}
    (l : list A) x :
  length (filter P (l ++ [x]))
  = length (filter P l) + (if decide (P x) then 1 else 0).
Proof.
  rewrite filter_app, length_app, filter_cons, filter_nil.
  by destruct (decide (P x)).
Qed.

Lemma counted_play_round (g : Game rng) r g' r' :
  counted g → play_round agents g r = Ok () g' r' → counted g'.
Proof.
  intros [Hfailed Hforced] Hrun.
  destruct (wp_Ok _ _ _ _ _ _ _ _ (play_round_record agents g r) Hrun)
    as (current&Hh&_).
  destruct (wp_Ok _ _ _ _ _ _ _ _ (play_round_government agents g r) Hrun)
    as (c&?&?&?&?&?&elected&Hlast&_&_&_&_&_&_&Helected&Hcounter&_&_
        &Hanarchy).
  rewrite Hh, last_snoc in Hlast. injection Hlast as <-.
  unfold counted.
  rewrite Hh, !length_filter_snoc, Hcounter, <- Hfailed, Hforced.
  destruct (decide (failed current)) as [Hlost|Hlost];
    unfold failed in Hlost; rewrite Helected in Hlost;
    destruct elected; try done; simpl in Hanarchy.
  - split; [done|].
    destruct (bool_decide_reflect (anarchy_counter g + 1 = 3))
      as [Hthree|Hthree].
    + rewrite (decide_True (P:=forced current)) by exact Hanarchy.
      repeat case_decide; lia.
    + destruct (decide (forced current)) as [Hdrawn|_].
      { unfold forced in Hdrawn. rewrite Hanarchy in Hdrawn.
        by destruct Hdrawn. }
      repeat case_decide; lia.
  - split; [done|].
    destruct (decide (forced current)) as [Hdrawn|_].
    { unfold forced in Hdrawn. rewrite Hanarchy in Hdrawn.
      by destruct Hdrawn. }
    rewrite !Nat.add_0_r. done.
Qed.
End Games.

(** ** Games built by the constructor *)

Section Constructed.
Context {rng : Type} `{RandomGenerator rng}.
Context (agents :
  Player.t → Player.method → list RoundRecord.t → rng → reply * rng).

Lemma init_inr liberals fascists hitler deck order r (g : Game rng) :
  init liberals fascists hitler deck order r = inr g →
  validate liberals fascists hitler order = inr ()
  ∧ g = {| liberals := liberals; fascists := fascists; hitler := hitler;
           policy_deck := deck; presidential_order := order;
           round_history := []; players := order; executed_players := [];
           special_election_next_president := None;
           previous_government := ∅; anarchy_counter := 0;
           liberal_policies_passed := 0; fascist_policies_passed := 0;
           shot_hitler := false; elected_hitler := false;
           random_number_generator := r |}.
Proof.
  unfold init. destruct (validate _ _ _ _) as [e|[]]; [done|].
  by intros [= <-].
Qed.

Lemma living_nobody_executed (g : Game rng) :
  executed_players g = [] → living g = players g.
Proof.
  intros He. unfold living. rewrite He.
  induction (players g) as [|p l IH]; [done|].
  rewrite filter_cons_True by set_solver. by rewrite IH.
Qed.

Lemma init_sound liberals fascists hitler deck order r (g : Game rng) :
  init liberals fascists hitler deck order r = inr g →
  linked g ∧ seated g ∧ derived g ∧ counted g
  ∧ (count Policy.FASCIST deck ≤ 11 → count Policy.LIBERAL deck ≤ 6 →
     stocked g).
Proof.
  intros [_ ->]%init_inr. split_and!.
  - by intros k c.
  - unfold seated. rewrite living_nobody_executed by done. simpl.
    split_and!; [done|constructor|by intros ? ?%elem_of_nil|done].
  - unfold derived. simpl. split_and!; [done..|constructor].
  - done.
  - intros HF HL. unfold stocked. simpl. lia.
Qed.

(** The invariants of a game, after any number of rounds. *)
Lemma play_rounds_sound liberals fascists hitler deck order r
    (g : Game rng) fuel r' b g' r'' :
  init liberals fascists hitler deck order r = inr g →
  play_rounds agents fuel g r' = Ok b g' r'' →
  linked g' ∧ seated g' ∧ derived g' ∧ counted g'
  ∧ (count Policy.FASCIST deck ≤ 11 → count Policy.LIBERAL deck ≤ 6 →
     stocked g').
Proof.
  intros (?&?&?&?&Hstocked)%init_sound Hrun. split_and!.
  - eapply (play_rounds_invariant agents linked); [|done..].
    intros g0 r0 g1 r1 HI _ Hround. by eapply linked_play_round.
  - eapply (play_rounds_invariant agents seated); [|done..].
    intros g0 r0 g1 r1 HI _ Hround. by eapply seated_play_round.
  - eapply (play_rounds_invariant agents derived); [|done..].
    intros g0 r0 g1 r1 HI _ Hround. by eapply derived_play_round.
  - eapply (play_rounds_invariant agents counted); [|done..].
    intros g0 r0 g1 r1 HI _ Hround. by eapply counted_play_round.
  - intros HF HL.
    eapply (play_rounds_invariant agents stocked); [|by auto|done].
    intros g0 r0 g1 r1 HI Hno Hround. by eapply stocked_play_round.
Qed.
End Constructed.

(** ** The deck handed to the constructor *)

Section Fresh_deck.
Context {rng : Type} `{RandomGenerator rng}.

(** A list of policies is its fascist policies followed by its liberal
    ones, up to the order. *)
Lemma policies_Permutation (l : list Policy.t) :
  l ≡ₚ replicate (count Policy.FASCIST l) Policy.FASCIST
       ++ replicate (count Policy.LIBERAL l) Policy.LIBERAL.
Proof.
  induction l as [|[] l IH]; [done|..]; rewrite !count_cons; simpl.
  - rewrite IH at 1. by rewrite <- Permutation_middle.
  - by rewrite IH at 1.
Qed.

(** X1.  [Game.generate_random_policy_deck()] always returns, touches no
    game, and hands back the seventeen cards of the game in some order:
    eleven fascist and six liberal policies, whatever the generator
    draws. *)
Theorem generate_random_policy_deck_is_the_full_deck (g : Game rng) r :
  ∃ deck r',
    generate_random_policy_deck g r = Ok deck g r'
    ∧ deck ≡ₚ replicate 11 Policy.FASCIST ++ replicate 6 Policy.LIBERAL
    ∧ length deck = 17.
Proof.
  unfold generate_random_policy_deck, random_shuffle.
  set (cards := replicate 11 Policy.FASCIST ++ replicate 6 Policy.LIBERAL).
  pose proof (shuffle_count Policy.FASCIST cards r) as HF.
  pose proof (shuffle_count Policy.LIBERAL cards r) as HL.
  pose proof (shuffle_length cards r) as Hlength.
  destruct (shuffle cards r) as [deck r']. simpl in *.
  exists deck, r'. split_and!; [done| |done].
  by rewrite (policies_Permutation deck), HF, HL.
Qed.
End Fresh_deck.

(** ** From symbolic runs to results *)

Section Results.
Context {rng : Type}.

Lemma wp_returns {A} (m : M rng A) a g' r' (g : Game rng) r :
  wp m (λ a0 g0 r0, a0 = a ∧ g0 = g' ∧ r0 = r') (λ _, False) g r →
  m g r = Ok a g' r'.
Proof.
  unfold wp. destruct (m g r); [|done]. by intros (->&->&->).
Qed.

Lemma wp_raises {A} (m : M rng A) e (g : Game rng) r :
  wp m (λ _ _ _, False) (λ e0, e0 = e) g r → m g r = Raise e.
Proof. unfold wp. destruct (m g r); [done|]. by intros ->. Qed.

Lemma more_than_half_Z (total : Z) (number : nat) :
  more_than_half total number
  = bool_decide (Z.of_nat number < 2 * total)%Z.
Proof.
  unfold more_than_half, QArith_base.Qle_bool. simpl.
  rewrite Z.mul_1_r.
  destruct (Z.leb_spec (total * 2) (Z.of_nat number)); simpl;
    symmetry; [apply bool_decide_eq_false|apply bool_decide_eq_true]; lia.
Qed.
End Results.

(** ** The methods of a round, one by one *)

(** A run from a game whose history and president's seat are known. *)
Ltac wp_from Hhistory Hpresident :=
  lazymatch type of Hpresident with
  | ?president ∈ players ?g =>
      let i := fresh "i" in
      let Hi := fresh "Hi" in
      destruct (index_is_Some (players g) president Hpresident)
        as [i Hi];
      unfold perceived in *; rewrite Hi in *;
      destruct g; simpl in *; subst
  end.

(** Two runs of the same call have the same result. *)
Ltac wp_merge :=
  simpl in *;
  repeat match goal with
         | H1 : ?x = _, H2 : ?x = _ |- _ => rewrite H1 in H2; simplify_eq
         end.

Ltac wp_known :=
  wp_merge;
  repeat case_bool_decide;
  first [ done | congruence | tauto | by split_and! ].

Section Methods.
Context {rng : Type} `{RandomGenerator rng}.
Context (agents :
  Player.t → Player.method → list RoundRecord.t → rng → reply * rng).

(** X2.  When [hold_legislation_session] returns, it has taken the top
    three cards off the deck and changed nothing else of the game but
    the two tallies and the record of the round, of which the fields
    written before and after the session are kept.  The record holds
    the two discards; with three cards in the deck, discards and
    returned policy are these three cards.  Unless a veto was agreed
    (fascist tally of five or more, chancellor and president both
    answering [True]), the returned policy is recorded as selected and
    its tally, and only that one, goes up by one; after an agreed veto
    neither tally moves and no policy is recorded, though the policy is
    still returned. *)
Theorem hold_legislation_session_enacts_one_of_three_cards president
    chancellor (g : Game rng) r policy g' r' :
  hold_legislation_session agents president chancellor g r
  = Ok policy g' r' →
  ∃ past current current' discarded_by_president discarded_by_chancellor,
    round_history g = past ++ [current]
    ∧ g' = set_policy_deck (drop 3 (policy_deck g))
             (set_round_history (past ++ [current'])
                (set_liberal_policies_passed (liberal_policies_passed g')
                   (set_fascist_policies_passed
                      (fascist_policies_passed g') g)))
    ∧ constants_of current' = constants_of current
    ∧ government_of current' = government_of current
    ∧ executive_of current' = executive_of current
    ∧ anarchy_of current' = anarchy_of current
    ∧ RoundRecord.policy_discarded_by_president current'
      = Some discarded_by_president
    ∧ RoundRecord.policy_discarded_by_chancellor current'
      = Some discarded_by_chancellor
    ∧ (3 ≤ length (policy_deck g) →
       [discarded_by_president; discarded_by_chancellor; policy]
       ≡ₚ take 3 (policy_deck g))
    ∧ if vetoed (fascist_policies_passed g) current'
      then liberal_policies_passed g' = liberal_policies_passed g
           ∧ fascist_policies_passed g' = fascist_policies_passed g
           ∧ RoundRecord.selected_policy current'
             = RoundRecord.selected_policy current
      else RoundRecord.selected_policy current' = Some policy
           ∧ liberal_policies_passed g'
             = liberal_policies_passed g
               + (if decide (policy = Policy.LIBERAL) then 1 else 0)
           ∧ fascist_policies_passed g'
             = fascist_policies_passed g
               + (if decide (policy = Policy.FASCIST) then 1 else 0).
Proof.
  intros Hrun.
  pose proof (wp_Ok _ _ _ _ _ _ _ _
                (hold_legislation_session_wp agents president chancellor
                   g r) Hrun)
    as (past&current&current'&dp&dc&l&f&Hhistory&->&Hconstants
        &Hgovernment&Hexecutive&Hanarchy&_&_&Hdp&Hdc&Hcount&Hveto).
  exists past, current, current', dp, dc.
  split_and!; try done.
  intros Hlength.
  rewrite (policies_Permutation (take 3 (policy_deck g))).
  rewrite (policies_Permutation [dp; dc; policy]).
  assert (∀ l : list Policy.t,
            count Policy.LIBERAL l = length l - count Policy.FASCIST l)
    as Hliberal.
  { induction l0 as [|[] l0 IH]; rewrite ?count_cons; simpl; [done|..].
    - rewrite IH. pose proof (count_le_length Policy.FASCIST l0). lia.
    - rewrite IH. pose proof (count_le_length Policy.FASCIST l0). lia. }
  rewrite (Hliberal (take 3 _)), (Hliberal [dp; dc; policy]), Hcount.
  rewrite length_take.
  replace (3 `min` length (policy_deck g)) with 3 by lia. done.
Qed.

(** X3.  Whatever [hold_legislation_session] raises in a round that has
    a record, between seated players and on a history of at most 200
    records, is a [PlayerException] that names the president or the
    chancellor, or else an exception that a method of the president or
    of the chancellor raised and that is no instance of [Exception]
    ([SystemExit], [KeyboardInterrupt]): the session wraps the calls in
    [except Exception], which lets such an exception through as it
    is. *)
Theorem hold_legislation_session_faults_come_from_the_government
    president chancellor (g : Game rng) r e :
  round_history g ≠ [] →
  length (round_history g) ≤ 200 →
  president ∈ players g → chancellor ∈ players g →
  hold_legislation_session agents president chancellor g r = Raise e →
  (∃ message culprit cause,
     e = PlayerException message culprit cause
     ∧ (culprit = president ∨ culprit = chancellor))
  ∨ (is_Exception e = false
     ∧ ∃ culprit method state r1 r2,
         (culprit = president ∨ culprit = chancellor)
         ∧ agents culprit method state r1 = (Raises e, r2)).
Proof.
  intros Hhistory _ Hpresident Hchancellor Hrun.
  destruct (wp_Raise _ _ _ _ _ _
              (hold_legislation_session_wp agents president chancellor
                 g r) Hrun Hhistory Hpresident Hchancellor)
    as [(message&culprit&cause&->&Hculprit)
       |(Hno&culprit&method&state&r1&r2&Hculprit&_&Hcall)].
  - left. exists message, culprit, cause. split; [done|]. set_solver.
  - right. split; [done|]. exists culprit, method, state, r1, r2.
    split; [set_solver|done].
Qed.

(** X4.  When [solicit_intent_to_vote] returns, it has changed nothing
    but the record of the round, which now holds the declared intents:
    one for every pair of a candidate who is seated, not executed and
    not the president (and not of the previous government when more than
    five players are in the presidential order) and of a living player,
    and no other.  Each intent is what the player's
    [intent_to_vote_on_government] answered on that player's view of the
    history as it was before the solicitation, the same for every
    candidate. *)
Theorem solicit_intent_to_vote_asks_the_living_about_the_eligible
    president (g : Game rng) r g' r' :
  solicit_intent_to_vote agents president g r = Ok () g' r' →
  ∃ past current intents,
    round_history g = past ++ [current]
    ∧ g' = set_round_history
             (past ++ [RoundRecord.set_declared_election_intent
                         (Some intents) current]) g
    ∧ (∀ k j v,
         declared intents k j = Some v →
         ∃ candidate player,
           index (players g) candidate = Some k
           ∧ skipped_candidate g president candidate = false
           ∧ index (players g) player = Some j
           ∧ player ∈ living g
           ∧ ∃ r1 r2,
               agents player Player.intent_to_vote_on_government
                 (perceived g player) r1 = (Returns v, r2))
    ∧ (∀ candidate player k j,
         index (players g) candidate = Some k →
         skipped_candidate g president candidate = false →
         index (players g) player = Some j →
         player ∈ living g →
         is_Some (declared intents k j)).
Proof.
  intros Hrun.
  pose proof (wp_Ok _ _ _ _ _ _ _ _
                (solicit_intent_to_vote_wp agents president g r) Hrun)
    as (past&current&d&Hhistory&->&Hsound&Hcomplete).
  exists past, current, d. split_and!; [done..| |].
  - intros k j v (candidate&player&_&?&?&?&?&?)%Hsound. eauto 10.
  - intros candidate player k j Hk Hskipped Hj Hliving.
    eapply Hcomplete; [|done..].
    eapply index_Some in Hk. by eapply list_elem_of_lookup_2.
Qed.

(** X5.  [select_chancellor] seats whoever the president names: when the
    answer subscripts the tuple of players (a seat number, a negative
    number counting from the last seat, a boolean), the player found
    there is the candidate, be it the president, an executed player or a
    member of the previous government, and the record holds the answer
    as given. *)
Theorem select_chancellor_seats_whoever_is_named president
    (g : Game rng) r past current answer r1 chancellor :
  round_history g = past ++ [current] →
  president ∈ players g →
  agents president Player.select_chancellor (perceived g president) r
  = (Returns answer, r1) →
  subscript (players g) answer = inr chancellor →
  select_chancellor agents president g r
  = Ok (chancellor, answer)
      (set_round_history
         (past ++ [RoundRecord.set_chancellor (Some answer) current]) g)
      r1.
Proof.
  intros Hhistory Hpresident Hanswer Hchancellor.
  wp_from Hhistory Hpresident.
  apply wp_returns. unfold select_chancellor.
  wp_run by wp_known.
Qed.

(** X6.  [hold_election] validates no vote and adds the votes up as
    numbers.  When it returns, the record of the round holds, under the
    seat of each living player, what that player's [vote_on_government]
    answered on the player's view, and nothing under any other seat; and
    when the recorded votes are all integers or booleans, the election
    succeeded if and only if twice their sum exceeds the number of
    seats: a vote of 5 carries an election of nine seats, a vote of -1
    cancels a yes. *)
Theorem hold_election_adds_the_votes_up (g : Game rng) r elected g' r' :
  hold_election agents g r = Ok elected g' r' →
  ∃ past current results,
    round_history g = past ++ [current]
    ∧ g' = set_round_history
             (past ++ [RoundRecord.set_successful_election (Some elected)
                         (RoundRecord.set_election_results (Some results)
                            current)]) g
    ∧ (∀ i v, results !! i = Some v →
              ∃ player r1 r2,
                player ∈ living g ∧ index (players g) player = Some i
                ∧ agents player Player.vote_on_government
                    (perceived g player) r1 = (Returns v, r2))
    ∧ (∀ player i,
         player ∈ living g → index (players g) player = Some i →
         is_Some (results !! i))
    ∧ ((∀ i v, results !! i = Some v → is_Some (as_int v)) →
       ∃ total,
         sum_values (snd <$> map_to_list results) = inr total
         ∧ elected
           = bool_decide (Z.of_nat (length (players g)) < 2 * total)%Z).
Proof.
  intros Hrun.
  pose proof (wp_Ok _ _ _ _ _ _ _ _ (hold_election_wp agents g r) Hrun)
    as (past&current&results&total&Hhistory&->&Htotal&->&Hvotes
        &Hcomplete).
  exists past, current, results.
  split_and!; [done..| |exact Hcomplete|].
  - intros i v Hv.
    destruct (Hvotes i v Hv) as (player&?&?&r1&r2&?). eauto 10.
  - intros _. exists total. split; [done|]. apply more_than_half_Z.
Qed.
End Methods.

(** ** The presidential powers, one by one *)

Section Powers.
Context {rng : Type} `{RandomGenerator rng}.
Context (agents :
  Player.t → Player.method → list RoundRecord.t → rng → reply * rng).

(** X7.  [investigate_player] asks the president twice on one and the
    same view, taken before the investigation: whom to investigate, and
    what to claim.  For a seat number in range, whoever sits there (the
    president, an executed player), the record gets the seat, the party
    of the player (liberal for a member of [liberals], fascist
    otherwise, Hitler included) and the claim as answered, whatever it
    is; nothing else of the game changes. *)
Theorem investigate_player_records_the_party president (g : Game rng) r
    past current answer r1 investigated claim r2 :
  round_history g = past ++ [current] →
  president ∈ players g →
  agents president Player.select_player_to_investigate
    (perceived g president) r = (Returns answer, r1) →
  valid_player_id g answer = true →
  subscript (players g) answer = inr investigated →
  investigated ∈ liberals g ∨ investigated ∈ fascists g →
  agents president Player.claimed_player_investigation_result
    (perceived g president) r1 = (Returns claim, r2) →
  investigate_player agents president g r
  = Ok ()
      (set_round_history
         (past
          ++ [RoundRecord.set_claimed_investigated_player_allegiance
                (Some claim)
                (RoundRecord.set_investigated_player_identity
                   (Some (if bool_decide (investigated ∈ liberals g)
                          then Allegiance.LIBERAL
                          else Allegiance.FASCIST))
                   (RoundRecord.set_investigated_player (Some answer)
                      current))]) g)
      r2.
Proof.
  intros Hhistory Hpresident Hanswer Hvalid Hinvestigated Hparty Hclaim.
  wp_from Hhistory Hpresident.
  apply wp_returns. unfold investigate_player, ask_player_id.
  wp_run by wp_known.
  all: wp_known.
Qed.

(** X8.  [declare_special_election], for a seat number in range: naming
    the president's own seat or the seat of an executed player raises a
    [PlayerException] against the president; any other player becomes
    the next president, and the record gets the seat number.  The
    presidential order is left as it is. *)
Theorem declare_special_election_calls_a_living_colleague president
    (g : Game rng) r past current answer r1 called :
  round_history g = past ++ [current] →
  president ∈ players g →
  agents president Player.select_special_election_president
    (perceived g president) r = (Returns answer, r1) →
  valid_player_id g answer = true →
  subscript (players g) answer = inr called →
  declare_special_election agents president g r
  = if bool_decide (called = president) then
      Raise (PlayerException
               "Player {president} selected themselves as President for special election."
               president None)
    else if bool_decide (called ∈ executed_players g) then
      Raise (PlayerException
               "Player {president} selected a corpse as President for special election."
               president None)
    else
      Ok ()
        (set_round_history
           (past ++ [RoundRecord.set_special_election_next_president
                       (Some answer) current])
           (set_special_election_next_president (Some called) g))
        r1.
Proof.
  intros Hhistory Hpresident Hanswer Hvalid Hcalled.
  wp_from Hhistory Hpresident.
  repeat case_bool_decide.
  1,2: apply wp_raises. 3: apply wp_returns.
  all: unfold declare_special_election, ask_player_id.
  all: wp_run by wp_known.
  all: wp_known.
Qed.

(** X9.  [execute_player], for a seat number in range: naming an
    executed player raises a [PlayerException] against the president;
    anybody else, the president included, is appended to the executed
    players and removed from the presidential order, and the record
    gets the seat number.  Nothing else of the game changes,
    [shot_hitler] included. *)
Theorem execute_player_removes_whoever_is_named president (g : Game rng)
    r past current answer r1 victim :
  round_history g = past ++ [current] →
  president ∈ players g →
  agents president Player.select_player_to_execute
    (perceived g president) r = (Returns answer, r1) →
  valid_player_id g answer = true →
  subscript (players g) answer = inr victim →
  execute_player agents president g r
  = if bool_decide (victim ∈ executed_players g) then
      Raise (PlayerException
               "Player {president} selected a corpse for execution."
               president None)
    else
      Ok ()
        (set_round_history
           (past ++ [RoundRecord.set_executed_player (Some answer)
                       current])
           (set_presidential_order
              (filter (λ player, player ≠ victim) (presidential_order g))
              (set_executed_players (executed_players g ++ [victim]) g)))
        r1.
Proof.
  intros Hhistory Hpresident Hanswer Hvalid Hvictim.
  wp_from Hhistory Hpresident.
  repeat case_bool_decide.
  1: apply wp_raises. 2: apply wp_returns.
  all: unfold execute_player, ask_player_id.
  all: wp_run by wp_known.
  all: wp_known.
Qed.
End Powers.

(** ** A round *)

Section A_round.
Context {rng : Type} `{RandomGenerator rng}.
Context (agents :
  Player.t → Player.method → list RoundRecord.t → rng → reply * rng).


(** X11.  When [play_round] returns, it has used at most one
    presidential power, and only after a successful election without a
    forced draw: none (nobody executed, no special election pending),
    an investigation (with one or two fascist policies passed by then),
    the call of a special election (with three; the player called is
    alive and not the president) or an execution (with four or five;
    the victim was alive, is appended to the executed players and
    leaves the presidential order).  In each case the presidential
    order holds the same players as before, the victim apart, and a
    special election pending before the round has been used up. *)
Theorem play_round_uses_one_presidential_power (g : Game rng) r g' r' :
  play_round agents g r = Ok () g' r' →
  ∃ current president,
    last (round_history g') = Some current
    ∧ (special_election_next_president g = Some president
       ∨ (special_election_next_president g = None
          ∧ head (presidential_order g) = Some president))
    ∧ ((executive_of current = (None, None, None, None, None)
        ∧ executed_players g' = executed_players g
        ∧ presidential_order g' ≡ₚ presidential_order g
        ∧ special_election_next_president g' = None)
       ∨ (∃ investigated_id investigated claim,
            executive_of current
            = (Some investigated_id,
               Some (if bool_decide (investigated ∈ liberals g)
                     then Allegiance.LIBERAL else Allegiance.FASCIST),
               Some claim, None, None)
            ∧ fascist_policies_passed g' ∈ [1; 2]
            ∧ subscript (players g) investigated_id = inr investigated
            ∧ (investigated ∈ liberals g ∨ investigated ∈ fascists g)
            ∧ executed_players g' = executed_players g
            ∧ presidential_order g' ≡ₚ presidential_order g
            ∧ special_election_next_president g' = None)
       ∨ (∃ called_id called,
            executive_of current
            = (None, None, None, Some called_id, None)
            ∧ fascist_policies_passed g' = 3
            ∧ subscript (players g) called_id = inr called
            ∧ called ≠ president
            ∧ (called ∉ executed_players g)
            ∧ executed_players g' = executed_players g
            ∧ presidential_order g' ≡ₚ presidential_order g
            ∧ special_election_next_president g' = Some called)
       ∨ (∃ shot_id victim,
            executive_of current
            = (None, None, None, None, Some shot_id)
            ∧ fascist_policies_passed g' ∈ [4; 5]
            ∧ subscript (players g) shot_id = inr victim
            ∧ (victim ∉ executed_players g)
            ∧ executed_players g' = executed_players g ++ [victim]
            ∧ presidential_order g'
              ≡ₚ filter (λ player, player ≠ victim)
                   (presidential_order g)
            ∧ special_election_next_president g' = None))
    ∧ (executive_of current ≠ (None, None, None, None, None) →
       RoundRecord.successful_election current = Some true
       ∧ RoundRecord.anarchy_result current = None).
Proof.
  intros Hrun.
  exact (wp_Ok _ _ _ _ _ _ _ _ (play_round_power agents g r) Hrun).
Qed.

(** X12.  When [play_round] returns, each tally has gone up by one if
    the record of the round shows a policy of its kind, selected or
    drawn by force, and is unchanged otherwise; at most one of the two
    has moved.  The deck of the round is the deck of the game if that
    holds three cards, and otherwise a new deck with the cards that are
    not enacted (eleven fascist and six liberal, less the tallies); the
    round takes its cards from the top of that deck and leaves the
    rest, and a policy of a kind is only enacted if such a card was
    among those taken. *)
Theorem play_round_enacts_a_card_it_took (g : Game rng) r g' r' :
  play_round agents g r = Ok () g' r' →
  ∃ current deck drawn,
    last (round_history g') = Some current
    ∧ liberal_policies_passed g'
      = liberal_policies_passed g
        + Nat.b2n (RoundRecord.passed Policy.LIBERAL current)
    ∧ fascist_policies_passed g'
      = fascist_policies_passed g
        + Nat.b2n (RoundRecord.passed Policy.FASCIST current)
    ∧ liberal_policies_passed g' + fascist_policies_passed g'
      ≤ liberal_policies_passed g + fascist_policies_passed g + 1
    ∧ ((3 ≤ length (policy_deck g) ∧ deck = policy_deck g
        ∧ random_number_generator g' = random_number_generator g)
       ∨ (length (policy_deck g) < 3
          ∧ count Policy.FASCIST deck = 11 - fascist_policies_passed g
          ∧ count Policy.LIBERAL deck = 6 - liberal_policies_passed g
          ∧ length deck
            = (11 - fascist_policies_passed g)
              + (6 - liberal_policies_passed g)))
    ∧ deck = drawn ++ policy_deck g'
    ∧ fascist_policies_passed g'
      ≤ fascist_policies_passed g + count Policy.FASCIST drawn
    ∧ (3 ≤ length deck →
       liberal_policies_passed g'
       ≤ liberal_policies_passed g + count Policy.LIBERAL drawn).
Proof.
  intros Hrun.
  exact (wp_Ok _ _ _ _ _ _ _ _ (play_round_policy agents g r) Hrun).
Qed.
End A_round.

(** ** Records and their chain *)

Section Records.
(** Induction along [_previous_record]. *)
Lemma previous_record_ind (P : RoundRecord.t → Prop) :
  (∀ c, (∀ previous,
           RoundRecord._previous_record c = Some previous → P previous) →
        P c) →
  ∀ c, P c.
Proof.
  intros HP c. remember (length (chain c)) as n eqn:Hn. revert c Hn.
  induction n as [n IH] using lt_wf_ind. intros c ->.
  apply HP. intros previous Hprevious. eapply IH; [|reflexivity].
  rewrite (chain_unfold c), Hprevious, length_app. simpl. lia.
Qed.

Lemma chain_last c : last (chain c) = Some c.
Proof.
  rewrite chain_unfold.
  destruct (RoundRecord._previous_record c); [|done]. apply last_snoc.
Qed.

Lemma length_filter_passed p l c :
  length (filter (λ round, RoundRecord.passed p round) (l ++ [c]))
  = length (filter (λ round, RoundRecord.passed p round) l)
    + Nat.b2n (RoundRecord.passed p c).
Proof.
  rewrite filter_app, length_app, filter_cons, filter_nil.
  by destruct (RoundRecord.passed p c).
Qed.

Lemma tally_chain p c :
  (match p with
   | Policy.LIBERAL => RoundRecord.number_of_liberal_policies_passed c
   | Policy.FASCIST => RoundRecord.number_of_fascist_policies_passed c
   end)
  = length (filter (λ round, RoundRecord.passed p round) (chain c)).
Proof.
  induction c as [c IH] using previous_record_ind.
  rewrite chain_unfold.
  assert (match p with
          | Policy.LIBERAL =>
              RoundRecord.number_of_liberal_policies_passed c
          | Policy.FASCIST =>
              RoundRecord.number_of_fascist_policies_passed c
          end
          = match RoundRecord._previous_record c with
            | Some previous =>
                match p with
                | Policy.LIBERAL =>
                    RoundRecord.number_of_liberal_policies_passed previous
                | Policy.FASCIST =>
                    RoundRecord.number_of_fascist_policies_passed previous
                end + Nat.b2n (RoundRecord.passed p c)
            | None => Nat.b2n (RoundRecord.passed p c)
            end) as ->.
  { by destruct c as [? ? ? []], p. }
  destruct (RoundRecord._previous_record c) as [previous|] eqn:Hprevious.
  - by rewrite length_filter_passed, (IH previous).
  - pose proof (length_filter_passed p [] c) as Hone.
    simpl in Hone. by rewrite Hone.
Qed.

Lemma executed_chain c :
  RoundRecord.executed_players c
  = omap RoundRecord.executed_player (chain c).
Proof.
  induction c as [c IH] using previous_record_ind.
  rewrite chain_unfold.
  assert (RoundRecord.executed_players c
          = match RoundRecord._previous_record c with
            | Some previous => RoundRecord.executed_players previous
            | None => []
            end ++ option_list (RoundRecord.executed_player c)) as ->.
  { destruct c as [? ? ? [] ? ? ? ? ? ? ? ? ? ? ? ? ? ? ? ? ? ? ? ? []];
      simpl; by rewrite ?app_nil_r. }
  destruct (RoundRecord._previous_record c) as [previous|] eqn:Hprevious.
  - rewrite omap_app, (IH previous) by done. simpl.
    by destruct (RoundRecord.executed_player c).
  - simpl. by destruct (RoundRecord.executed_player c).
Qed.

(** X13.  The values that a record derives by walking back through
    [_previous_record] are values of the chain of records that ends
    with it: the number of policies passed of either kind is the number
    of records of the chain that show a policy of that kind, selected
    or drawn by force, and [executed_players] lists the executed
    players of the records that have one, oldest first. *)
Theorem record_properties_read_the_chain c :
  RoundRecord.number_of_liberal_policies_passed c
  = length (filter (λ round, RoundRecord.passed Policy.LIBERAL round)
              (chain c))
  ∧ RoundRecord.number_of_fascist_policies_passed c
    = length (filter (λ round, RoundRecord.passed Policy.FASCIST round)
                (chain c))
  ∧ RoundRecord.executed_players c
    = omap RoundRecord.executed_player (chain c).
Proof.
  split_and!.
  - apply (tally_chain Policy.LIBERAL).
  - apply (tally_chain Policy.FASCIST).
  - apply executed_chain.
Qed.
End Records.

Section Streak.
Lemma record_anarchy_counter_unfold c :
  RoundRecord.anarchy_counter c
  = match RoundRecord.election_results c with
    | None =>
        from_option RoundRecord.anarchy_counter 0
          (RoundRecord._previous_record c)
    | Some _ =>
        if default false (RoundRecord.successful_election c) then 0
        else from_option RoundRecord.anarchy_counter 0
               (RoundRecord._previous_record c) + 1
    end.
Proof. by destruct c as [? ? ? [] ? ? ? [] []]. Qed.

(** X14.  The [anarchy_counter] of a record whose rounds have all been
    voted on is the number of rounds since the last successful
    election: if the chain of the record ends with [recent], rounds
    whose elections did not succeed, and what comes before is empty or
    ends with a successful election, then its value is the length of
    [recent]; a forced draw in between does not reset it. *)
Theorem record_anarchy_counter_counts_back_to_the_last_success c older
    recent :
  chain c = older ++ recent →
  Forall (λ round, is_Some (RoundRecord.election_results round)
                   ∧ RoundRecord.successful_election round ≠ Some true)
    recent →
  (older = []
   ∨ ∃ round, last older = Some round
              ∧ is_Some (RoundRecord.election_results round)
              ∧ RoundRecord.successful_election round = Some true) →
  RoundRecord.anarchy_counter c = length recent.
Proof.
  revert c. induction recent as [|x recent IH] using rev_ind;
    intros c Hchain Hfailed Holder.
  - rewrite app_nil_r in Hchain.
    destruct Holder as [->|(round&Hlast&[results Hresults]&Hsuccess)].
    { pose proof (chain_last c) as Hc. by rewrite Hchain in Hc. }
    pose proof (chain_last c) as Hc. rewrite Hchain, Hlast in Hc.
    injection Hc as ->.
    by rewrite record_anarchy_counter_unfold, Hresults, Hsuccess.
  - apply Forall_app in Hfailed as [Hfailed Hx].
    apply Forall_singleton in Hx as [[results Hresults] Hsuccess].
    pose proof (chain_last c) as Hc.
    rewrite Hchain, (assoc_L (++)), last_snoc in Hc. injection Hc as ->.
    rewrite record_anarchy_counter_unfold, Hresults, length_app. simpl.
    assert (default false (RoundRecord.successful_election c) = false)
      as ->.
    { by destruct (RoundRecord.successful_election c) as [[]|]. }
    rewrite chain_unfold in Hchain.
    destruct (RoundRecord._previous_record c) as [previous|]; simpl.
    + rewrite (assoc_L (++)) in Hchain.
      apply app_inj_tail in Hchain as [Hchain _].
      by rewrite (IH previous).
    + change [c] with ([] ++ [c]) in Hchain at 1.
      rewrite (assoc_L (++)) in Hchain.
      apply app_inj_tail in Hchain as [Hnil _]. symmetry in Hnil.
      by apply app_eq_nil in Hnil as [-> ->].
Qed.
End Streak.

(** ** A game *)

Section A_game.
Context {rng : Type} `{RandomGenerator rng}.
Context (agents :
  Player.t → Player.method → list RoundRecord.t → rng → reply * rng).
Context (liberals0 fascists0 : gset Player.t) (hitler0 : Player.t)
  (deck : list Policy.t) (order : list Player.t).

(** The cast of a game does not change. *)
Lemma play_rounds_cast r0 (g : Game rng) fuel r b g' r' :
  init liberals0 fascists0 hitler0 deck order r0 = inr g →
  play_rounds agents fuel g r = Ok b g' r' →
  liberals g' = liberals0 ∧ fascists g' = fascists0
  ∧ hitler g' = hitler0 ∧ players g' = order.
Proof.
  intros [_ ->]%init_inr Hrun.
  by destruct (frame_play_rounds agents fuel _ _ _ _ _ Hrun)
    as (->&->&->&->&_).
Qed.

(** X15.  After any number of rounds of a game built by the
    constructor, the history is one chain of finished rounds: the
    record of round [k] refers to the records of the rounds before it,
    so that its chain is the history up to that round; it carries the
    number of seats, Hitler's seat and the seats of the fascists; it is
    not addressed to a player; and it has a president, a chancellor and
    the result of an election. *)
Theorem round_history_is_a_chain_of_finished_rounds r0 (g : Game rng)
    fuel r b g' r' :
  init liberals0 fascists0 hitler0 deck order r0 = inr g →
  play_rounds agents fuel g r = Ok b g' r' →
  ∀ k c,
    round_history g' !! k = Some c →
    chain c = take (S k) (round_history g')
    ∧ RoundRecord.number_of_players c = length order
    ∧ index order hitler0 = Some (RoundRecord.hitler c)
    ∧ (∀ i, i ∈ RoundRecord.fascists c
            ↔ ∃ p, p ∈ fascists0 ∧ index order p = Some i)
    ∧ RoundRecord.your_player_id c = None
    ∧ is_Some (RoundRecord.president c)
    ∧ is_Some (RoundRecord.chancellor c)
    ∧ is_Some (RoundRecord.election_results c)
    ∧ is_Some (RoundRecord.successful_election c).
Proof.
  intros Hinit Hrun k c Hc.
  destruct (play_rounds_sound agents _ _ _ _ _ _ _ _ _ _ _ _ Hinit Hrun)
    as (Hlinked&_).
  split; [by apply chain_linked|].
  apply list_elem_of_lookup_2 in Hc. revert c Hc.
  pose (I := λ g1 : Game rng,
          fascists g1 = fascists0 ∧ hitler g1 = hitler0
          ∧ players g1 = order
          ∧ ∀ c, c ∈ round_history g1 →
                 RoundRecord.number_of_players c = length order
                 ∧ index order hitler0 = Some (RoundRecord.hitler c)
                 ∧ (∀ i, i ∈ RoundRecord.fascists c
                         ↔ ∃ p, p ∈ fascists0 ∧ index order p = Some i)
                 ∧ RoundRecord.your_player_id c = None
                 ∧ is_Some (RoundRecord.president c)
                 ∧ is_Some (RoundRecord.chancellor c)
                 ∧ is_Some (RoundRecord.election_results c)
                 ∧ is_Some (RoundRecord.successful_election c)).
  enough (I g') as (_&_&_&Hall) by exact Hall.
  eapply (play_rounds_invariant agents I); [| |exact Hrun].
  - clear. intros g r g' r' (Hf&Hh&Hp&Hall) _ Hrun.
    destruct (frame_play_round agents _ _ _ _ _ Hrun)
      as (_&Hf'&Hh'&Hp'&_).
    unfold I. rewrite Hf', Hh', Hp'. split_and!; [done..|].
    destruct (wp_Ok _ _ _ _ _ _ _ _ (play_round_record agents g r) Hrun)
      as (current&Hhistory&_&Hnumber&Hhitler&Hfascists&Hyour&_).
    destruct (wp_Ok _ _ _ _ _ _ _ _ (play_round_government agents g r)
                Hrun)
      as (current0&?&?&?&?&?&?&Hlast&Hpresident&_&_&Hchancellor&_
          &Hresults&Hsuccess&_).
    rewrite Hhistory, last_snoc in Hlast. injection Hlast as <-.
    intros c. rewrite Hhistory. intros [Hc| ->%list_elem_of_singleton]%elem_of_app;
      [by apply Hall|].
    rewrite Hf, Hh, Hp in *.
    rewrite Hpresident, Hchancellor, Hresults, Hsuccess.
    by split_and!.
  - apply init_inr in Hinit as [_ ->]. unfold I. simpl.
    split_and!; [done..|]. by intros c ?%elem_of_nil.
Qed.

(** X16.  After any number of rounds, the tallies of the engine are
    those of the history: the liberal (fascist) tally is the number of
    rounds whose record shows a liberal (fascist) policy, selected or
    drawn by force, which is also what the last record computes as
    [number_of_liberal_policies_passed]
    ([number_of_fascist_policies_passed]); and the [executed_players]
    that the last record computes are the seats of the executed players
    of the engine, in the order of the executions. *)
Theorem tallies_are_those_of_the_history r0 (g : Game rng) fuel r b g'
    r' :
  init liberals0 fascists0 hitler0 deck order r0 = inr g →
  play_rounds agents fuel g r = Ok b g' r' →
  liberal_policies_passed g'
  = length (filter (λ round, RoundRecord.passed Policy.LIBERAL round)
              (round_history g'))
  ∧ fascist_policies_passed g'
    = length (filter (λ round, RoundRecord.passed Policy.FASCIST round)
                (round_history g'))
  ∧ Forall2 (λ id p, subscript order id = inr p)
      (omap RoundRecord.executed_player (round_history g'))
      (executed_players g')
  ∧ ∀ c, last (round_history g') = Some c →
         RoundRecord.number_of_liberal_policies_passed c
         = liberal_policies_passed g'
         ∧ RoundRecord.number_of_fascist_policies_passed c
           = fascist_policies_passed g'
         ∧ Forall2 (λ id p, subscript order id = inr p)
             (RoundRecord.executed_players c) (executed_players g').
Proof.
  intros Hinit Hrun.
  destruct (play_rounds_sound agents _ _ _ _ _ _ _ _ _ _ _ _ Hinit Hrun)
    as (Hlinked&_&(Hl&Hf&He)&_).
  destruct (play_rounds_cast _ _ _ _ _ _ _ Hinit Hrun) as (_&_&_&Hp).
  rewrite Hp in He.
  destruct (last (round_history g')) as [c|] eqn:Hlast; simpl in *.
  - assert (chain c = round_history g') as Hchain.
    { rewrite last_lookup in Hlast.
      rewrite (chain_linked _ Hlinked _ _ Hlast).
      apply take_ge.
      destruct (round_history g'); simpl in *; [done|lia]. }
    rewrite <- Hchain, <- (tally_chain Policy.LIBERAL),
      <- (tally_chain Policy.FASCIST), <- executed_chain.
    split_and!; [done..|]. by intros ? [= <-].
  - apply last_None in Hlast. rewrite Hlast. simpl.
    split_and!; [done..|]. by intros.
Qed.

(** X17.  After any number of rounds, the seats are in order: the
    players are those given to the constructor; the presidential order
    holds the living players, each as often as seated, and no executed
    one; nobody was executed twice, or without having a seat; and a
    president called by special election is alive. *)
Theorem presidential_order_holds_the_living r0 (g : Game rng) fuel r b
    g' r' :
  init liberals0 fascists0 hitler0 deck order r0 = inr g →
  play_rounds agents fuel g r = Ok b g' r' →
  players g' = order
  ∧ presidential_order g'
    ≡ₚ filter (λ p, p ∉ executed_players g') order
  ∧ NoDup (executed_players g')
  ∧ (∀ p, p ∈ executed_players g' → p ∈ order)
  ∧ (∀ p, special_election_next_president g' = Some p →
          p ∈ order ∧ p ∉ executed_players g').
Proof.
  intros Hinit Hrun.
  destruct (play_rounds_sound agents _ _ _ _ _ _ _ _ _ _ _ _ Hinit Hrun)
    as (_&(Horder&Hnodup&Hseated&Hspecial)&_).
  destruct (play_rounds_cast _ _ _ _ _ _ _ Hinit Hrun) as (_&_&_&Hp).
  unfold living in *. rewrite Hp in *.
  split_and!; [done..|].
  intros p Hcalled%Hspecial. by apply list_elem_of_filter in Hcalled as [].
Qed.

(** X18.  After any number of rounds of a game whose deck had at most
    the eleven fascist and six liberal cards, no card is there twice: of
    either kind, the cards in the deck and the policies passed together
    are at most eleven and six.  There are never more than five liberal
    and six fascist policies passed, and never more policies than
    rounds. *)
Theorem no_policy_is_enacted_twice r0 (g : Game rng) fuel r b g' r' :
  init liberals0 fascists0 hitler0 deck order r0 = inr g →
  count Policy.FASCIST deck ≤ 11 → count Policy.LIBERAL deck ≤ 6 →
  play_rounds agents fuel g r = Ok b g' r' →
  count Policy.FASCIST (policy_deck g') + fascist_policies_passed g' ≤ 11
  ∧ count Policy.LIBERAL (policy_deck g') + liberal_policies_passed g'
    ≤ 6
  ∧ liberal_policies_passed g' ≤ 5 ∧ fascist_policies_passed g' ≤ 6
  ∧ liberal_policies_passed g' + fascist_policies_passed g'
    ≤ length (round_history g').
Proof.
  intros Hinit HF HL Hrun.
  destruct (play_rounds_sound agents _ _ _ _ _ _ _ _ _ _ _ _ Hinit Hrun)
    as (_&_&_&_&Hstocked).
  destruct (Hstocked HF HL) as (?&?&?&?&?). by split_and!.
Qed.

(** X19.  After any number of rounds, [anarchy_counter] is the number
    of failed elections of the whole game, and exactly one round of the
    game has a policy drawn by force if that number is three or more,
    none otherwise: whatever the elections after it, the third failed
    election of a game is the only one followed by a forced draw. *)
Theorem third_failed_election_is_the_only_forced_draw r0 (g : Game rng)
    fuel r b g' r' :
  init liberals0 fascists0 hitler0 deck order r0 = inr g →
  play_rounds agents fuel g r = Ok b g' r' →
  anarchy_counter g'
  = length (filter (λ round,
                      RoundRecord.successful_election round = Some false)
              (round_history g'))
  ∧ length (filter (λ round, is_Some (RoundRecord.anarchy_result round))
              (round_history g'))
    = if decide (3 ≤ anarchy_counter g') then 1 else 0.
Proof.
  intros Hinit Hrun.
  by destruct (play_rounds_sound agents _ _ _ _ _ _ _ _ _ _ _ _ Hinit
                 Hrun)
    as (_&_&_&Hcounted&_).
Qed.
End A_game.

(** ** What a game lets through *)

Section Subscripts.
End Subscripts.




Section Faults.
Context {rng : Type} `{RandomGenerator rng}.
Context (agents :
  Player.t → Player.method → list RoundRecord.t → rng → reply * rng).

End Faults.

Section Outcomes.
Context {rng : Type} `{RandomGenerator rng}.
Context (agents :
  Player.t → Player.method → list RoundRecord.t → rng → reply * rng).




Context (liberals0 fascists0 : gset Player.t) (hitler0 : Player.t)
  (deck : list Policy.t) (order : list Player.t).


End Outcomes.

(** ** A game that does not end *)

Section Dissent.
Context {rng : Type} `{RandomGenerator rng}.
Context (agents :
  Player.t → Player.method → list RoundRecord.t → rng → reply * rng).
Context (order : list Player.t).

(** The table: everybody declares something, names somebody seated
    when president, and votes no. *)
Context (Hintent :
  ∀ p state r,
    ∃ v r',
      agents p Player.intent_to_vote_on_government state r
      = (Returns v, r')).
Context (Hnominate :
  ∀ p state r,
    ∃ v r' chancellor,
      agents p Player.select_chancellor state r = (Returns v, r')
      ∧ subscript order v = inr chancellor).
Context (Hno :
  ∀ p state r,
    ∃ r', agents p Player.vote_on_government state r
          = (Returns (VBool false), r')).


End Dissent.


Section Quiet_rounds.
Context {rng : Type} `{RandomGenerator rng}.
Context (agents :
  Player.t → Player.method → list RoundRecord.t → rng → reply * rng).
Context (order : list Player.t).
Context (Hintent :
  ∀ p state r,
    ∃ v r',
      agents p Player.intent_to_vote_on_government state r
      = (Returns v, r')).
Context (Hnominate :
  ∀ p state r,
    ∃ v r' chancellor,
      agents p Player.select_chancellor state r = (Returns v, r')
      ∧ subscript order v = inr chancellor).
Context (Hno :
  ∀ p state r,
    ∃ r', agents p Player.vote_on_government state r
          = (Returns (VBool false), r')).



End Quiet_rounds.

(** ** The theorems at work *)

(** A hypothesis about a run of the model holds by running it. *)
Ltac evaluated :=
  lazymatch goal with
  | |- _ = _ => vm_compute; reflexivity
  | |- _ ≠ [] =>
      let Hnil := fresh in
      intros Hnil; apply (f_equal length) in Hnil; vm_compute in Hnil;
      discriminate Hnil
  | |- _ ≤ _ => vm_compute; lia
  | |- _ ∨ _ =>
      first [ left; apply (bool_decide_unpack _); vm_compute; exact I
            | right; apply (bool_decide_unpack _); vm_compute; exact I ]
  | |- _ => apply (bool_decide_unpack _); vm_compute; exact I
  end.

Section At_work.
Import Scenario Table.
#[local] Existing Instance largest.

(** The second round of a game of five: the session draws a liberal, a
    fascist and a liberal policy, and the president, who has the
    choice, discards a liberal one. *)
Lemma hold_legislation_session_enacts_one_of_three_cards_witness :
  let agents := scripted loyal in
  let president := 1 in
  let chancellor := 0 in
  let g := position 1 alternating in
  let r := 0%Z in
  let run := hold_legislation_session agents president chancellor g r in
  let policy := value_of Policy.LIBERAL run in
  let g' := game_of g run in
  let r' := generator_of run in
  (hold_legislation_session agents president chancellor g r
   = Ok policy g' r')
  ∧ (∃ past current current' discarded_by_president discarded_by_chancellor,
       round_history g = past ++ [current]
       ∧ g' = set_policy_deck (drop 3 (policy_deck g))
                (set_round_history (past ++ [current'])
                   (set_liberal_policies_passed (liberal_policies_passed g')
                      (set_fascist_policies_passed
                         (fascist_policies_passed g') g)))
       ∧ constants_of current' = constants_of current
       ∧ government_of current' = government_of current
       ∧ executive_of current' = executive_of current
       ∧ anarchy_of current' = anarchy_of current
       ∧ RoundRecord.policy_discarded_by_president current'
         = Some discarded_by_president
       ∧ RoundRecord.policy_discarded_by_chancellor current'
         = Some discarded_by_chancellor
       ∧ (3 ≤ length (policy_deck g) →
          [discarded_by_president; discarded_by_chancellor; policy]
          ≡ₚ take 3 (policy_deck g))
       ∧ if vetoed (fascist_policies_passed g) current'
         then liberal_policies_passed g' = liberal_policies_passed g
              ∧ fascist_policies_passed g' = fascist_policies_passed g
              ∧ RoundRecord.selected_policy current'
                = RoundRecord.selected_policy current
         else RoundRecord.selected_policy current' = Some policy
              ∧ liberal_policies_passed g'
                = liberal_policies_passed g
                  + (if decide (policy = Policy.LIBERAL) then 1 else 0)
              ∧ fascist_policies_passed g'
                = fascist_policies_passed g
                  + (if decide (policy = Policy.FASCIST) then 1 else 0)).
Proof.
  intros agents president chancellor g r run policy g' r'.
  assert (hold_legislation_session agents president chancellor g r
          = Ok policy g' r')
    as H1 by (evaluated).
  split; [exact H1|].
  eapply hold_legislation_session_enacts_one_of_three_cards; eassumption.
Defined.

(** The same session with a president who leaves the interpreter when
    asked to discard. *)
Lemma hold_legislation_session_faults_come_from_the_government_witness :
  let agents := scripted abrupt in
  let president := 1 in
  let chancellor := 0 in
  let g := position 1 alternating in
  let r := 0%Z in
  let e := fault_of (hold_legislation_session agents president chancellor g r) in
  (round_history g ≠ [])
  ∧ (length (round_history g) ≤ 200)
  ∧ (president ∈ players g)
  ∧ (chancellor ∈ players g)
  ∧ (hold_legislation_session agents president chancellor g r = Raise e)
  ∧ ((∃ message culprit cause,
        e = PlayerException message culprit cause
        ∧ (culprit = president ∨ culprit = chancellor))
     ∨ (is_Exception e = false
        ∧ ∃ culprit method state r1 r2,
            (culprit = president ∨ culprit = chancellor)
            ∧ agents culprit method state r1 = (Raises e, r2))).
Proof.
  intros agents president chancellor g r e.
  assert (round_history g ≠ [])
    as H1 by (evaluated).
  assert (length (round_history g) ≤ 200)
    as H2 by (evaluated).
  assert (president ∈ players g)
    as H3 by (evaluated).
  assert (chancellor ∈ players g)
    as H4 by (evaluated).
  assert (hold_legislation_session agents president chancellor g r = Raise e)
    as H5 by (evaluated).
  split; [exact H1|].
  split; [exact H2|].
  split; [exact H3|].
  split; [exact H4|].
  split; [exact H5|].
  eapply hold_legislation_session_faults_come_from_the_government; eassumption.
Defined.

(** Intents for the second president of a game of five. *)
Lemma solicit_intent_to_vote_asks_the_living_about_the_eligible_witness :
  let agents := scripted loyal in
  let president := 1 in
  let g := position 1 alternating in
  let r := 0%Z in
  let run := solicit_intent_to_vote agents president g r in
  let g' := game_of g run in
  let r' := generator_of run in
  (solicit_intent_to_vote agents president g r = Ok () g' r')
  ∧ (∃ past current intents,
       round_history g = past ++ [current]
       ∧ g' = set_round_history
                (past ++ [RoundRecord.set_declared_election_intent
                            (Some intents) current]) g
       ∧ (∀ k j v,
            declared intents k j = Some v →
            ∃ candidate player,
              index (players g) candidate = Some k
              ∧ skipped_candidate g president candidate = false
              ∧ index (players g) player = Some j
              ∧ player ∈ living g
              ∧ ∃ r1 r2,
                  agents player Player.intent_to_vote_on_government
                    (perceived g player) r1 = (Returns v, r2))
       ∧ (∀ candidate player k j,
            index (players g) candidate = Some k →
            skipped_candidate g president candidate = false →
            index (players g) player = Some j →
            player ∈ living g →
            is_Some (declared intents k j))).
Proof.
  intros agents president g r run g' r'.
  assert (solicit_intent_to_vote agents president g r = Ok () g' r')
    as H1 by (evaluated).
  split; [exact H1|].
  eapply solicit_intent_to_vote_asks_the_living_about_the_eligible; eassumption.
Defined.

(** President 0 of a game of five answers -5 and is the candidate. *)
Lemma select_chancellor_seats_whoever_is_named_witness :
  let agents := scripted selfish in
  let president := 0 in
  let g := position 1 alternating in
  let r := 0%Z in
  let past := earlier g in
  let current := last_record g in
  let answer := VInt (-5) in
  let r1 := 0%Z in
  let chancellor := 0 in
  (round_history g = past ++ [current])
  ∧ (president ∈ players g)
  ∧ (agents president Player.select_chancellor (perceived g president) r
     = (Returns answer, r1))
  ∧ (subscript (players g) answer = inr chancellor)
  ∧ (select_chancellor agents president g r
     = Ok (chancellor, answer)
         (set_round_history
            (past ++ [RoundRecord.set_chancellor (Some answer) current]) g)
         r1).
Proof.
  intros agents president g r past current answer r1 chancellor.
  assert (round_history g = past ++ [current])
    as H1 by (evaluated).
  assert (president ∈ players g)
    as H2 by (evaluated).
  assert (agents president Player.select_chancellor (perceived g president) r
          = (Returns answer, r1))
    as H3 by (evaluated).
  assert (subscript (players g) answer = inr chancellor)
    as H4 by (evaluated).
  split; [exact H1|].
  split; [exact H2|].
  split; [exact H3|].
  split; [exact H4|].
  eapply select_chancellor_seats_whoever_is_named; eassumption.
Defined.

(** One vote of 3 and four votes of 0 elect the government of a game
    of five. *)
Lemma hold_election_adds_the_votes_up_witness :
  let agents := scripted weighty in
  let g := position 1 alternating in
  let r := 0%Z in
  let run := hold_election agents g r in
  let elected := value_of false run in
  let g' := game_of g run in
  let r' := generator_of run in
  (hold_election agents g r = Ok elected g' r')
  ∧ (∃ past current results,
       round_history g = past ++ [current]
       ∧ g' = set_round_history
                (past ++ [RoundRecord.set_successful_election (Some elected)
                            (RoundRecord.set_election_results (Some results)
                               current)]) g
       ∧ (∀ i v, results !! i = Some v →
                 ∃ player r1 r2,
                   player ∈ living g ∧ index (players g) player = Some i
                   ∧ agents player Player.vote_on_government
                       (perceived g player) r1 = (Returns v, r2))
       ∧ (∀ player i,
            player ∈ living g → index (players g) player = Some i →
            is_Some (results !! i))
       ∧ ((∀ i v, results !! i = Some v → is_Some (as_int v)) →
          ∃ total,
            sum_values (snd <$> map_to_list results) = inr total
            ∧ elected
              = bool_decide (Z.of_nat (length (players g)) < 2 * total)%Z)).
Proof.
  intros agents g r run elected g' r'.
  assert (hold_election agents g r = Ok elected g' r')
    as H1 by (evaluated).
  split; [exact H1|].
  eapply hold_election_adds_the_votes_up; eassumption.
Defined.

(** President 0 investigates player 2, a liberal. *)
Lemma investigate_player_records_the_party_witness :
  let agents := scripted loyal in
  let president := 0 in
  let g := position 1 alternating in
  let r := 0%Z in
  let past := earlier g in
  let current := last_record g in
  let answer := VInt 2 in
  let r1 := 0%Z in
  let investigated := 2 in
  let claim := VAllegiance Allegiance.LIBERAL in
  let r2 := 0%Z in
  (round_history g = past ++ [current])
  ∧ (president ∈ players g)
  ∧ (agents president Player.select_player_to_investigate
       (perceived g president) r = (Returns answer, r1))
  ∧ (valid_player_id g answer = true)
  ∧ (subscript (players g) answer = inr investigated)
  ∧ (investigated ∈ liberals g ∨ investigated ∈ fascists g)
  ∧ (agents president Player.claimed_player_investigation_result
       (perceived g president) r1 = (Returns claim, r2))
  ∧ (investigate_player agents president g r
     = Ok ()
         (set_round_history
            (past
             ++ [RoundRecord.set_claimed_investigated_player_allegiance
                   (Some claim)
                   (RoundRecord.set_investigated_player_identity
                      (Some (if bool_decide (investigated ∈ liberals g)
                             then Allegiance.LIBERAL
                             else Allegiance.FASCIST))
                      (RoundRecord.set_investigated_player (Some answer)
                         current))]) g)
         r2).
Proof.
  intros agents president g r past current answer r1 investigated claim r2.
  assert (round_history g = past ++ [current])
    as H1 by (evaluated).
  assert (president ∈ players g)
    as H2 by (evaluated).
  assert (agents president Player.select_player_to_investigate
            (perceived g president) r = (Returns answer, r1))
    as H3 by (evaluated).
  assert (valid_player_id g answer = true)
    as H4 by (evaluated).
  assert (subscript (players g) answer = inr investigated)
    as H5 by (evaluated).
  assert (investigated ∈ liberals g ∨ investigated ∈ fascists g)
    as H6 by (evaluated).
  assert (agents president Player.claimed_player_investigation_result
            (perceived g president) r1 = (Returns claim, r2))
    as H7 by (evaluated).
  split; [exact H1|].
  split; [exact H2|].
  split; [exact H3|].
  split; [exact H4|].
  split; [exact H5|].
  split; [exact H6|].
  split; [exact H7|].
  eapply investigate_player_records_the_party; eassumption.
Defined.

(** President 0 calls player 3. *)
Lemma declare_special_election_calls_a_living_colleague_witness :
  let agents := scripted loyal in
  let president := 0 in
  let g := position 1 alternating in
  let r := 0%Z in
  let past := earlier g in
  let current := last_record g in
  let answer := VInt 3 in
  let r1 := 0%Z in
  let called := 3 in
  (round_history g = past ++ [current])
  ∧ (president ∈ players g)
  ∧ (agents president Player.select_special_election_president
       (perceived g president) r = (Returns answer, r1))
  ∧ (valid_player_id g answer = true)
  ∧ (subscript (players g) answer = inr called)
  ∧ (declare_special_election agents president g r
     = if bool_decide (called = president) then
         Raise (PlayerException
                  "Player {president} selected themselves as President for special election."
                  president None)
       else if bool_decide (called ∈ executed_players g) then
         Raise (PlayerException
                  "Player {president} selected a corpse as President for special election."
                  president None)
       else
         Ok ()
           (set_round_history
              (past ++ [RoundRecord.set_special_election_next_president
                          (Some answer) current])
              (set_special_election_next_president (Some called) g))
           r1).
Proof.
  intros agents president g r past current answer r1 called.
  assert (round_history g = past ++ [current])
    as H1 by (evaluated).
  assert (president ∈ players g)
    as H2 by (evaluated).
  assert (agents president Player.select_special_election_president
            (perceived g president) r = (Returns answer, r1))
    as H3 by (evaluated).
  assert (valid_player_id g answer = true)
    as H4 by (evaluated).
  assert (subscript (players g) answer = inr called)
    as H5 by (evaluated).
  split; [exact H1|].
  split; [exact H2|].
  split; [exact H3|].
  split; [exact H4|].
  split; [exact H5|].
  eapply declare_special_election_calls_a_living_colleague; eassumption.
Defined.

(** President 0 names seat 0. *)
Lemma execute_player_removes_whoever_is_named_witness :
  let agents := scripted selfish in
  let president := 0 in
  let g := position 1 alternating in
  let r := 0%Z in
  let past := earlier g in
  let current := last_record g in
  let answer := VInt 0 in
  let r1 := 0%Z in
  let victim := 0 in
  (round_history g = past ++ [current])
  ∧ (president ∈ players g)
  ∧ (agents president Player.select_player_to_execute
       (perceived g president) r = (Returns answer, r1))
  ∧ (valid_player_id g answer = true)
  ∧ (subscript (players g) answer = inr victim)
  ∧ (execute_player agents president g r
     = if bool_decide (victim ∈ executed_players g) then
         Raise (PlayerException
                  "Player {president} selected a corpse for execution."
                  president None)
       else
         Ok ()
           (set_round_history
              (past ++ [RoundRecord.set_executed_player (Some answer)
                          current])
              (set_presidential_order
                 (filter (λ player, player ≠ victim) (presidential_order g))
                 (set_executed_players (executed_players g ++ [victim]) g)))
           r1).
Proof.
  intros agents president g r past current answer r1 victim.
  assert (round_history g = past ++ [current])
    as H1 by (evaluated).
  assert (president ∈ players g)
    as H2 by (evaluated).
  assert (agents president Player.select_player_to_execute
            (perceived g president) r = (Returns answer, r1))
    as H3 by (evaluated).
  assert (valid_player_id g answer = true)
    as H4 by (evaluated).
  assert (subscript (players g) answer = inr victim)
    as H5 by (evaluated).
  split; [exact H1|].
  split; [exact H2|].
  split; [exact H3|].
  split; [exact H4|].
  split; [exact H5|].
  eapply execute_player_removes_whoever_is_named; eassumption.
Defined.


(** The fourth round of a game of five whose deck starts with the
    fascist policies: an execution. *)
Lemma play_round_uses_one_presidential_power_witness :
  let agents := scripted loyal in
  let g := position 3 fascist_first in
  let r := 0%Z in
  let run := play_round agents g r in
  let g' := game_of g run in
  let r' := generator_of run in
  (play_round agents g r = Ok () g' r')
  ∧ (∃ current president,
       last (round_history g') = Some current
       ∧ (special_election_next_president g = Some president
          ∨ (special_election_next_president g = None
             ∧ head (presidential_order g) = Some president))
       ∧ ((executive_of current = (None, None, None, None, None)
           ∧ executed_players g' = executed_players g
           ∧ presidential_order g' ≡ₚ presidential_order g
           ∧ special_election_next_president g' = None)
          ∨ (∃ investigated_id investigated claim,
               executive_of current
               = (Some investigated_id,
                  Some (if bool_decide (investigated ∈ liberals g)
                        then Allegiance.LIBERAL else Allegiance.FASCIST),
                  Some claim, None, None)
               ∧ fascist_policies_passed g' ∈ [1; 2]
               ∧ subscript (players g) investigated_id = inr investigated
               ∧ (investigated ∈ liberals g ∨ investigated ∈ fascists g)
               ∧ executed_players g' = executed_players g
               ∧ presidential_order g' ≡ₚ presidential_order g
               ∧ special_election_next_president g' = None)
          ∨ (∃ called_id called,
               executive_of current
               = (None, None, None, Some called_id, None)
               ∧ fascist_policies_passed g' = 3
               ∧ subscript (players g) called_id = inr called
               ∧ called ≠ president
               ∧ (called ∉ executed_players g)
               ∧ executed_players g' = executed_players g
               ∧ presidential_order g' ≡ₚ presidential_order g
               ∧ special_election_next_president g' = Some called)
          ∨ (∃ shot_id victim,
               executive_of current
               = (None, None, None, None, Some shot_id)
               ∧ fascist_policies_passed g' ∈ [4; 5]
               ∧ subscript (players g) shot_id = inr victim
               ∧ (victim ∉ executed_players g)
               ∧ executed_players g' = executed_players g ++ [victim]
               ∧ presidential_order g'
                 ≡ₚ filter (λ player, player ≠ victim)
                      (presidential_order g)
               ∧ special_election_next_president g' = None))
       ∧ (executive_of current ≠ (None, None, None, None, None) →
          RoundRecord.successful_election current = Some true
          ∧ RoundRecord.anarchy_result current = None)).
Proof.
  intros agents g r run g' r'.
  assert (play_round agents g r = Ok () g' r')
    as H1 by (evaluated).
  split; [exact H1|].
  eapply play_round_uses_one_presidential_power; eassumption.
Defined.

(** The sixth round of that game: two cards are left, and the deck is
    built anew. *)
Lemma play_round_enacts_a_card_it_took_witness :
  let agents := scripted loyal in
  let g := position 5 fascist_first in
  let r := 0%Z in
  let run := play_round agents g r in
  let g' := game_of g run in
  let r' := generator_of run in
  (play_round agents g r = Ok () g' r')
  ∧ (∃ current deck drawn,
       last (round_history g') = Some current
       ∧ liberal_policies_passed g'
         = liberal_policies_passed g
           + Nat.b2n (RoundRecord.passed Policy.LIBERAL current)
       ∧ fascist_policies_passed g'
         = fascist_policies_passed g
           + Nat.b2n (RoundRecord.passed Policy.FASCIST current)
       ∧ liberal_policies_passed g' + fascist_policies_passed g'
         ≤ liberal_policies_passed g + fascist_policies_passed g + 1
       ∧ ((3 ≤ length (policy_deck g) ∧ deck = policy_deck g
           ∧ random_number_generator g' = random_number_generator g)
          ∨ (length (policy_deck g) < 3
             ∧ count Policy.FASCIST deck = 11 - fascist_policies_passed g
             ∧ count Policy.LIBERAL deck = 6 - liberal_policies_passed g
             ∧ length deck
               = (11 - fascist_policies_passed g)
                 + (6 - liberal_policies_passed g)))
       ∧ deck = drawn ++ policy_deck g'
       ∧ fascist_policies_passed g'
         ≤ fascist_policies_passed g + count Policy.FASCIST drawn
       ∧ (3 ≤ length deck →
          liberal_policies_passed g'
          ≤ liberal_policies_passed g + count Policy.LIBERAL drawn)).
Proof.
  intros agents g r run g' r'.
  assert (play_round agents g r = Ok () g' r')
    as H1 by (evaluated).
  split; [exact H1|].
  eapply play_round_enacts_a_card_it_took; eassumption.
Defined.

(** Four rounds of which only the second has a successful election. *)
Lemma record_anarchy_counter_counts_back_to_the_last_success_witness :
  let g := rounds 4 (scripted wavering) (five fascist_first) in
  let c := last_record g in
  let older := take 2 (round_history g) in
  let recent := drop 2 (round_history g) in
  (chain c = older ++ recent)
  ∧ (Forall (λ round, is_Some (RoundRecord.election_results round)
                      ∧ RoundRecord.successful_election round ≠ Some true)
       recent)
  ∧ ((older = []
      ∨ ∃ round, last older = Some round
                 ∧ is_Some (RoundRecord.election_results round)
                 ∧ RoundRecord.successful_election round = Some true))
  ∧ (RoundRecord.anarchy_counter c = length recent).
Proof.
  intros g c older recent.
  assert (chain c = older ++ recent)
    as H1 by (evaluated).
  assert (Forall (λ round, is_Some (RoundRecord.election_results round)
                           ∧ RoundRecord.successful_election round ≠ Some true)
            recent)
    as H2 by (evaluated).
  assert ((older = []
           ∨ ∃ round, last older = Some round
                      ∧ is_Some (RoundRecord.election_results round)
                      ∧ RoundRecord.successful_election round = Some true))
    as H3 by (right; exists (last_record (rounds 2 (scripted wavering) (five fascist_first))); split_and!; evaluated).
  split; [exact H1|].
  split; [exact H2|].
  split; [exact H3|].
  eapply record_anarchy_counter_counts_back_to_the_last_success; eassumption.
Defined.

(** Seven rounds of a game of five. *)
Lemma round_history_is_a_chain_of_finished_rounds_witness :
  let agents := scripted loyal in
  let liberals0 := ({[0; 1; 2]} : gset Player.t) in
  let fascists0 := ({[3; 4]} : gset Player.t) in
  let hitler0 := 4 in
  let deck := fascist_first in
  let order := [0; 1; 2; 3; 4] in
  let r0 := 0%Z in
  let g := five deck in
  let r := 0%Z in
  let fuel := 7 in
  let run := play_rounds agents fuel g r in
  let b := value_of false run in
  let g' := game_of g run in
  let r' := generator_of run in
  (init liberals0 fascists0 hitler0 deck order r0 = inr g)
  ∧ (play_rounds agents fuel g r = Ok b g' r')
  ∧ (∀ k c,
       round_history g' !! k = Some c →
       chain c = take (S k) (round_history g')
       ∧ RoundRecord.number_of_players c = length order
       ∧ index order hitler0 = Some (RoundRecord.hitler c)
       ∧ (∀ i, i ∈ RoundRecord.fascists c
               ↔ ∃ p, p ∈ fascists0 ∧ index order p = Some i)
       ∧ RoundRecord.your_player_id c = None
       ∧ is_Some (RoundRecord.president c)
       ∧ is_Some (RoundRecord.chancellor c)
       ∧ is_Some (RoundRecord.election_results c)
       ∧ is_Some (RoundRecord.successful_election c)).
Proof.
  intros agents liberals0 fascists0 hitler0 deck order r0 g r fuel run b g' r'.
  assert (init liberals0 fascists0 hitler0 deck order r0 = inr g)
    as H1 by (evaluated).
  assert (play_rounds agents fuel g r = Ok b g' r')
    as H2 by (evaluated).
  split; [exact H1|].
  split; [exact H2|].
  eapply round_history_is_a_chain_of_finished_rounds; eassumption.
Defined.

(** Seven rounds of a game of five, with three executions. *)
Lemma tallies_are_those_of_the_history_witness :
  let agents := scripted loyal in
  let liberals0 := ({[0; 1; 2]} : gset Player.t) in
  let fascists0 := ({[3; 4]} : gset Player.t) in
  let hitler0 := 4 in
  let deck := fascist_first in
  let order := [0; 1; 2; 3; 4] in
  let r0 := 0%Z in
  let g := five deck in
  let r := 0%Z in
  let fuel := 7 in
  let run := play_rounds agents fuel g r in
  let b := value_of false run in
  let g' := game_of g run in
  let r' := generator_of run in
  (init liberals0 fascists0 hitler0 deck order r0 = inr g)
  ∧ (play_rounds agents fuel g r = Ok b g' r')
  ∧ (liberal_policies_passed g'
     = length (filter (λ round, RoundRecord.passed Policy.LIBERAL round)
                 (round_history g'))
     ∧ fascist_policies_passed g'
       = length (filter (λ round, RoundRecord.passed Policy.FASCIST round)
                   (round_history g'))
     ∧ Forall2 (λ id p, subscript order id = inr p)
         (omap RoundRecord.executed_player (round_history g'))
         (executed_players g')
     ∧ ∀ c, last (round_history g') = Some c →
            RoundRecord.number_of_liberal_policies_passed c
            = liberal_policies_passed g'
            ∧ RoundRecord.number_of_fascist_policies_passed c
              = fascist_policies_passed g'
            ∧ Forall2 (λ id p, subscript order id = inr p)
                (RoundRecord.executed_players c) (executed_players g')).
Proof.
  intros agents liberals0 fascists0 hitler0 deck order r0 g r fuel run b g' r'.
  assert (init liberals0 fascists0 hitler0 deck order r0 = inr g)
    as H1 by (evaluated).
  assert (play_rounds agents fuel g r = Ok b g' r')
    as H2 by (evaluated).
  split; [exact H1|].
  split; [exact H2|].
  eapply tallies_are_those_of_the_history; eassumption.
Defined.

(** Four rounds of a game of five: an execution, after a special
    election. *)
Lemma presidential_order_holds_the_living_witness :
  let agents := scripted loyal in
  let liberals0 := ({[0; 1; 2]} : gset Player.t) in
  let fascists0 := ({[3; 4]} : gset Player.t) in
  let hitler0 := 4 in
  let deck := fascist_first in
  let order := [0; 1; 2; 3; 4] in
  let r0 := 0%Z in
  let g := five deck in
  let r := 0%Z in
  let fuel := 4 in
  let run := play_rounds agents fuel g r in
  let b := value_of false run in
  let g' := game_of g run in
  let r' := generator_of run in
  (init liberals0 fascists0 hitler0 deck order r0 = inr g)
  ∧ (play_rounds agents fuel g r = Ok b g' r')
  ∧ (players g' = order
     ∧ presidential_order g'
       ≡ₚ filter (λ p, p ∉ executed_players g') order
     ∧ NoDup (executed_players g')
     ∧ (∀ p, p ∈ executed_players g' → p ∈ order)
     ∧ (∀ p, special_election_next_president g' = Some p →
             p ∈ order ∧ p ∉ executed_players g')).
Proof.
  intros agents liberals0 fascists0 hitler0 deck order r0 g r fuel run b g' r'.
  assert (init liberals0 fascists0 hitler0 deck order r0 = inr g)
    as H1 by (evaluated).
  assert (play_rounds agents fuel g r = Ok b g' r')
    as H2 by (evaluated).
  split; [exact H1|].
  split; [exact H2|].
  eapply presidential_order_holds_the_living; eassumption.
Defined.

(** Seven rounds of a game of five, the deck built anew in the
    sixth. *)
Lemma no_policy_is_enacted_twice_witness :
  let agents := scripted loyal in
  let liberals0 := ({[0; 1; 2]} : gset Player.t) in
  let fascists0 := ({[3; 4]} : gset Player.t) in
  let hitler0 := 4 in
  let deck := fascist_first in
  let order := [0; 1; 2; 3; 4] in
  let r0 := 0%Z in
  let g := five deck in
  let r := 0%Z in
  let fuel := 7 in
  let run := play_rounds agents fuel g r in
  let b := value_of false run in
  let g' := game_of g run in
  let r' := generator_of run in
  (init liberals0 fascists0 hitler0 deck order r0 = inr g)
  ∧ (count Policy.FASCIST deck ≤ 11)
  ∧ (count Policy.LIBERAL deck ≤ 6)
  ∧ (play_rounds agents fuel g r = Ok b g' r')
  ∧ (count Policy.FASCIST (policy_deck g') + fascist_policies_passed g' ≤ 11
     ∧ count Policy.LIBERAL (policy_deck g') + liberal_policies_passed g'
       ≤ 6
     ∧ liberal_policies_passed g' ≤ 5 ∧ fascist_policies_passed g' ≤ 6
     ∧ liberal_policies_passed g' + fascist_policies_passed g'
       ≤ length (round_history g')).
Proof.
  intros agents liberals0 fascists0 hitler0 deck order r0 g r fuel run b g' r'.
  assert (init liberals0 fascists0 hitler0 deck order r0 = inr g)
    as H1 by (evaluated).
  assert (count Policy.FASCIST deck ≤ 11)
    as H2 by (evaluated).
  assert (count Policy.LIBERAL deck ≤ 6)
    as H3 by (evaluated).
  assert (play_rounds agents fuel g r = Ok b g' r')
    as H4 by (evaluated).
  split; [exact H1|].
  split; [exact H2|].
  split; [exact H3|].
  split; [exact H4|].
  eapply no_policy_is_enacted_twice; eassumption.
Defined.

(** Six failed elections. *)
Lemma third_failed_election_is_the_only_forced_draw_witness :
  let agents := scripted dissenting in
  let liberals0 := ({[0; 1; 2]} : gset Player.t) in
  let fascists0 := ({[3; 4]} : gset Player.t) in
  let hitler0 := 4 in
  let deck := fascist_first in
  let order := [0; 1; 2; 3; 4] in
  let r0 := 0%Z in
  let g := five deck in
  let r := 0%Z in
  let fuel := 6 in
  let run := play_rounds agents fuel g r in
  let b := value_of false run in
  let g' := game_of g run in
  let r' := generator_of run in
  (init liberals0 fascists0 hitler0 deck order r0 = inr g)
  ∧ (play_rounds agents fuel g r = Ok b g' r')
  ∧ (anarchy_counter g'
     = length (filter (λ round,
                         RoundRecord.successful_election round = Some false)
                 (round_history g'))
     ∧ length (filter (λ round, is_Some (RoundRecord.anarchy_result round))
                 (round_history g'))
       = if decide (3 ≤ anarchy_counter g') then 1 else 0).
Proof.
  intros agents liberals0 fascists0 hitler0 deck order r0 g r fuel run b g' r'.
  assert (init liberals0 fascists0 hitler0 deck order r0 = inr g)
    as H1 by (evaluated).
  assert (play_rounds agents fuel g r = Ok b g' r')
    as H2 by (evaluated).
  split; [exact H1|].
  split; [exact H2|].
  eapply third_failed_election_is_the_only_forced_draw; eassumption.
Defined.


End At_work.
